(** * Webex Calling detailed report: the CDR report processor

    A shallow embedding of [app/webex_cdr_processor.py] (class
    [CDRReportProcessor]) together with the parts of [app/webex_api.py],
    [app/funcs.py] and [app/config/config.py] it calls, and the properties
    of the report life cycle: aggregation of call records, the poll loop,
    the stored-report quota check and the clean-up of the remote report.

    Python values are embedded as follows.
    - [str] is a list of Unicode code points ([pystr]).
    - [int] is [Z]; the counters of the metrics dictionary are [Z].
    - [dict] is a [gmap]; the dictionaries of the processor are only read by
      key, so their insertion order is not modelled.
    - A statement either returns or raises; whatever it did to the state
      before it raised stays done, as in Python. *)

From Stdlib Require Import ZArith NArith List String Ascii Bool Lia.
From stdpp Require Import base option list strings countable gmap fin_maps.

Local Open Scope Z_scope.

(** ** Python strings *)

Abbreviation pystr := (list N).

(** A literal whose characters are all ASCII. *)
Definition str (s : string) : pystr :=
  List.map N_of_ascii (list_ascii_of_string s).

(** *** The Unicode character database

    The tables below are those of Unicode 14.0, the version of the
    [unicodedata] module of CPython 3.11.  Every run of characters of
    general category Nd has ten code points, for the values 0 to 9 in
    order; [decimal_zeros] lists the code point of the zero of each run. *)
Definition decimal_zeros : list N :=
  [ 0x30; 0x660; 0x6f0; 0x7c0; 0x966; 0x9e6; 0xa66; 0xae6; 0xb66; 0xbe6;
    0xc66; 0xce6; 0xd66; 0xde6; 0xe50; 0xed0; 0xf20; 0x1040; 0x1090;
    0x17e0; 0x1810; 0x1946; 0x19d0; 0x1a80; 0x1a90; 0x1b50; 0x1bb0;
    0x1c40; 0x1c50; 0xa620; 0xa8d0; 0xa900; 0xa9d0; 0xa9f0; 0xaa50;
    0xabf0; 0xff10; 0x104a0; 0x10d30; 0x11066; 0x110f0; 0x11136; 0x111d0;
    0x112f0; 0x11450; 0x114d0; 0x11650; 0x116c0; 0x11730; 0x118e0;
    0x11950; 0x11c50; 0x11d50; 0x11da0; 0x16a60; 0x16ac0; 0x16b50;
    0x1d7ce; 0x1d7d8; 0x1d7e2; 0x1d7ec; 0x1d7f6; 0x1e140; 0x1e2f0;
    0x1e950; 0x1fbf0 ]%N.

(** Characters with Numeric_Type=Digit that are not decimal (superscripts,
    subscripts, circled digits, ...): first code point of the run, last code
    point, digit value of the first. *)
Definition digit_runs : list (N * N * N) :=
  [ (0xb2, 0xb3, 2); (0xb9, 0xb9, 1); (0x1369, 0x1371, 1);
    (0x19da, 0x19da, 1); (0x2070, 0x2070, 0); (0x2074, 0x2079, 4);
    (0x2080, 0x2089, 0); (0x2460, 0x2468, 1); (0x2474, 0x247c, 1);
    (0x2488, 0x2490, 1); (0x24ea, 0x24ea, 0); (0x24f5, 0x24fd, 1);
    (0x24ff, 0x24ff, 0); (0x2776, 0x277e, 1); (0x2780, 0x2788, 1);
    (0x278a, 0x2792, 1); (0x10a40, 0x10a43, 1); (0x10e60, 0x10e68, 1);
    (0x11052, 0x1105a, 1); (0x1f100, 0x1f100, 0); (0x1f101, 0x1f10a, 0) ]%N.

(** Characters for which [str.isspace] holds. *)
Definition unicode_spaces : list N :=
  [ 0x9; 0xa; 0xb; 0xc; 0xd; 0x1c; 0x1d; 0x1e; 0x1f; 0x20; 0x85; 0xa0;
    0x1680; 0x2000; 0x2001; 0x2002; 0x2003; 0x2004; 0x2005; 0x2006;
    0x2007; 0x2008; 0x2009; 0x200a; 0x2028; 0x2029; 0x202f; 0x205f;
    0x3000 ]%N.

(** [unicodedata.decimal(c)], [None] when the character has none. *)
Definition Py_UNICODE_TODECIMAL (c : N) : option N :=
  match List.find (fun z => (z <=? c)%N && (c <? z + 10)%N) decimal_zeros with
  | Some z => Some (c - z)%N
  | None => None
  end.

(** [unicodedata.digit(c)]: every decimal is a digit. *)
Definition Py_UNICODE_TODIGIT (c : N) : option N :=
  match Py_UNICODE_TODECIMAL c with
  | Some d => Some d
  | None =>
      match List.find (fun r => (fst (fst r) <=? c)%N && (c <=? snd (fst r))%N)
                      digit_runs with
      | Some r => Some (snd r + (c - fst (fst r)))%N
      | None => None
      end
  end.

Definition Py_UNICODE_ISSPACE (c : N) : bool :=
  existsb (N.eqb c) unicode_spaces.

Definition is_decimal_char (c : N) : bool :=
  match Py_UNICODE_TODECIMAL c with Some _ => true | None => false end.

Definition is_digit_char (c : N) : bool :=
  match Py_UNICODE_TODIGIT c with Some _ => true | None => false end.

(** [s.isdigit()]: at least one character, and every character is a digit
    (Numeric_Type=Digit or Decimal). *)
Definition isdigit (s : pystr) : bool :=
  match s with
  | [] => false
  | _ => forallb is_digit_char s
  end.

(** [s.isdecimal()], which the source never calls: it is the set of strings
    made of the characters [int] reads as digits. *)
Definition isdecimal (s : pystr) : bool :=
  match s with
  | [] => false
  | _ => forallb is_decimal_char s
  end.

(** [s.lower()].  Exact on ASCII and on the two other code points whose
    lower case contains an ASCII letter (U+0130 and the Kelvin sign U+212A).
    Every other code point is left as it is: its lower case in Python has a
    character outside ASCII, so whether the result equals an ASCII literal,
    the only use the processor makes of [lower], is the same. *)
Definition lower_char (c : N) : pystr :=
  if ((65 <=? c) && (c <=? 90))%N then [(c + 32)%N]
  else if (c =? 0x130)%N then [0x69; 0x307]%N
  else if (c =? 0x212a)%N then [0x6b]%N
  else [c].

Definition lower (s : pystr) : pystr := List.concat (List.map lower_char s).

(** [s.strip()]: removes leading and trailing white space. *)
Fixpoint lstrip (s : pystr) : pystr :=
  match s with
  | c :: s' => if Py_UNICODE_ISSPACE c then lstrip s' else s
  | [] => []
  end.

Definition strip (s : pystr) : pystr := rev (lstrip (rev (lstrip s))).

(** ** Exceptions and results *)

(** What [hasattr(e, 'response')] and [e.response] give for an exception. *)
Inductive response_attr :=
  | NoResponseAttr
  | ResponseIsNone
  | Response (status_code : Z).

Inductive exn :=
  | TypeError
  | ValueError
  | AttributeError
  | KeyError
  | EOFError
  | LibraryError (r : response_attr)
      (* any other subclass of Exception raised by a collaborator:
         requests.RequestException, wxcadm.exceptions.*, OSError, ... *)
  | SystemExit (code : Z)
  | KeyboardInterrupt.

(** [isinstance(e, Exception)]: [SystemExit] and [KeyboardInterrupt] derive
    from [BaseException] only. *)
Definition is_Exception (e : exn) : bool :=
  match e with
  | SystemExit _ | KeyboardInterrupt => false
  | _ => true
  end.

Inductive res (A : Type) :=
  | Ok (a : A)
  | Raise (e : exn).
Arguments Ok {A} a.
Arguments Raise {A} e.

(** ** [int(s)] for a string

    CPython first maps every white space above U+007F to a space and every
    decimal character to its ASCII digit ([None]: a character that is
    neither, for which the conversion fails). *)
Definition to_ascii_digit_or_space (c : N) : option N :=
  if (c <? 127)%N then Some c
  else if Py_UNICODE_ISSPACE c then Some 32%N
  else match Py_UNICODE_TODECIMAL c with
       | Some d => Some (48 + d)%N
       | None => None
       end.

Fixpoint transform_decimal_and_space (s : pystr) : option pystr :=
  match s with
  | [] => Some []
  | c :: s' =>
      match to_ascii_digit_or_space c, transform_decimal_and_space s' with
      | Some a, Some t => Some (a :: t)
      | _, _ => None
      end
  end.

(** C's [isspace] in the "C" locale, as [PyLong_FromString] uses it. *)
Definition Py_ISSPACE (c : N) : bool :=
  ((9 <=? c) && (c <=? 13))%N || (c =? 32)%N.

Fixpoint skip_spaces (s : pystr) : pystr :=
  match s with
  | c :: s' => if Py_ISSPACE c then skip_spaces s' else s
  | [] => []
  end.

Definition ascii_digit (c : N) : option Z :=
  if ((48 <=? c) && (c <=? 57))%N then Some (Z.of_N c - 48) else None.

Inductive scan_prev := AtStart | AfterDigit | AfterUnderscore.

(** The digits of a base-10 literal: underscores only between two digits.
    Returns the value, the number of digits and what follows them. *)
Fixpoint scan_digits (prev : scan_prev) (acc : Z) (n : N) (s : pystr)
  : option (Z * N * pystr) :=
  let stop :=
    match prev with
    | AfterDigit => Some (acc, n, s)
    | _ => None
    end in
  match s with
  | [] => stop
  | c :: s' =>
      match ascii_digit c with
      | Some d => scan_digits AfterDigit (10 * acc + d) (n + 1)%N s'
      | None =>
          if (c =? 95)%N then
            match prev with
            | AfterDigit => scan_digits AfterUnderscore acc n s'
            | _ => None
            end
          else stop
      end
  end.

(** [int(s)] in base 10.  [max_str_digits] is
    [sys.get_int_max_str_digits()]: 4300 by default since CPython 3.11
    (and the security releases of 3.7 to 3.10), 0 for no limit. *)
Definition py_int (max_str_digits : N) (s : pystr) : res Z :=
  match transform_decimal_and_space s with
  | None => Raise ValueError
  | Some t =>
      let t1 := skip_spaces t in
      let '(sign, t2) :=
        match t1 with
        | c :: r =>
            if (c =? 43)%N then (1, r)
            else if (c =? 45)%N then (-1, r)
            else (1, t1)
        | [] => (1, t1)
        end in
      match scan_digits AtStart 0 0%N t2 with
      | None => Raise ValueError
      | Some (v, n, rest) =>
          match skip_spaces rest with
          | [] =>
              if ((0 <? max_str_digits) && (max_str_digits <? n))%N
              then Raise ValueError
              else Ok (sign * v)
          | _ :: _ => Raise ValueError
          end
      end
  end.

(** ** Rows and dictionaries *)

(** A value found in a row of [csv.DictReader]: a string, or [None] for a
    field the line was too short to give ([restval]). *)
Inductive pyval :=
  | PStr (s : pystr)
  | PNone.

#[global] Instance pyval_eq_dec : EqDecision pyval.
Proof. solve_decision. Defined.

#[global] Instance pyval_countable : Countable pyval.
Proof.
  refine (inj_countable'
            (fun v => match v with PStr s => Some s | PNone => None end)
            (fun o => match o with Some s => PStr s | None => PNone end) _).
  intros []; reflexivity.
Defined.

(** One call record: the string-keyed entries of the dictionary.  The
    entry [DictReader] files under the key [None] for a line with too many
    fields is never read by the processor and is left out. *)
Abbreviation row := (gmap pystr pyval).

(** [item.get(key, default)] *)
Definition dict_get (item : row) (key : string) (default : pyval) : pyval :=
  match item !! str key with
  | Some v => v
  | None => default
  end.

(** Truth value of a string or [None]. *)
Definition truthy (v : pyval) : bool :=
  match v with
  | PStr (_ :: _) => true
  | _ => false
  end.

(** ** Dates and times *)

(** A [datetime]: its wall-clock fields as microseconds since
    0001-01-01T00:00:00, and its UTC offset in microseconds when it is
    aware. *)
Record datetime := {
  dt_wall : Z;
  dt_utcoffset : option Z
}.

(** [a - b] as a [timedelta] in microseconds; [total_seconds()] is this
    number divided by 10^6, as a float. *)
Definition datetime_sub (a b : datetime) : res Z :=
  match dt_utcoffset a, dt_utcoffset b with
  | None, None => Ok (dt_wall a - dt_wall b)
  | Some oa, Some ob => Ok ((dt_wall a - oa) - (dt_wall b - ob))
  | _, _ => Raise TypeError
      (* can't subtract offset-naive and offset-aware datetimes *)
  end.

(** ** The interpreter and its standard library

    What the processor takes from the Python installation it runs on.  The
    set of strings [datetime.fromisoformat] accepts grew with CPython 3.11,
    and the dialect of [csv.DictReader] is not ours to fix, so both are
    left open: [None] is [fromisoformat] raising [ValueError], its only
    exception on a string. *)
Class PyRuntime := {
  int_max_str_digits : N;
  fromisoformat : pystr -> option datetime;
  DictReader : list pystr -> res (list row)
}.

(** ** The metrics dictionary *)

(** The value of [department_calls[d]] and of [user_calls[u]]. *)
Record bucket := {
  bk_total_calls : Z;
  bk_connected_calls : Z;
  bk_voicemail_calls : Z;
  bk_total_duration : Z
}.

Definition new_bucket : bucket :=
  {| bk_total_calls := 0; bk_connected_calls := 0;
     bk_voicemail_calls := 0; bk_total_duration := 0 |}.

Definition bk_add_total_calls (n : Z) (b : bucket) : bucket :=
  {| bk_total_calls := bk_total_calls b + n;
     bk_connected_calls := bk_connected_calls b;
     bk_voicemail_calls := bk_voicemail_calls b;
     bk_total_duration := bk_total_duration b |}.

Definition bk_add_connected_calls (n : Z) (b : bucket) : bucket :=
  {| bk_total_calls := bk_total_calls b;
     bk_connected_calls := bk_connected_calls b + n;
     bk_voicemail_calls := bk_voicemail_calls b;
     bk_total_duration := bk_total_duration b |}.

Definition bk_add_voicemail_calls (n : Z) (b : bucket) : bucket :=
  {| bk_total_calls := bk_total_calls b;
     bk_connected_calls := bk_connected_calls b;
     bk_voicemail_calls := bk_voicemail_calls b + n;
     bk_total_duration := bk_total_duration b |}.

Definition bk_add_total_duration (n : Z) (b : bucket) : bucket :=
  {| bk_total_calls := bk_total_calls b;
     bk_connected_calls := bk_connected_calls b;
     bk_voicemail_calls := bk_voicemail_calls b;
     bk_total_duration := bk_total_duration b + n |}.

(** [self.metrics].  A response time is kept as the [timedelta] in
    microseconds. *)
Record metrics := {
  total_duration : Z;
  total_calls : Z;
  connected_calls : Z;
  voicemail_calls : Z;
  response_times : list Z;
  call_outcomes : gmap pyval Z;
  department_calls : gmap pyval bucket;
  user_calls : gmap pyval bucket
}.

(** The dictionary [__init__] builds. *)
Definition initial_metrics : metrics :=
  {| total_duration := 0; total_calls := 0; connected_calls := 0;
     voicemail_calls := 0; response_times := []; call_outcomes := ∅;
     department_calls := ∅; user_calls := ∅ |}.

Definition add_total_duration (n : Z) (m : metrics) : metrics :=
  {| total_duration := total_duration m + n;
     total_calls := total_calls m;
     connected_calls := connected_calls m;
     voicemail_calls := voicemail_calls m;
     response_times := response_times m;
     call_outcomes := call_outcomes m;
     department_calls := department_calls m;
     user_calls := user_calls m |}.

Definition add_total_calls (n : Z) (m : metrics) : metrics :=
  {| total_duration := total_duration m;
     total_calls := total_calls m + n;
     connected_calls := connected_calls m;
     voicemail_calls := voicemail_calls m;
     response_times := response_times m;
     call_outcomes := call_outcomes m;
     department_calls := department_calls m;
     user_calls := user_calls m |}.

Definition add_connected_calls (n : Z) (m : metrics) : metrics :=
  {| total_duration := total_duration m;
     total_calls := total_calls m;
     connected_calls := connected_calls m + n;
     voicemail_calls := voicemail_calls m;
     response_times := response_times m;
     call_outcomes := call_outcomes m;
     department_calls := department_calls m;
     user_calls := user_calls m |}.

Definition add_voicemail_calls (n : Z) (m : metrics) : metrics :=
  {| total_duration := total_duration m;
     total_calls := total_calls m;
     connected_calls := connected_calls m;
     voicemail_calls := voicemail_calls m + n;
     response_times := response_times m;
     call_outcomes := call_outcomes m;
     department_calls := department_calls m;
     user_calls := user_calls m |}.

Definition append_response_time (t : Z) (m : metrics) : metrics :=
  {| total_duration := total_duration m;
     total_calls := total_calls m;
     connected_calls := connected_calls m;
     voicemail_calls := voicemail_calls m;
     response_times := response_times m ++ [t];
     call_outcomes := call_outcomes m;
     department_calls := department_calls m;
     user_calls := user_calls m |}.

Definition set_call_outcomes (f : gmap pyval Z -> gmap pyval Z) (m : metrics)
  : metrics :=
  {| total_duration := total_duration m;
     total_calls := total_calls m;
     connected_calls := connected_calls m;
     voicemail_calls := voicemail_calls m;
     response_times := response_times m;
     call_outcomes := f (call_outcomes m);
     department_calls := department_calls m;
     user_calls := user_calls m |}.

Definition set_department_calls
    (f : gmap pyval bucket -> gmap pyval bucket) (m : metrics) : metrics :=
  {| total_duration := total_duration m;
     total_calls := total_calls m;
     connected_calls := connected_calls m;
     voicemail_calls := voicemail_calls m;
     response_times := response_times m;
     call_outcomes := call_outcomes m;
     department_calls := f (department_calls m);
     user_calls := user_calls m |}.

Definition set_user_calls
    (f : gmap pyval bucket -> gmap pyval bucket) (m : metrics) : metrics :=
  {| total_duration := total_duration m;
     total_calls := total_calls m;
     connected_calls := connected_calls m;
     voicemail_calls := voicemail_calls m;
     response_times := response_times m;
     call_outcomes := call_outcomes m;
     department_calls := department_calls m;
     user_calls := f (user_calls m) |}.

(** ** Statements that update a state and may raise *)

Definition M (S A : Type) : Type := S -> res A * S.

Definition ret {S A} (a : A) : M S A := fun s => (Ok a, s).

Definition raise {S A} (e : exn) : M S A := fun s => (Raise e, s).

Definition bind {S A B} (c : M S A) (k : A -> M S B) : M S B :=
  fun s =>
    match c s with
    | (Ok a, s') => k a s'
    | (Raise e, s') => (Raise e, s')
    end.

Definition lift_res {S A} (r : res A) : M S A := fun s => (r, s).

Definition modify {S} (f : S -> S) : M S unit := fun s => (Ok tt, f s).

(** [try: body / except <catches>: handler] *)
Definition try_except {S A} (body : M S A) (catches : exn -> bool)
    (handler : exn -> M S A) : M S A :=
  fun s =>
    match body s with
    | (Raise e, s') => if catches e then handler e s' else (Raise e, s')
    | r => r
    end.

Declare Scope stmt_scope.
Delimit Scope stmt_scope with stmt.
Notation "x <- c ;; k" := (bind c (fun x => k))
  (at level 100, c at next level, right associativity) : stmt_scope.
Notation "c ;; k" := (bind c (fun _ => k))
  (at level 100, right associativity) : stmt_scope.

(** ** [CDRReportProcessor]: aggregation of the call records *)

Section Aggregation.
Context `{RT : PyRuntime}.
Local Open Scope stmt_scope.

(** [v.lower()] *)
Definition py_lower (v : pyval) : res pystr :=
  match v with
  | PStr s => Ok (lower s)
  | PNone => Raise AttributeError
  end.

(** [v.lower() == lit] *)
Definition lower_equals (v : pyval) (lit : string) : res bool :=
  match py_lower v with
  | Ok s => Ok (bool_decide (s = str lit))
  | Raise e => Raise e
  end.

(** [int(item.get('Duration', 0)) if item.get('Duration', '').isdigit() else 0],
    the expression of lines 108, 121 and 154. *)
Definition duration_of (item : row) : res Z :=
  match dict_get item "Duration" (PStr []) with
  | PNone => Raise AttributeError
  | PStr s =>
      if isdigit s then
        match item !! str "Duration" with
        | Some (PStr s') => py_int int_max_str_digits s'
        | Some PNone => Raise TypeError
        | None => Ok 0
        end
      else Ok 0
  end.

(** [datetime.fromisoformat(v)] *)
Definition datetime_fromisoformat (v : pyval) : res datetime :=
  match v with
  | PStr s =>
      match fromisoformat s with
      | Some d => Ok d
      | None => Raise ValueError
      end
  | PNone => Raise TypeError
  end.

Definition is_ValueError (e : exn) : bool :=
  match e with ValueError => true | _ => false end.

Definition is_TypeError (e : exn) : bool :=
  match e with TypeError => true | _ => false end.

(** The body shared by [update_department_calls] and [update_user_calls],
    which differ in the field of the row and in the dictionary of
    [self.metrics] only.  [bucket_metrics = calls[k]] is an alias of the
    stored dictionary: each assignment goes to the entry itself. *)
Definition update_bucket_calls (field : string)
    (calls : metrics -> gmap pyval bucket)
    (set_calls : (gmap pyval bucket -> gmap pyval bucket) -> metrics -> metrics)
    (item : row) : M metrics unit :=
  let k := dict_get item field (PStr (str "Unknown")) in
  modify (set_calls (fun d =>
            match d !! k with
            | Some _ => d
            | None => <[k := new_bucket]> d
            end)) ;;
  modify (set_calls (alter (bk_add_total_calls 1) k)) ;;
  answered <- lift_res (lower_equals (dict_get item "Answered" (PStr [])) "true") ;;
  (if (answered : bool) then modify (set_calls (alter (bk_add_connected_calls 1) k))
   else
     voicemail <- lift_res (lower_equals
                    (dict_get item "Call outcome reason" (PStr [])) "voicemail") ;;
     if (voicemail : bool)
     then modify (set_calls (alter (bk_add_voicemail_calls 1) k))
     else ret tt) ;;
  duration <- lift_res (duration_of item) ;;
  modify (set_calls (alter (bk_add_total_duration duration) k)).

Definition update_department_calls : row -> M metrics unit :=
  update_bucket_calls "Department ID" department_calls set_department_calls.

Definition update_user_calls : row -> M metrics unit :=
  update_bucket_calls "User" user_calls set_user_calls.

(** Lines 170 to 176: the response-time sample. *)
Definition record_response_time (answer_time_str start_time_str : pyval)
  : M metrics unit :=
  try_except
    (answer_time <- lift_res (datetime_fromisoformat answer_time_str) ;;
     start_time <- lift_res (datetime_fromisoformat start_time_str) ;;
     response_time <- lift_res (datetime_sub answer_time start_time) ;;
     modify (append_response_time response_time))
    is_ValueError
    (fun _ => ret tt).

Definition process_call_record (item : row) : M metrics unit :=
  duration <- lift_res (duration_of item) ;;
  modify (add_total_duration duration) ;;
  modify (add_total_calls 1) ;;
  answered <- lift_res (lower_equals (dict_get item "Answered" (PStr [])) "true") ;;
  call_outcome_reason <-
    lift_res (py_lower (dict_get item "Call outcome reason" (PStr []))) ;;
  (if (answered : bool) then modify (add_connected_calls 1)
   else if bool_decide (call_outcome_reason = str "voicemail")
        then modify (add_voicemail_calls 1)
        else ret tt) ;;
  (let answer_time_str := dict_get item "Answer time" (PStr []) in
   let start_time_str := dict_get item "Start time" (PStr []) in
   if truthy answer_time_str && truthy start_time_str
   then record_response_time answer_time_str start_time_str
   else ret tt) ;;
  (let outcome := dict_get item "Call outcome" (PStr (str "Unknown")) in
   modify (set_call_outcomes (fun d =>
             <[outcome := match d !! outcome with Some n => n | None => 0 end + 1]> d))) ;;
  update_department_calls item ;;
  update_user_calls item.

(** [for item in cdr_data: self.process_call_record(item)] *)
Fixpoint process_rows (cdr_data : list row) : M metrics unit :=
  match cdr_data with
  | [] => ret tt
  | item :: rest => process_call_record item ;; process_rows rest
  end.

(** [transform_department_calls_to_list] and
    [transform_user_calls_to_list]: one flat record per bucket. *)
Definition transform_calls_to_list (calls : gmap pyval bucket)
  : list (pyval * Z * Z * Z * Z) :=
  List.map (fun kb =>
              (fst kb, bk_total_calls (snd kb), bk_connected_calls (snd kb),
               bk_voicemail_calls (snd kb), bk_total_duration (snd kb)))
           (map_to_list calls).

End Aggregation.

(** ** The world around the processor

    Every call that leaves the processor (the Webex gateway of [wxcadm], the
    HTTP request of [MyWebex.delete_report], the clock, the console, the
    CSV file) is recorded as an event, newest first, with the clock
    reading at which it was issued.  What a call answers is given by the
    environment, which sees everything that happened so far. *)

Inductive log_msg :=
  | LogRunningReport            (* 'Running report with Start Date: ...' *)
  | LogCreated (report_id : pyval)
  | SpinnerFetching             (* Live(Spinner('Fetching CDR report...')) *)
  | SpinnerWaiting (report_status : pyval)
  | SpinnerFetched              (* 'Report fetched successfully!' *)
  | LogTimeout                  (* 'Timeout reached while waiting for the report.' *)
  | LogNoData                   (* 'No CDR data available.' *)
  | LogFetchError (e : exn)     (* 'An error occurred while fetching CDR data' *)
  | LogFetchResponse (status_code : Z)
  | LogProcessingError          (* 'Error processing CDR data' *)
  | LogListError (e : exn)      (* 'Error listing reports' *)
  | LogReportTable              (* display_list_as_rich_table *)
  | LogQuotaReached             (* 'You have reached the maximum number of reports' *)
  | LogOptions                  (* 'Options: 1: Delete report by ID ...' *)
  | LogNoSchedule               (* 'No valid date range or number of days ...' *)
  | LogNoCdrToProcess           (* 'No CDR data available to process.' *)
  | LogRunError (e : exn)       (* 'An error occurred while running the report' *)
  | LogFinished                 (* print_finished_panel *)
  | LogHttpStatus (status_code : Z)   (* MyWebex.handle_response *)
  | LogDeleted (report_id : pyval)
  | LogDeleteFailed (report_id : pyval) (status_code : Z)
  | LogCsvWritten
  | LogCsvValueError            (* 'CSV Writing Error' *)
  | LogCsvError.                (* 'Unexpected error while writing to CSV' *)

Inductive event :=
  | EvLog (m : log_msg)
  | EvListReports               (* webex.org.reports.list_reports() *)
  | EvCdrReportDays (days : Z)  (* webex.org.reports.cdr_report(days=...) *)
  | EvCdrReportRange (start end_ : option pystr)
  | EvReportStatus (report_id : pyval)
  | EvGetReportLines (report_id : pyval)
  | EvTime                      (* time.time() *)
  | EvSleep (seconds : Z)       (* time.sleep(seconds) *)
  | EvInput                     (* input(...) *)
  | EvDelete (report_id : pyval)   (* requests: DELETE reports/{report_id} *)
  | EvWriteCsv (data : list row).  (* the file operations of write_to_csv *)

Abbreviation history := (list (Z * event)).

(** Clock ticks in a second: the clock counts microseconds. *)
Definition second : Z := 1000000.

Record Env := {
  (* how long the call just issued takes beyond its nominal duration *)
  latency : history -> N;
  list_reports_reply : history -> res (option (list row));
  (* the report identifier, [PNone] for None or False *)
  cdr_report_reply : history -> res pyval;
  report_status_reply : history -> res pyval;
  get_report_lines_reply : history -> res (list pystr);
  input_reply : history -> res pystr;
  (* the status code of the HTTP response *)
  delete_reply : history -> res Z;
  write_csv_reply : history -> res unit
}.

(** [config]: the three settings the processor reads. *)
Record Config := {
  NUMBER_OF_DAYS_CDR_REPORT : option Z;
  START_DATE : option pystr;
  END_DATE : option pystr
}.

(** The processor object and the world: [webex] is false when [__init__]
    caught [TokenError] and set [self.webex = None]. *)
Record state := {
  webex : bool;
  self_metrics : metrics;
  trace : history;
  clock : Z
}.

(** A statement of the orchestration: [None] when the fuel given to the
    poll loop ran out before the loop ended. *)
Definition W (A : Type) : Type := state -> option (res A * state).

Definition wret {A} (a : A) : W A := fun s => Some (Ok a, s).

Definition wraise {A} (e : exn) : W A := fun s => Some (Raise e, s).

Definition out_of_fuel {A} : W A := fun _ => None.

Definition wbind {A B} (c : W A) (k : A -> W B) : W B :=
  fun s =>
    match c s with
    | Some (Ok a, s') => k a s'
    | Some (Raise e, s') => Some (Raise e, s')
    | None => None
    end.

Definition wtry {A} (body : W A) (catches : exn -> bool) (handler : exn -> W A)
  : W A :=
  fun s =>
    match body s with
    | Some (Raise e, s') => if catches e then handler e s' else Some (Raise e, s')
    | r => r
    end.

Definition wgets {A} (f : state -> A) : W A := fun s => Some (Ok (f s), s).

(** A statement on [self.metrics] alone. *)
Definition on_metrics {A} (c : M metrics A) : W A :=
  fun s =>
    let '(r, m) := c (self_metrics s) in
    Some (r, {| webex := webex s; self_metrics := m;
                trace := trace s; clock := clock s |}).

Declare Scope orch_scope.
Delimit Scope orch_scope with orch.
Notation "x <- c ;; k" := (wbind c (fun x => k))
  (at level 100, c at next level, right associativity) : orch_scope.
Notation "c ;; k" := (wbind c (fun _ => k))
  (at level 100, right associativity) : orch_scope.

Definition response_of (e : exn) : response_attr :=
  match e with
  | LibraryError r => r
  | _ => NoResponseAttr
  end.

Definition truthy_opt (o : option pystr) : bool :=
  match o with
  | Some (_ :: _) => true
  | _ => false
  end.

Section Orchestration.
Context `{RT : PyRuntime}.
Variable env : Env.
Variable config : Config.
Local Open Scope orch_scope.

(** Issue a call: it is recorded with the current clock reading, answered
    by the environment, and takes [duration] ticks or more. *)
Definition perform {A} (ev : event) (duration : Z) (reply : history -> res A)
  : W A :=
  fun s =>
    let tr := (clock s, ev) :: trace s in
    Some (reply tr,
          {| webex := webex s; self_metrics := self_metrics s; trace := tr;
             clock := clock s + duration + Z.of_N (latency env tr) |}).

(** Console and log output, through a console that renders every message;
    [Rendered.log] below is the same call through a console that can
    fail. *)
Definition log (m : log_msg) : W unit :=
  perform (EvLog m) 0 (fun _ => Ok tt).

Definition time_time : W Z :=
  fun s => perform EvTime 0 (fun _ => Ok (clock s)) s.

(** [time.sleep(seconds)] suspends for at least [seconds]. *)
Definition time_sleep (seconds : Z) : W unit :=
  perform (EvSleep seconds) (seconds * second) (fun _ => Ok tt).

(** [timeout = 60 * 30] *)
Definition timeout : Z := 60 * 30 * second.

(** The [while report_status != 'done'] loop of [fetch_cdr_data]: [true]
    when the loop ended with the report done, [false] when it returned on
    the timeout. *)
Fixpoint poll_loop (fuel : nat) (report_id : pyval) (start_time : Z)
    (report_status : pyval) : W bool :=
  match fuel with
  | O => out_of_fuel
  | S fuel' =>
      if bool_decide (report_status = PStr (str "done")) then wret true
      else
        now <- time_time ;;
        if now - start_time >? timeout
        then log LogTimeout ;; wret false
        else
          time_sleep 30 ;;
          report_status' <- perform (EvReportStatus report_id) 0
                              (report_status_reply env) ;;
          log (SpinnerWaiting report_status') ;;
          poll_loop fuel' report_id start_time report_status'
  end.

(** The creation request of [fetch_cdr_data]: by day count when [num_days]
    is true, else by the dates of the configuration.  [None] is the
    [return None] of the first branch. *)
Definition create_report (num_days : option Z) : W (option pyval) :=
  let by_range :=
    log LogRunningReport ;;
    report_id <- perform (EvCdrReportRange (START_DATE config)
                            (END_DATE config)) 0
                   (cdr_report_reply env) ;;
    wret (Some report_id) in
  match num_days with
  | Some days =>
      if days =? 0 then by_range
      else (report_id <- perform (EvCdrReportDays days) 0
                           (cdr_report_reply env) ;;
            if negb (truthy report_id) then wret None
            else wret (Some report_id))
  | None => by_range
  end.

(** The [try] block of [fetch_cdr_data]. *)
Definition fetch_cdr_data_try (fuel : nat) (num_days : option Z)
  : W (option (list row * pyval)) :=
  created <- create_report num_days ;;
  match created with
  | None => wret None
  | Some report_id =>
      log (LogCreated report_id) ;;
      start_time <- time_time ;;
      log SpinnerFetching ;;
      done <- poll_loop fuel report_id start_time (PStr (str "unknown")) ;;
      if negb done then wret None
      else
        log SpinnerFetched ;;
        report_lines <- perform (EvGetReportLines report_id) 0
                          (get_report_lines_reply env) ;;
        match report_lines with
        | [] => log LogNoData ;; wret None
        | _ :: _ =>
            match DictReader report_lines with
            | Ok cdr_data => wret (Some (cdr_data, report_id))
            | Raise e => wraise e
            end
        end
  end.

(** The [except Exception as e] block of [fetch_cdr_data]. *)
Definition fetch_cdr_data_except (e : exn) : W (option (list row * pyval)) :=
  log (LogFetchError e) ;;
  match response_of e with
  | NoResponseAttr => wret tt
  | ResponseIsNone => wraise AttributeError
  | Response status_code => log (LogFetchResponse status_code)
  end ;;
  wret None.

(** [fetch_cdr_data(num_days)]: [None], or the pair of the rows and the
    report identifier. *)
Definition fetch_cdr_data (fuel : nat) (num_days : option Z)
  : W (option (list row * pyval)) :=
  webex_ok <- wgets webex ;;
  if negb webex_ok then wret None
  else wtry (fetch_cdr_data_try fuel num_days) is_Exception
            fetch_cdr_data_except.

(** [MyWebex.delete_report(report_id)] *)
Definition delete_report (report_id : pyval) : W bool :=
  status_code <- perform (EvDelete report_id) 0 (delete_reply env) ;;
  log (LogHttpStatus status_code) ;;
  if status_code =? 204
  then log (LogDeleted report_id) ;; wret true
  else log (LogDeleteFailed report_id status_code) ;; wret false.

(** [write_to_csv(data)]: both handlers log and return. *)
Definition write_to_csv (data : list row) : W unit :=
  wtry
    (match data with
     | [] => wraise ValueError
     | _ :: _ =>
         perform (EvWriteCsv data) 0 (write_csv_reply env) ;;
         log LogCsvWritten
     end)
    is_Exception
    (fun e => if is_ValueError e then log LogCsvValueError else log LogCsvError).

Definition process_all_cdr_records (cdr_data : list row) : W unit :=
  wtry (on_metrics (process_rows cdr_data))
       is_TypeError
       (fun _ => log LogProcessingError).

Definition get_all_reports : W (option (list row)) :=
  wtry
    (webex_ok <- wgets webex ;;
     if (webex_ok : bool) then perform EvListReports 0 (list_reports_reply env)
     else wraise AttributeError)
    is_Exception
    (fun e => log (LogListError e) ;; wret None).

(** [len(existing_reports)] *)
Definition len_reports (existing_reports : option (list row)) : W Z :=
  match existing_reports with
  | Some l => wret (Z.of_nat (length l))
  | None => wraise TypeError
  end.

(** [for report in existing_reports: webex_api.delete_report(report['Id'])] *)
Fixpoint delete_each (existing_reports : list row) : W unit :=
  match existing_reports with
  | [] => wret tt
  | report :: rest =>
      match report !! str "Id" with
      | Some report_id => delete_report report_id ;; delete_each rest
      | None => wraise KeyError
      end
  end.

Definition handle_existing_reports : W bool :=
  existing_reports <- get_all_reports ;;
  num_existing_reports <- len_reports existing_reports ;;
  log LogReportTable ;;
  if num_existing_reports =? 50
  then
    log LogQuotaReached ;;
    log LogOptions ;;
    answer <- perform EvInput 0 (input_reply env) ;;
    let delete_option := strip answer in
    (if bool_decide (delete_option = str "1")
     then (answer_id <- perform EvInput 0 (input_reply env) ;;
           delete_report (PStr (strip answer_id)) ;;
           wret tt)
     else if bool_decide (delete_option = str "2")
     then delete_each (match existing_reports with Some l => l | None => [] end)
     else if bool_decide (delete_option = str "3")
     then wraise (SystemExit 1)
     else wret tt) ;;
    existing_reports' <- get_all_reports ;;
    num_existing_reports' <- len_reports existing_reports' ;;
    wret (num_existing_reports' <? 50)
  else wret (num_existing_reports <? 50).

Definition fetch_cdr_data_based_on_config (fuel : nat)
  : W (option (list row * pyval)) :=
  match NUMBER_OF_DAYS_CDR_REPORT config with
  | Some days =>
      if negb (days =? 0) then fetch_cdr_data fuel (Some days)
      else if truthy_opt (START_DATE config) && truthy_opt (END_DATE config)
      then fetch_cdr_data fuel None
      else log LogNoSchedule ;; wret None
  | None =>
      if truthy_opt (START_DATE config) && truthy_opt (END_DATE config)
      then fetch_cdr_data fuel None
      else log LogNoSchedule ;; wret None
  end.

(** [run_report()].  Unpacking [None] into [cdr_data, report_id] is a
    [TypeError]; the two table exports have no effect and their results are
    not used. *)
Definition run_report (fuel : nat) : W unit :=
  wtry
    (proceed <- handle_existing_reports ;;
     if negb proceed then wret tt
     else
       fetched <- fetch_cdr_data_based_on_config fuel ;;
       match fetched with
       | None => wraise TypeError
       | Some (cdr_data, report_id) =>
           match cdr_data with
           | _ :: _ =>
               write_to_csv cdr_data ;;
               process_all_cdr_records cdr_data ;;
               delete_report report_id ;;
               log LogFinished
           | [] => log LogNoCdrToProcess
           end
       end)
    is_Exception
    (fun e => log (LogRunError e)).

End Orchestration.

(** ** [config.py]: the validator of the day count *)

(** The raw value of the setting, before validation. *)
Inductive raw_setting :=
  | RawStr (s : pystr)
  | RawInt (n : Z)
  | RawNone.

(** [Config.validate_number_of_days_for_cdr_report(v)] *)
Definition validate_number_of_days_for_cdr_report `{RT : PyRuntime}
    (v : raw_setting) : res (option Z) :=
  let checked (converted : res Z) : res (option Z) :=
    match converted with
    | Ok n => if (1 <=? n) && (n <=? 31) then Ok (Some n) else Raise ValueError
    | Raise e => Raise e
    end in
  match v with
  | RawStr [] => Ok None
  | RawNone => Ok None
  | RawInt 0 => Ok (Some 0)
  | RawStr s => checked (py_int int_max_str_digits s)
  | RawInt n => checked (Ok n)
  end.

(** ** A runtime to evaluate examples on

    [fromisoformat_basic] reads the strings of the form
    [YYYY-MM-DDTHH:MM:SS], optionally followed by [+HH:MM] or [-HH:MM],
    which every CPython from 3.7 on reads the same way, and refuses all
    others.  [DictReader_plain] splits lines at commas, which is what
    [csv.DictReader] does on lines without quotes or line breaks. *)

Definition two_digits (a b : N) : option Z :=
  match ascii_digit a, ascii_digit b with
  | Some x, Some y => Some (10 * x + y)
  | _, _ => None
  end.

Definition is_leap (y : Z) : bool :=
  (y mod 4 =? 0) && (negb (y mod 100 =? 0) || (y mod 400 =? 0)).

Definition days_in_month (y m : Z) : Z :=
  if m =? 2 then (if is_leap y then 29 else 28)
  else if (m =? 4) || (m =? 6) || (m =? 9) || (m =? 11) then 30
  else 31.

Definition days_before_year (y : Z) : Z :=
  let p := y - 1 in p * 365 + p / 4 - p / 100 + p / 400.

Definition days_before_month (y m : Z) : Z :=
  fold_right Z.add 0
    (List.map (fun i => days_in_month y (Z.of_nat i)) (seq 1 (Z.to_nat m - 1))).

Definition wall_clock (y mo d h mi s : Z) : option Z :=
  if (1 <=? y) && (y <=? 9999) && (1 <=? mo) && (mo <=? 12) && (1 <=? d)
     && (d <=? days_in_month y mo) && (h <? 24) && (mi <? 60) && (s <? 60)
  then Some ((((days_before_year y + days_before_month y mo + d - 1) * 24 + h)
              * 60 + mi) * 60 * second + s * second)
  else None.

Definition utc_offset (sign : Z) (h1 h2 m1 m2 : N) : option Z :=
  match two_digits h1 h2, two_digits m1 m2 with
  | Some h, Some m =>
      if (h <? 24) && (m <? 60) then Some (sign * (h * 60 + m) * 60 * second)
      else None
  | _, _ => None
  end.

Definition fromisoformat_basic (s : pystr) : option datetime :=
  match s with
  | y1 :: y2 :: y3 :: y4 :: 45%N :: mo1 :: mo2 :: 45%N :: d1 :: d2 :: 84%N
      :: h1 :: h2 :: 58%N :: mi1 :: mi2 :: 58%N :: s1 :: s2 :: tz =>
      match two_digits y1 y2, two_digits y3 y4, two_digits mo1 mo2,
            two_digits d1 d2, two_digits h1 h2, two_digits mi1 mi2,
            two_digits s1 s2 with
      | Some yh, Some yl, Some mo, Some d, Some h, Some mi, Some sec =>
          match wall_clock (100 * yh + yl) mo d h mi sec with
          | Some w =>
              match tz with
              | [] => Some {| dt_wall := w; dt_utcoffset := None |}
              | [43%N; a; b; 58%N; c; e] =>
                  match utc_offset 1 a b c e with
                  | Some o => Some {| dt_wall := w; dt_utcoffset := Some o |}
                  | None => None
                  end
              | [45%N; a; b; 58%N; c; e] =>
                  match utc_offset (-1) a b c e with
                  | Some o => Some {| dt_wall := w; dt_utcoffset := Some o |}
                  | None => None
                  end
              | _ => None
              end
          | None => None
          end
      | _, _, _, _, _, _, _ => None
      end
  | _ => None
  end.

Fixpoint split_commas (cur : pystr) (s : pystr) : list pystr :=
  match s with
  | [] => [rev cur]
  | c :: s' =>
      if (c =? 44)%N then rev cur :: split_commas [] s'
      else split_commas (c :: cur) s'
  end.

(** [dict(zip(fieldnames, values))], then [None] for the fields a short
    line leaves out. *)
Fixpoint zip_row (fieldnames values : list pystr) (d : row) : row :=
  match fieldnames with
  | [] => d
  | f :: fs =>
      match values with
      | v :: vs => zip_row fs vs (<[f := PStr v]> d)
      | [] => zip_row fs [] (<[f := PNone]> d)
      end
  end.

Definition DictReader_plain (lines : list pystr) : res (list row) :=
  match lines with
  | [] => Ok []
  | header :: body =>
      Ok (List.map (fun line => zip_row (split_commas [] header)
                                  (split_commas [] line) ∅)
            (List.filter (fun line => match line with [] => false | _ => true end)
               body))
  end.

Definition reference_runtime : PyRuntime :=
  {| int_max_str_digits := 4300;
     fromisoformat := fromisoformat_basic;
     DictReader := DictReader_plain |}.

(** ** Totals over the dictionaries of the metrics *)

(** The sum of one counter over all buckets of [department_calls] or
    [user_calls], entry by entry. *)
Definition add_entry {A} (g : A -> Z) (k : pyval) (x : A) (acc : Z) : Z :=
  g x + acc.

Definition sum_buckets (f : bucket -> Z) (d : gmap pyval bucket) : Z :=
  map_fold (add_entry f) 0 d.

(** The sum of the counts of [call_outcomes]. *)
Definition sum_counts (d : gmap pyval Z) : Z :=
  map_fold (add_entry (fun n => n)) 0 d.

(** The global counters agree with the sums over the buckets of [calls]. *)
Definition agrees_with (calls : metrics -> gmap pyval bucket) (m : metrics)
  : Prop :=
  total_calls m = sum_buckets bk_total_calls (calls m)
  /\ connected_calls m = sum_buckets bk_connected_calls (calls m)
  /\ voicemail_calls m = sum_buckets bk_voicemail_calls (calls m)
  /\ total_duration m = sum_buckets bk_total_duration (calls m).

Definition consistent (m : metrics) : Prop :=
  agrees_with department_calls m /\ agrees_with user_calls m.

(** The number a string of decimal characters denotes. *)
Definition decimal_value (s : pystr) : Z :=
  fold_left (fun acc c =>
               10 * acc + match Py_UNICODE_TODECIMAL c with
                          | Some d => Z.of_N d
                          | None => 0
                          end) s 0.

(** ** Sample rows and worlds *)

Definition make_row (fields : list (string * string)) : row :=
  list_to_map (List.map (fun kv => (str (fst kv), PStr (str (snd kv)))) fields).

(** A row whose duration is the superscript two, U+00B2. *)
Definition row_superscript : row := {[ str "Duration" := PStr [0xb2%N] ]}.

(** A row answered with a UTC offset on one timestamp only. *)
Definition row_mixed_zones : row :=
  make_row [ ("Start time", "2024-01-01T10:00:00");
             ("Answer time", "2024-01-01T10:00:05+00:00") ]%string.

Definition row_plain : row :=
  make_row [ ("Duration", "120"); ("Answered", "true");
             ("Call outcome", "Success"); ("Department ID", "D1");
             ("User", "alice") ]%string.

Definition row_voicemail : row :=
  make_row [ ("Duration", "7"); ("Answered", "false");
             ("Call outcome reason", "VoiceMail") ]%string.

Definition row_answered_voicemail : row :=
  make_row [ ("Duration", "30"); ("Answered", "True");
             ("Call outcome reason", "voicemail") ]%string.

(** A processor whose token was accepted, before anything happened. *)
Definition fresh_state : state :=
  {| webex := true; self_metrics := initial_metrics; trace := []; clock := 0 |}.

Definition count_events (p : event -> bool) (h : history) : nat :=
  length (List.filter (fun te => p (snd te)) h).

Definition is_delete (e : event) : bool :=
  match e with EvDelete _ => true | _ => false end.

Definition is_status_query (e : event) : bool :=
  match e with EvReportStatus _ => true | _ => false end.

Definition is_creation (e : event) : bool :=
  match e with EvCdrReportDays _ | EvCdrReportRange _ _ => true | _ => false end.

Definition is_list_reports (e : event) : bool :=
  match e with EvListReports => true | _ => false end.

(** A world in which every call returns at once, [stored] reports are
    stored, the operator types [typed], a report is created under the name
    R1 and is done after [ticks] status queries, and its lines are
    [lines]. *)
Definition scripted_env (stored : nat) (typed : string) (ticks : nat)
    (lines : list pystr) : Env :=
  {| latency := fun _ => 0%N;
     list_reports_reply := fun h =>
       Ok (Some (repeat ({[ str "Id" := PStr (str "R0") ]} : row)
                        (if (1 <? count_events is_list_reports h)%nat
                         then 0%nat else stored)));
     cdr_report_reply := fun _ => Ok (PStr (str "R1"));
     report_status_reply := fun h =>
       Ok (PStr (if (count_events is_status_query h <? ticks)%nat
                 then str "pending" else str "done"));
     get_report_lines_reply := fun _ => Ok lines;
     input_reply := fun _ => Ok (str typed);
     delete_reply := fun _ => Ok 204;
     write_csv_reply := fun _ => Ok tt |}.

(** The same world with a gateway that refuses to create a report. *)
Definition refusing_env : Env :=
  {| latency := fun _ => 0%N;
     list_reports_reply := fun _ => Ok (Some []);
     cdr_report_reply := fun _ => Ok PNone;
     report_status_reply := fun _ => Ok (PStr (str "pending"));
     get_report_lines_reply := fun _ => Ok [];
     input_reply := fun _ => Ok [];
     delete_reply := fun _ => Ok 204;
     write_csv_reply := fun _ => Ok tt |}.

(** A gateway whose report never gets done. *)
Definition stalled_env : Env :=
  {| latency := fun _ => 0%N;
     list_reports_reply := fun _ => Ok (Some []);
     cdr_report_reply := fun _ => Ok (PStr (str "R1"));
     report_status_reply := fun _ => Ok (PStr (str "pending"));
     get_report_lines_reply := fun _ => Ok [];
     input_reply := fun _ => Ok [];
     delete_reply := fun _ => Ok 204;
     write_csv_reply := fun _ => Ok tt |}.


Definition config_days (days : Z) : Config :=
  {| NUMBER_OF_DAYS_CDR_REPORT := Some days;
     START_DATE := None; END_DATE := None |}.

Definition events_of (o : option (res unit * state)) : list event :=
  match o with
  | Some (_, s) => rev (List.map snd (trace s))
  | None => []
  end.

(** ** Histories

    What the statements of the processor leave in the history, newest
    event first. *)

(** Time stamps do not decrease towards the newest event. *)
Fixpoint chronological (h : history) : Prop :=
  match h with
  | te :: older =>
      match older with
      | te' :: _ => fst te' <= fst te
      | [] => True
      end /\ chronological older
  | [] => True
  end.

(** [s'] is [s] after the events [new], each stamped with a clock reading
    between those of [s] and [s']. *)
Definition evolves (s s' : state) (new : history) : Prop :=
  trace s' = new ++ trace s
  /\ clock s <= clock s'
  /\ List.Forall (fun te => clock s <= fst te <= clock s') new
  /\ chronological new
  /\ webex s' = webex s.

(** The discipline of the poll loop, event by event: a status query comes
    right after a sleep of 30 seconds issued at least 30 seconds earlier,
    and a sleep, like the report of the timeout, right after a reading of
    the clock. *)
Fixpoint disciplined (h : history) : Prop :=
  match h with
  | [] => True
  | (t, ev) :: older =>
      match ev with
      | EvReportStatus _ =>
          exists t_sleep t_check rest,
            older = (t_sleep, EvSleep 30) :: (t_check, EvTime) :: rest
            /\ t_check <= t_sleep /\ t_sleep + 30 * second <= t
      | EvSleep seconds =>
          seconds = 30 /\ exists t_check rest, older = (t_check, EvTime) :: rest
      | EvLog LogTimeout => exists t_check rest, older = (t_check, EvTime) :: rest
      | _ => True
      end /\ disciplined older
  end.

Definition is_timeout_log (e : event) : bool :=
  match e with EvLog LogTimeout => true | _ => false end.

(** One round of the poll loop that was not the last: the clock is read,
    the loop sleeps 30 seconds, asks for the status and shows it. *)
Inductive ticks (report_id : pyval) : history -> Prop :=
  | ticks_nil : ticks report_id []
  | ticks_cons t_show status t_query t_sleep t_check h :
      ticks report_id h ->
      t_check <= t_sleep ->
      t_sleep + 30 * second <= t_query ->
      ticks report_id
        ((t_show, EvLog (SpinnerWaiting status))
           :: (t_query, EvReportStatus report_id)
           :: (t_sleep, EvSleep 30) :: (t_check, EvTime) :: h).

(** The events of a poll loop, by its result: returned on done, returned
    on the timeout, or left by an exception of the status query. *)
Definition poll_shape (report_id : pyval) (r : res bool) (new : history)
  : Prop :=
  match r with
  | Ok true => ticks report_id new
  | Ok false =>
      exists t t_check h,
        new = (t, EvLog LogTimeout) :: (t_check, EvTime) :: h
        /\ ticks report_id h
  | Raise _ =>
      exists t_query t_sleep t_check h,
        new = (t_query, EvReportStatus report_id)
                :: (t_sleep, EvSleep 30) :: (t_check, EvTime) :: h
        /\ t_check <= t_sleep
        /\ t_sleep + 30 * second <= t_query
        /\ ticks report_id h
  end.

Section Shapes.
Context `{RT : PyRuntime}.
Variable config : Config.

(** The creation request of [fetch_cdr_data(num_days)]. *)
Definition creation_history (num_days : option Z) (h : history) : Prop :=
  let by_range :=
    exists t1 t2,
      h = [(t2, EvCdrReportRange (START_DATE config) (END_DATE config));
           (t1, EvLog LogRunningReport)] in
  match num_days with
  | Some days =>
      if days =? 0 then by_range else exists t, h = [(t, EvCdrReportDays days)]
  | None => by_range
  end.

(** What follows the poll loop. *)
Inductive after_poll (report_id : pyval)
  : res bool -> res (option (list row * pyval)) -> history -> Prop :=
  | ap_raised e : after_poll report_id (Raise e) (Raise e) []
  | ap_timeout : after_poll report_id (Ok false) (Ok None) []
  | ap_lines_raised e t1 t2 :
      after_poll report_id (Ok true) (Raise e)
        [(t2, EvGetReportLines report_id); (t1, EvLog SpinnerFetched)]
  | ap_no_data t1 t2 t3 :
      after_poll report_id (Ok true) (Ok None)
        [(t3, EvLog LogNoData); (t2, EvGetReportLines report_id);
         (t1, EvLog SpinnerFetched)]
  | ap_rows t1 t2 lines cdr_data :
      lines <> [] ->
      DictReader lines = Ok cdr_data ->
      after_poll report_id (Ok true) (Ok (Some (cdr_data, report_id)))
        [(t2, EvGetReportLines report_id); (t1, EvLog SpinnerFetched)].

(** The [try] block of [fetch_cdr_data]. *)
Inductive fetch_body (num_days : option Z)
  : res (option (list row * pyval)) -> history -> Prop :=
  | fb_creation_raised e pre :
      creation_history num_days pre -> fetch_body num_days (Raise e) pre
  | fb_no_id days t :
      num_days = Some days -> days <> 0 ->
      fetch_body num_days (Ok None) [(t, EvCdrReportDays days)]
  | fb_polled report_id pre t1 t2 t3 polled_result polled r post :
      creation_history num_days pre ->
      poll_shape report_id polled_result polled ->
      after_poll report_id polled_result r post ->
      fetch_body num_days r
        (post ++ polled
           ++ [(t3, EvLog SpinnerFetching); (t2, EvTime);
               (t1, EvLog (LogCreated report_id))]
           ++ pre).

(** [fetch_cdr_data] with its handler. *)
Inductive fetch_shape (num_days : option Z)
  : res (option (list row * pyval)) -> history -> Prop :=
  | fs_no_webex : fetch_shape num_days (Ok None) []
  | fs_returned v h :
      fetch_body num_days (Ok v) h -> fetch_shape num_days (Ok v) h
  | fs_passed e h :
      is_Exception e = false ->
      fetch_body num_days (Raise e) h -> fetch_shape num_days (Raise e) h
  | fs_logged e t h :
      is_Exception e = true -> response_of e = NoResponseAttr ->
      fetch_body num_days (Raise e) h ->
      fetch_shape num_days (Ok None) ((t, EvLog (LogFetchError e)) :: h)
  | fs_handler_raised e t h :
      is_Exception e = true -> response_of e = ResponseIsNone ->
      fetch_body num_days (Raise e) h ->
      fetch_shape num_days (Raise AttributeError)
        ((t, EvLog (LogFetchError e)) :: h)
  | fs_logged_response e status_code t t' h :
      is_Exception e = true -> response_of e = Response status_code ->
      fetch_body num_days (Raise e) h ->
      fetch_shape num_days (Ok None)
        ((t', EvLog (LogFetchResponse status_code))
           :: (t, EvLog (LogFetchError e)) :: h).

End Shapes.

(** What a row adds to the connected and voicemail counters. *)
Definition connected_share (a : bool) : Z := if a then 1 else 0.

Definition voicemail_share (a v : bool) : Z :=
  if a then 0 else if v then 1 else 0.

Definition same_counters (m m' : metrics) : Prop :=
  total_calls m' = total_calls m
  /\ connected_calls m' = connected_calls m
  /\ voicemail_calls m' = voicemail_calls m
  /\ total_duration m' = total_duration m.

Definition outcomes_agree (m : metrics) : Prop :=
  sum_counts (call_outcomes m) = total_calls m.

(** The statements of [process_call_record] that follow the
    classification of the call. *)
Definition after_classification `{RT : PyRuntime} (item : row)
  : M metrics unit :=
  (bind
     (let answer_time_str := dict_get item "Answer time" (PStr []) in
      let start_time_str := dict_get item "Start time" (PStr []) in
      if truthy answer_time_str && truthy start_time_str
      then record_response_time answer_time_str start_time_str
      else ret tt)
     (fun _ =>
        bind
          (let outcome := dict_get item "Call outcome" (PStr (str "Unknown")) in
           modify (set_call_outcomes (fun d =>
             <[outcome := match d !! outcome with Some n => n | None => 0 end + 1]> d)))
          (fun _ =>
             bind (update_department_calls item)
                  (fun _ => update_user_calls item)))).

(** A statement of the orchestration that comes to an end from every
    state, by returning or by raising. *)
Definition terminates {A} (c : W A) : Prop :=
  forall s, exists r s', c s = Some (r, s').

(** The events of a run, oldest first. *)
Definition events {A} (o : option (res A * state)) : list event :=
  match o with
  | Some (_, s) => rev (List.map snd (trace s))
  | None => []
  end.

(** The result of a run. *)
Definition result {A} (o : option (res A * state)) : option (res A) :=
  match o with
  | Some (r, _) => Some r
  | None => None
  end.

(** The state a run ends in. *)
Definition final_state {A} (o : option (res A * state)) : state :=
  match o with
  | Some (_, s) => s
  | None => fresh_state
  end.

(** A report of one call, and a report whose only line is short of a
    field. *)
Definition report_of_one_call : list pystr :=
  [str "Duration,Answered"; str "5,true"].

Definition report_with_short_line : list pystr :=
  [str "Duration,Answered"; str "5"].

Definition rows_of (lines : list pystr) : list row :=
  match DictReader_plain lines with
  | Ok cdr_data => cdr_data
  | Raise _ => []
  end.

Definition is_get_report_lines (e : event) : bool :=
  match e with EvGetReportLines _ => true | _ => false end.

(** The rows handed to [write_to_csv], when there is at least one. *)
Definition writes_rows (e : event) : bool :=
  match e with EvWriteCsv (_ :: _) => true | _ => false end.

(** ** The rows the aggregation takes in

    What [process_call_record] needs of a row to return, read off the
    row itself, and what the row then adds to the metrics. *)

Section Ingestion.
Context `{RT : PyRuntime}.

(** The string has no more digits than [int] converts. *)
Definition within_digit_limit (s : pystr) : bool :=
  negb ((0 <? int_max_str_digits)%N
        && (int_max_str_digits <? N.of_nat (length s))%N).

(** The duration is absent, or a string that [isdigit] refuses or [int]
    reads. *)
Definition readable_duration (item : row) : bool :=
  match item !! str "Duration" with
  | None => true
  | Some PNone => false
  | Some (PStr s) => negb (isdigit s) || (isdecimal s && within_digit_limit s)
  end.

(** The value the readable duration stands for. *)
Definition duration_value (item : row) : Z :=
  match item !! str "Duration" with
  | Some (PStr s) => if isdigit s then decimal_value s else 0
  | _ => 0
  end.

(** The field is a string, or the row has no such field. *)
Definition string_or_absent (item : row) (key : string) : bool :=
  match item !! str key with
  | Some PNone => false
  | _ => true
  end.

(** The time under [key], when the field is a non-empty string that
    [fromisoformat] reads. *)
Definition timestamp (item : row) (key : string) : option datetime :=
  match item !! str key with
  | Some (PStr (c :: s)) => fromisoformat (c :: s)
  | _ => None
  end.

(** Both times carry a UTC offset, or none does. *)
Definition same_awareness (a b : datetime) : bool :=
  match dt_utcoffset a, dt_utcoffset b with
  | Some _, None | None, Some _ => false
  | _, _ => true
  end.

Definition comparable_timestamps (item : row) : bool :=
  match timestamp item "Answer time", timestamp item "Start time" with
  | Some a, Some b => same_awareness a b
  | _, _ => true
  end.

Definition ingestible (item : row) : bool :=
  readable_duration item
  && string_or_absent item "Answered"
  && string_or_absent item "Call outcome reason"
  && comparable_timestamps item.

(** The field, lower-cased, is the literal. *)
Definition field_is (item : row) (key lit : string) : bool :=
  match item !! str key with
  | Some (PStr s) => bool_decide (lower s = str lit)
  | _ => false
  end.

Definition is_answered (item : row) : bool := field_is item "Answered" "true".

Definition is_voicemail (item : row) : bool :=
  field_is item "Call outcome reason" "voicemail".

(** The response times a row contributes: one when both times are read. *)
Definition response_sample (item : row) : list Z :=
  match timestamp item "Answer time", timestamp item "Start time" with
  | Some a, Some b =>
      match datetime_sub a b with
      | Ok t => [t]
      | Raise _ => []
      end
  | _, _ => []
  end.

End Ingestion.

(** The bucket under [k], a new one when there is none yet. *)
Definition bucket_of (d : gmap pyval bucket) (k : pyval) : bucket :=
  match d !! k with
  | Some b => b
  | None => new_bucket
  end.

(** One call added to a bucket. *)
Definition add_call (answered voicemail : bool) (duration : Z) (b : bucket)
  : bucket :=
  {| bk_total_calls := bk_total_calls b + 1;
     bk_connected_calls := bk_connected_calls b + connected_share answered;
     bk_voicemail_calls :=
       bk_voicemail_calls b + voicemail_share answered voicemail;
     bk_total_duration := bk_total_duration b + duration |}.

(** The columns of an exported table. *)
Definition record_key (r : pyval * Z * Z * Z * Z) : pyval :=
  let '(k, _, _, _, _) := r in k.

Definition TotalCalls (r : pyval * Z * Z * Z * Z) : Z :=
  let '(_, t, _, _, _) := r in t.

Definition ConnectedCalls (r : pyval * Z * Z * Z * Z) : Z :=
  let '(_, _, c, _, _) := r in c.

Definition VoicemailCalls (r : pyval * Z * Z * Z * Z) : Z :=
  let '(_, _, _, v, _) := r in v.

Definition TotalDuration (r : pyval * Z * Z * Z * Z) : Z :=
  let '(_, _, _, _, d) := r in d.

Definition column_sum (column : pyval * Z * Z * Z * Z -> Z)
    (table : list (pyval * Z * Z * Z * Z)) : Z :=
  fold_right (fun r acc => column r + acc) 0 table.

(** A character of [s] in either case of the ASCII letter [l]. *)
Definition same_letter (l c : N) : bool :=
  (c =? l)%N || ((97 <=? l) && (l <=? 122) && (c + 32 =? l))%N.

(** [s] spells [lit] up to the case of its ASCII letters. *)
Fixpoint spells (lit s : pystr) : bool :=
  match lit, s with
  | [], [] => true
  | l :: lit', c :: s' => same_letter l c && spells lit' s'
  | _, _ => false
  end.

(** A lower-case ASCII letter other than [k], which is also the lower case
    of the Kelvin sign. *)
Definition plain_letter (l : N) : bool :=
  ((97 <=? l) && (l <=? 122) && negb (l =? 107))%N.

(** ** What a statement adds to the history *)

(** Every run of [c] that ends adds at most [n] events for which [p]
    holds, and these are all it does to the history. *)
Definition emits {A} (p : event -> bool) (n : nat) (c : W A) : Prop :=
  forall s r s',
    c s = Some (r, s') ->
    exists new, trace s' = new ++ trace s /\ (count_events p new <= n)%nat.

(** A statement that leaves [self.metrics] and [self.webex] as they are. *)
Definition keeps_processor {A} (c : W A) : Prop :=
  forall s r s',
    c s = Some (r, s') ->
    self_metrics s' = self_metrics s /\ webex s' = webex s.

Definition is_input (e : event) : bool :=
  match e with EvInput => true | _ => false end.

Definition is_write_csv (e : event) : bool :=
  match e with EvWriteCsv _ => true | _ => false end.

(** A creation request for a number of days outside 1..31. *)
Definition is_creation_out_of_range (e : event) : bool :=
  match e with
  | EvCdrReportDays days => negb ((1 <=? days) && (days <=? 31))
  | _ => false
  end.

(** The requests to delete a report, oldest first. *)
Definition deleted_ids (h : history) : list pyval :=
  rev (omap (fun te => match snd te with
                       | EvDelete report_id => Some report_id
                       | _ => None
                       end) h).

(** A configuration whose day count went through the validator. *)
Definition validated_config `{RT : PyRuntime} (raw : raw_setting)
    (start end_ : option pystr) : res Config :=
  match validate_number_of_days_for_cdr_report raw with
  | Ok days =>
      Ok {| NUMBER_OF_DAYS_CDR_REPORT := days;
            START_DATE := start; END_DATE := end_ |}
  | Raise e => Raise e
  end.

(** A gateway that stores [stored] reports at every listing. *)
Definition crowded_env (stored : nat) (typed : string) : Env :=
  {| latency := fun _ => 0%N;
     list_reports_reply := fun _ =>
       Ok (Some (repeat ({[ str "Id" := PStr (str "R0") ]} : row) stored));
     cdr_report_reply := fun _ => Ok (PStr (str "R1"));
     report_status_reply := fun _ => Ok (PStr (str "done"));
     get_report_lines_reply := fun _ => Ok [];
     input_reply := fun _ => Ok (str typed);
     delete_reply := fun _ => Ok 204;
     write_csv_reply := fun _ => Ok tt |}.

(** A gateway whose listing fails. *)
Definition unlisted_env : Env :=
  {| latency := fun _ => 0%N;
     list_reports_reply := fun _ => Raise (LibraryError NoResponseAttr);
     cdr_report_reply := fun _ => Ok (PStr (str "R1"));
     report_status_reply := fun _ => Ok (PStr (str "done"));
     get_report_lines_reply := fun _ => Ok [];
     input_reply := fun _ => Ok [];
     delete_reply := fun _ => Ok 204;
     write_csv_reply := fun _ => Ok tt |}.

(** A processor whose token was refused. *)
Definition refused_state : state :=
  {| webex := false; self_metrics := initial_metrics; trace := []; clock := 0 |}.

(** The metrics after [process_call_record] took in the row [item]. *)
Definition ingested `{RT : PyRuntime} (item : row) (m : metrics) : metrics :=
  let answered := is_answered item in
  let voicemail := is_voicemail item in
  let duration := duration_value item in
  let outcome := dict_get item "Call outcome" (PStr (str "Unknown")) in
  let department := dict_get item "Department ID" (PStr (str "Unknown")) in
  let user := dict_get item "User" (PStr (str "Unknown")) in
  {| total_duration := total_duration m + duration;
     total_calls := total_calls m + 1;
     connected_calls := connected_calls m + connected_share answered;
     voicemail_calls := voicemail_calls m + voicemail_share answered voicemail;
     response_times := response_times m ++ response_sample item;
     call_outcomes :=
       <[outcome := match call_outcomes m !! outcome with
                    | Some n => n
                    | None => 0
                    end + 1]> (call_outcomes m);
     department_calls :=
       <[department := add_call answered voicemail duration
                         (bucket_of (department_calls m) department)]>
         (department_calls m);
     user_calls :=
       <[user := add_call answered voicemail duration
                   (bucket_of (user_calls m) user)]> (user_calls m) |}.

(** A call answered five seconds after it started. *)
Definition row_timed : row :=
  make_row [ ("Start time", "2024-01-01T10:00:00");
             ("Answer time", "2024-01-01T10:00:05");
             ("Call outcome", "Success") ]%string.

(** The creation request [fetch_cdr_data(num_days)] sends. *)
Definition creation_event (config : Config) (num_days : option Z) : event :=
  match num_days with
  | Some days =>
      if days =? 0
      then EvCdrReportRange (START_DATE config) (END_DATE config)
      else EvCdrReportDays days
  | None => EvCdrReportRange (START_DATE config) (END_DATE config)
  end.

(** Equality of events is decidable. *)
#[global] Instance response_attr_eq_dec : EqDecision response_attr.
Proof. solve_decision. Defined.

#[global] Instance exn_eq_dec : EqDecision exn.
Proof. solve_decision. Defined.

#[global] Instance log_msg_eq_dec : EqDecision log_msg.
Proof. solve_decision. Defined.

#[global] Instance event_eq_dec : EqDecision event.
Proof. solve_decision. Defined.

(** A creation request other than [ev]. *)
Definition is_other_creation (ev e : event) : bool :=
  is_creation e && negb (bool_decide (e = ev)).

(** The [Id] of the stored reports up to the first that has none. *)
Fixpoint leading_ids (existing_reports : list row) : list pyval :=
  match existing_reports with
  | [] => []
  | report :: rest =>
      match report !! str "Id" with
      | Some report_id => report_id :: leading_ids rest
      | None => []
      end
  end.

(** ** [config.py]: the validators of the three URLs

    The regular expressions of [config.py] are made of literal characters
    and escaped dots; [re_compile] reads such a pattern, in which a
    backslash makes the next character literal and a bare dot stands for
    any character but a line feed. *)
Inductive re_atom :=
  | ReChar (c : N)
  | ReAny.

Fixpoint re_compile (pattern : pystr) : list re_atom :=
  match pattern with
  | [] => []
  | c :: rest =>
      if (c =? 92)%N then
        match rest with
        | escaped :: rest' => ReChar escaped :: re_compile rest'
        | [] => []
        end
      else if (c =? 46)%N then ReAny :: re_compile rest
      else ReChar c :: re_compile rest
  end.

(** [re.match(pattern, s)]: the pattern matches at the start of [s]. *)
Fixpoint re_match (atoms : list re_atom) (s : pystr) : bool :=
  match atoms, s with
  | [], _ => true
  | ReChar c :: atoms', c' :: s' => (c =? c')%N && re_match atoms' s'
  | ReAny :: atoms', c' :: s' => negb (c' =? 10)%N && re_match atoms' s'
  | _ :: _, [] => false
  end.

(** The body of the three validators: [re.match] on a value that is not a
    string is a [TypeError]. *)
Definition validate_url (pattern : string) (v : pyval) : res pyval :=
  match v with
  | PStr s =>
      if negb (re_match (re_compile (str pattern)) s) then Raise ValueError
      else Ok v
  | PNone => Raise TypeError
  end.

Definition validate_authorization_base_url : pyval -> res pyval :=
  validate_url "https://api\.ciscospark\.com/v1/authorize".

Definition validate_access_token_url : pyval -> res pyval :=
  validate_url "https://api\.ciscospark\.com/v1/access_token".

Definition validate_webex_base_url : pyval -> res pyval :=
  validate_url "https://webexapis\.com/v1/".

(** [webex_api.py]: the URL [webex_api_call] builds,
    [f'{self.base_url}/{endpoint}'], and the endpoint of [delete_report],
    [f'reports/{report_id}']. *)
Definition webex_api_url (base_url endpoint : pystr) : pystr :=
  base_url ++ str "/" ++ endpoint.

Definition delete_report_endpoint (report_id : pystr) : pystr :=
  str "reports/" ++ report_id.

(** What each validator of a URL does with a value: it accepts the
    strings that begin with [url] and returns them as they are. *)
Definition accepts_by_prefix (validator : pyval -> res pyval) (url : string)
    (v : pyval) : Prop :=
  (validator v = Ok v <-> exists rest, v = PStr (str url ++ rest))
  /\ (forall v', validator v = Ok v' -> v' = v)
  /\ (forall e,
        validator v = Raise e ->
        match v with
        | PStr _ => e = ValueError
        | PNone => e = TypeError
        end).

(** ** The console

    [lm.log_and_print], [lm.p_panel], [lm.console.print],
    [lm.display_list_as_rich_table] and the spinner of [Live] hand their
    message to the console of [rich], which reads it as markup.  A message
    that carries text from outside (an identifier the operator typed, the
    text of an exception, a field of a response) need not be well-formed
    markup: a closing tag with nothing to close, as in [/], makes the
    rendering raise [MarkupError], an [Exception].

    The statements of the orchestration above take a console that renders
    every message.  The statements below are the same statements with a
    console that answers like every other collaborator: it sees the
    history, whose newest event is the message, and returns or raises. *)

Module Rendered.
Section Orchestration.
Context `{RT : PyRuntime}.
Variable env : Env.
Variable config : Config.
Variable console : history -> res unit.
Local Open Scope orch_scope.

Definition log (m : log_msg) : W unit :=
  perform env (EvLog m) 0 console.

(** The [while report_status != 'done'] loop of [fetch_cdr_data]. *)
Fixpoint poll_loop (fuel : nat) (report_id : pyval) (start_time : Z)
    (report_status : pyval) : W bool :=
  match fuel with
  | O => out_of_fuel
  | S fuel' =>
      if bool_decide (report_status = PStr (str "done")) then wret true
      else
        now <- time_time env ;;
        if now - start_time >? timeout
        then log LogTimeout ;; wret false
        else
          time_sleep env 30 ;;
          report_status' <- perform env (EvReportStatus report_id) 0
                              (report_status_reply env) ;;
          log (SpinnerWaiting report_status') ;;
          poll_loop fuel' report_id start_time report_status'
  end.

(** The creation request of [fetch_cdr_data]. *)
Definition create_report (num_days : option Z) : W (option pyval) :=
  let by_range :=
    log LogRunningReport ;;
    report_id <- perform env (EvCdrReportRange (START_DATE config)
                                (END_DATE config)) 0
                   (cdr_report_reply env) ;;
    wret (Some report_id) in
  match num_days with
  | Some days =>
      if days =? 0 then by_range
      else (report_id <- perform env (EvCdrReportDays days) 0
                           (cdr_report_reply env) ;;
            if negb (truthy report_id) then wret None
            else wret (Some report_id))
  | None => by_range
  end.

(** From the log entry of the creation to the end of the loop: [true] when
    the report is done, [false] when the loop returned on the timeout. *)
Definition await_report (fuel : nat) (report_id : pyval) : W bool :=
  log (LogCreated report_id) ;;
  start_time <- time_time env ;;
  log SpinnerFetching ;;
  poll_loop fuel report_id start_time (PStr (str "unknown")).

(** What follows the loop once the report is done. *)
Definition read_report (report_id : pyval) : W (option (list row * pyval)) :=
  log SpinnerFetched ;;
  report_lines <- perform env (EvGetReportLines report_id) 0
                    (get_report_lines_reply env) ;;
  match report_lines with
  | [] => log LogNoData ;; wret None
  | _ :: _ =>
      match DictReader report_lines with
      | Ok cdr_data => wret (Some (cdr_data, report_id))
      | Raise e => wraise e
      end
  end.

(** The [try] block of [fetch_cdr_data]. *)
Definition fetch_cdr_data_try (fuel : nat) (num_days : option Z)
  : W (option (list row * pyval)) :=
  created <- create_report num_days ;;
  match created with
  | None => wret None
  | Some report_id =>
      done <- await_report fuel report_id ;;
      if negb done then wret None else read_report report_id
  end.

(** The [except Exception as e] block of [fetch_cdr_data]. *)
Definition fetch_cdr_data_except (e : exn) : W (option (list row * pyval)) :=
  log (LogFetchError e) ;;
  match response_of e with
  | NoResponseAttr => wret tt
  | ResponseIsNone => wraise AttributeError
  | Response status_code => log (LogFetchResponse status_code)
  end ;;
  wret None.

Definition fetch_cdr_data (fuel : nat) (num_days : option Z)
  : W (option (list row * pyval)) :=
  webex_ok <- wgets webex ;;
  if negb webex_ok then wret None
  else wtry (fetch_cdr_data_try fuel num_days) is_Exception
            fetch_cdr_data_except.

(** [MyWebex.delete_report(report_id)] *)
Definition delete_report (report_id : pyval) : W bool :=
  status_code <- perform env (EvDelete report_id) 0 (delete_reply env) ;;
  log (LogHttpStatus status_code) ;;
  if status_code =? 204
  then log (LogDeleted report_id) ;; wret true
  else log (LogDeleteFailed report_id status_code) ;; wret false.

(** [write_to_csv(data)]: an exception of a handler's own log call is
    caught by neither handler. *)
Definition write_to_csv (data : list row) : W unit :=
  wtry
    (match data with
     | [] => wraise ValueError
     | _ :: _ =>
         perform env (EvWriteCsv data) 0 (write_csv_reply env) ;;
         log LogCsvWritten
     end)
    is_Exception
    (fun e => if is_ValueError e then log LogCsvValueError else log LogCsvError).

Definition process_all_cdr_records (cdr_data : list row) : W unit :=
  wtry (on_metrics (process_rows cdr_data))
       is_TypeError
       (fun _ => log LogProcessingError).

Definition get_all_reports : W (option (list row)) :=
  wtry
    (webex_ok <- wgets webex ;;
     if (webex_ok : bool) then perform env EvListReports 0 (list_reports_reply env)
     else wraise AttributeError)
    is_Exception
    (fun e => log (LogListError e) ;; wret None).

Fixpoint delete_each (existing_reports : list row) : W unit :=
  match existing_reports with
  | [] => wret tt
  | report :: rest =>
      match report !! str "Id" with
      | Some report_id => delete_report report_id ;; delete_each rest
      | None => wraise KeyError
      end
  end.

Definition handle_existing_reports : W bool :=
  existing_reports <- get_all_reports ;;
  num_existing_reports <- len_reports existing_reports ;;
  log LogReportTable ;;
  if num_existing_reports =? 50
  then
    log LogQuotaReached ;;
    log LogOptions ;;
    answer <- perform env EvInput 0 (input_reply env) ;;
    let delete_option := strip answer in
    (if bool_decide (delete_option = str "1")
     then (answer_id <- perform env EvInput 0 (input_reply env) ;;
           delete_report (PStr (strip answer_id)) ;;
           wret tt)
     else if bool_decide (delete_option = str "2")
     then delete_each (match existing_reports with Some l => l | None => [] end)
     else if bool_decide (delete_option = str "3")
     then wraise (SystemExit 1)
     else wret tt) ;;
    existing_reports' <- get_all_reports ;;
    num_existing_reports' <- len_reports existing_reports' ;;
    wret (num_existing_reports' <? 50)
  else wret (num_existing_reports <? 50).

Definition fetch_cdr_data_based_on_config (fuel : nat)
  : W (option (list row * pyval)) :=
  match NUMBER_OF_DAYS_CDR_REPORT config with
  | Some days =>
      if negb (days =? 0) then fetch_cdr_data fuel (Some days)
      else if truthy_opt (START_DATE config) && truthy_opt (END_DATE config)
      then fetch_cdr_data fuel None
      else log LogNoSchedule ;; wret None
  | None =>
      if truthy_opt (START_DATE config) && truthy_opt (END_DATE config)
      then fetch_cdr_data fuel None
      else log LogNoSchedule ;; wret None
  end.

(** [run_report()]: the handler of the boundary logs what it caught; what
    this log call raises leaves [run_report]. *)
Definition run_report (fuel : nat) : W unit :=
  wtry
    (proceed <- handle_existing_reports ;;
     if negb proceed then wret tt
     else
       fetched <- fetch_cdr_data_based_on_config fuel ;;
       match fetched with
       | None => wraise TypeError
       | Some (cdr_data, report_id) =>
           match cdr_data with
           | _ :: _ =>
               write_to_csv cdr_data ;;
               process_all_cdr_records cdr_data ;;
               delete_report report_id ;;
               log LogFinished
           | [] => log LogNoCdrToProcess
           end
       end)
    is_Exception
    (fun e => log (LogRunError e)).

End Orchestration.
End Rendered.

(** A console that renders every message. *)
Definition quiet_console : history -> res unit := fun _ => Ok tt.

(** The console renders every message for which [p] holds. *)
Definition renders (console : history -> res unit) (p : log_msg -> bool)
  : Prop :=
  forall t m h, p m = true -> console ((t, EvLog m) :: h) = Ok tt.

(** The table of the stored reports and the two messages of the prompt. *)
Definition is_quota_prompt (m : log_msg) : bool :=
  match m with
  | LogReportTable | LogQuotaReached | LogOptions => true
  | _ => false
  end.

(** [rich.errors.MarkupError], an [Exception] without a response. *)
Definition MarkupError : exn := LibraryError NoResponseAttr.

(** A console that cannot render the identifier [/], nor the text of the
    [MarkupError] it raises, which quotes the tag. *)
Definition strict_console : history -> res unit :=
  fun h =>
    match h with
    | (_, EvLog (LogDeleted (PStr report_id))) :: _
    | (_, EvLog (LogDeleteFailed (PStr report_id) _)) :: _ =>
        if bool_decide (report_id = str "[/]") then Raise MarkupError
        else Ok tt
    | (_, EvLog (LogRunError e)) :: _ =>
        if bool_decide (e = MarkupError) then Raise MarkupError else Ok tt
    | _ => Ok tt
    end.

(** A world at the limit of 50 stored reports, whose operator asks to
    delete one report and types [/] for its identifier, which Webex does not
    know. *)
Definition slash_env : Env :=
  {| latency := fun _ => 0%N;
     list_reports_reply := fun _ =>
       Ok (Some (repeat ({[ str "Id" := PStr (str "R0") ]} : row) 50));
     cdr_report_reply := fun _ => Ok (PStr (str "R1"));
     report_status_reply := fun _ => Ok (PStr (str "done"));
     get_report_lines_reply := fun _ => Ok [];
     input_reply := fun h =>
       Ok (if (count_events is_input h <=? 1)%nat then str "1" else str "[/]");
     delete_reply := fun _ => Ok 404;
     write_csv_reply := fun _ => Ok tt |}.

(** A file system that is full. *)
Definition full_disk_env : Env :=
  {| latency := fun _ => 0%N;
     list_reports_reply := fun _ => Ok (Some []);
     cdr_report_reply := fun _ => Ok (PStr (str "R1"));
     report_status_reply := fun _ => Ok (PStr (str "done"));
     get_report_lines_reply := fun _ => Ok [];
     input_reply := fun _ => Ok [];
     delete_reply := fun _ => Ok 204;
     write_csv_reply := fun _ => Raise (LibraryError NoResponseAttr) |}.


(** An answered call whose duration is the superscript two. *)
Definition row_answered_superscript : row :=
  {[ str "Duration" := PStr [0xb2%N]; str "Answered" := PStr (str "true") ]}.

(** A report whose only line is short of its last field, and the row
    [csv.DictReader] makes of it: the missing field is [None]. *)
Definition report_answered_short : list pystr :=
  [str "Duration,Answered,Call outcome reason"; str "5,true"].

Definition row_answered_short : row :=
  {[ str "Duration" := PStr (str "5"); str "Answered" := PStr (str "true");
     str "Call outcome reason" := PNone ]}.

(** ** Tactics *)

(** Take apart the conjunctions, disjunctions and existentials among the
    hypotheses. *)
Ltac break_hyps :=
  repeat match goal with
         | H : exists _, _ |- _ => destruct H
         | H : _ \/ _ |- _ => destruct H
         | H : _ /\ _ |- _ => destruct H
         end.

(** A list of events none of which reports the timeout. *)
Ltac no_timeout_logs :=
  repeat first [apply List.Forall_nil
               |apply List.Forall_cons; [reflexivity|]].

(** * Properties *)

(** ** Strings and [int] *)

Lemma decimal_char_inv c d :
  Py_UNICODE_TODECIMAL c = Some d ->
  (d < 10)%N /\ ((c < 127)%N -> c = (48 + d)%N).
Proof.
  unfold Py_UNICODE_TODECIMAL.
  destruct (List.find _ decimal_zeros) as [z|] eqn:Hf; [|discriminate].
  intros [= <-]. apply List.find_some in Hf as [Hin Hz].
  apply andb_prop in Hz as [Hle Hlt].
  apply N.leb_le in Hle. apply N.ltb_lt in Hlt.
  split; [lia|]. intros Hc.
  assert (Hall : Forall (fun z => z = 48%N \/ (127 <= z)%N) decimal_zeros).
  { unfold decimal_zeros. repeat (constructor; [first [left; reflexivity | right; lia]|]).
    constructor. }
  rewrite List.Forall_forall in Hall. apply Hall in Hin as [->|Hbig]; lia.
Qed.

Lemma space_not_decimal c :
  Py_UNICODE_ISSPACE c = true -> Py_UNICODE_TODECIMAL c = None.
Proof.
  unfold Py_UNICODE_ISSPACE. intros H.
  apply existsb_exists in H as [x [Hin Hx]]. apply N.eqb_eq in Hx. subst x.
  assert (Hall : Forall (fun x => Py_UNICODE_TODECIMAL x = None) unicode_spaces).
  { unfold unicode_spaces. repeat (constructor; [vm_compute; reflexivity|]).
    constructor. }
  rewrite List.Forall_forall in Hall. auto.
Qed.

Lemma to_ascii_decimal c d :
  Py_UNICODE_TODECIMAL c = Some d ->
  to_ascii_digit_or_space c = Some (48 + d)%N.
Proof.
  intros H. pose proof (decimal_char_inv _ _ H) as [Hd Hc].
  unfold to_ascii_digit_or_space.
  destruct (c <? 127)%N eqn:E.
  - apply N.ltb_lt in E. rewrite (Hc E) at 1. reflexivity.
  - destruct (Py_UNICODE_ISSPACE c) eqn:Es.
    + apply space_not_decimal in Es. congruence.
    + rewrite H. reflexivity.
Qed.

Lemma ascii_digit_of_decimal d :
  (d < 10)%N -> ascii_digit (48 + d) = Some (Z.of_N d).
Proof.
  intros H. unfold ascii_digit.
  replace ((48 <=? 48 + d)%N && (48 + d <=? 57)%N) with true.
  - f_equal. lia.
  - symmetry. apply andb_true_intro. split; apply N.leb_le; lia.
Qed.

Lemma transform_decimal s :
  forallb is_decimal_char s = true ->
  exists t, transform_decimal_and_space s = Some t
    /\ length t = length s
    /\ forall prev acc n,
         (prev = AfterDigit \/ s <> []) ->
         scan_digits prev acc n t
         = Some (fold_left (fun acc c =>
                   10 * acc + match Py_UNICODE_TODECIMAL c with
                              | Some d => Z.of_N d
                              | None => 0
                              end) s acc,
                 (n + N.of_nat (length s))%N, []).
Proof.
  induction s as [|c s IH]; simpl; intros H.
  - exists []. repeat split; auto. intros prev acc n [->|Hne]; [|congruence].
    simpl. rewrite N.add_0_r. reflexivity.
  - apply andb_prop in H as [Hc Hs]. unfold is_decimal_char in Hc.
    destruct (Py_UNICODE_TODECIMAL c) as [d|] eqn:Hd; [|discriminate].
    destruct (IH Hs) as (t & Ht & Hlen & Hscan).
    rewrite (to_ascii_decimal _ _ Hd), Ht. eexists; split; [reflexivity|].
    split; [simpl; congruence|].
    intros prev acc n _. cbn [scan_digits].
    pose proof (decimal_char_inv _ _ Hd) as [Hlt _].
    rewrite (ascii_digit_of_decimal _ Hlt).
    rewrite Hscan by auto. cbn [fold_left length].
    replace (n + 1 + N.of_nat (length s))%N with (n + N.of_nat (S (length s)))%N by lia.
    reflexivity.
Qed.

Lemma skip_spaces_digit d t :
  (d < 10)%N -> skip_spaces ((48 + d)%N :: t) = (48 + d)%N :: t.
Proof.
  intros H. cbn [skip_spaces]. unfold Py_ISSPACE.
  replace ((9 <=? 48 + d)%N && (48 + d <=? 13)%N || (48 + d =? 32)%N) with false; auto.
  symmetry. apply orb_false_intro.
  - apply andb_false_intro2. apply N.leb_gt. lia.
  - apply N.eqb_neq. lia.
Qed.

(** [int] reads a string of decimal characters as the number it denotes,
    as long as the string keeps within the limit on digits. *)
Lemma py_int_decimal limit s :
  isdecimal s = true ->
  (limit = 0%N \/ (N.of_nat (length s) <= limit)%N) ->
  py_int limit s = Ok (decimal_value s).
Proof.
  intros Hdec Hlim. unfold isdecimal in Hdec.
  destruct s as [|c s]; [discriminate|].
  destruct (transform_decimal _ Hdec) as (t & Ht & Hlen & Hscan).
  unfold py_int. rewrite Ht.
  cbn [forallb] in Hdec. apply andb_prop in Hdec as [Hc _].
  unfold is_decimal_char in Hc.
  destruct (Py_UNICODE_TODECIMAL c) as [d|] eqn:Hd; [|discriminate].
  pose proof (decimal_char_inv _ _ Hd) as [Hlt _].
  cbn [transform_decimal_and_space] in Ht.
  rewrite (to_ascii_decimal _ _ Hd) in Ht.
  destruct (transform_decimal_and_space s) as [t'|]; [|discriminate].
  injection Ht as <-.
  rewrite (skip_spaces_digit _ _ Hlt).
  replace ((48 + d =? 43)%N) with false by (symmetry; apply N.eqb_neq; lia).
  replace ((48 + d =? 45)%N) with false by (symmetry; apply N.eqb_neq; lia).
  rewrite Hscan by (right; discriminate).
  cbn [skip_spaces]. rewrite N.add_0_l.
  replace ((0 <? limit)%N && (limit <? N.of_nat (length (c :: s)))%N) with false.
  - unfold decimal_value. f_equal. lia.
  - symmetry. destruct Hlim as [->|Hle]; [reflexivity|].
    apply andb_false_intro2. apply N.ltb_ge. exact Hle.
Qed.

Lemma fold_decimal_nonneg s acc :
  0 <= acc ->
  0 <= fold_left (fun acc c =>
         10 * acc + match Py_UNICODE_TODECIMAL c with
                    | Some d => Z.of_N d
                    | None => 0
                    end) s acc.
Proof.
  revert acc. induction s as [|c s IH]; simpl; intros acc H; [exact H|].
  apply IH. destruct (Py_UNICODE_TODECIMAL c); lia.
Qed.

Lemma decimal_value_nonneg s : 0 <= decimal_value s.
Proof. apply fold_decimal_nonneg. lia. Qed.

(** A character [int] cannot read makes the conversion fail, wherever it
    stands. *)
Lemma py_int_unreadable limit s :
  (exists c, In c s /\ to_ascii_digit_or_space c = None) ->
  py_int limit s = Raise ValueError.
Proof.
  intros (c & Hin & Hc). unfold py_int.
  replace (transform_decimal_and_space s) with (@None pystr); [reflexivity|].
  symmetry. induction s as [|a s IH]; [destruct Hin|].
  cbn [transform_decimal_and_space]. destruct Hin as [->|Hin].
  - rewrite Hc. reflexivity.
  - rewrite (IH Hin). destruct (to_ascii_digit_or_space a); reflexivity.
Qed.

Lemma isdecimal_isdigit s : isdecimal s = true -> isdigit s = true.
Proof.
  unfold isdecimal, isdigit. destruct s as [|c s]; [auto|].
  generalize (c :: s). intros l. induction l as [|a l IH]; simpl; auto.
  intros H. apply andb_prop in H as [Ha Hl]. rewrite (IH Hl), andb_true_r.
  unfold is_decimal_char in Ha. unfold is_digit_char, Py_UNICODE_TODIGIT.
  destruct (Py_UNICODE_TODECIMAL a); [reflexivity|discriminate].
Qed.

(** ** Sums over a dictionary *)

Section MapSum.
Context {A : Type} (g : A -> Z).

Lemma add_entry_comm (j1 j2 : pyval) (z1 z2 : A) (y : Z) :
  add_entry g j1 z1 (add_entry g j2 z2 y)
  = add_entry g j2 z2 (add_entry g j1 z1 y).
Proof. unfold add_entry. lia. Qed.

Lemma map_sum_insert (k : pyval) (x : A) (m : gmap pyval A) :
  map_fold (add_entry g) 0 (<[k := x]> m)
  = map_fold (add_entry g) 0 m
    - match m !! k with Some y => g y | None => 0 end + g x.
Proof.
  destruct (m !! k) as [y|] eqn:E.
  - rewrite <- (insert_delete_eq m).
    rewrite map_fold_insert_L;
      [|intros; apply add_entry_comm|apply lookup_delete_eq].
    rewrite (map_fold_delete_L (add_entry g) 0 k y m);
      [|intros; apply add_entry_comm|exact E].
    unfold add_entry. lia.
  - rewrite map_fold_insert_L; [|intros; apply add_entry_comm|exact E].
    unfold add_entry. lia.
Qed.

Lemma map_sum_alter (h : A -> A) (k : pyval) (y : A) (m : gmap pyval A) :
  m !! k = Some y ->
  map_fold (add_entry g) 0 (alter h k m)
  = map_fold (add_entry g) 0 m - g y + g (h y).
Proof.
  intros E.
  assert (alter h k m = <[k := h y]> m) as ->.
  { apply map_eq. intros j. destruct (decide (k = j)) as [->|Hne].
    - rewrite lookup_alter_eq, lookup_insert_eq, E. reflexivity.
    - rewrite lookup_alter_ne, lookup_insert_ne by done. reflexivity. }
  rewrite map_sum_insert, E. reflexivity.
Qed.

End MapSum.

Lemma sum_buckets_empty f : sum_buckets f ∅ = 0.
Proof. unfold sum_buckets. apply map_fold_empty. Qed.

Lemma sum_counts_empty : sum_counts ∅ = 0.
Proof. unfold sum_counts. apply map_fold_empty. Qed.

Lemma sum_counts_increment (k : pyval) (d : gmap pyval Z) :
  sum_counts (<[k := match d !! k with Some n => n | None => 0 end + 1]> d)
  = sum_counts d + 1.
Proof.
  unfold sum_counts. rewrite (map_sum_insert (fun n => n)).
  destruct (d !! k); lia.
Qed.

Lemma sum_buckets_alter f h (k : pyval) (b : bucket) (d : gmap pyval bucket) :
  d !! k = Some b ->
  sum_buckets f (alter h k d) = sum_buckets f d - f b + f (h b)
  /\ alter h k d !! k = Some (h b).
Proof.
  intros E. split.
  - unfold sum_buckets. apply map_sum_alter. exact E.
  - rewrite lookup_alter_eq, E. reflexivity.
Qed.

Lemma sum_buckets_setdefault f (k : pyval) (d : gmap pyval bucket) :
  f new_bucket = 0 ->
  let d1 := match d !! k with Some _ => d | None => <[k := new_bucket]> d end in
  exists b, d1 !! k = Some b /\ sum_buckets f d1 = sum_buckets f d.
Proof.
  intros Hf. simpl. destruct (d !! k) as [y|] eqn:E.
  - exists y. auto.
  - exists new_bucket. rewrite lookup_insert_eq. split; [reflexivity|].
    unfold sum_buckets. rewrite map_sum_insert, E. lia.
Qed.

(** ** Aggregation *)

Section AggregationFacts.
Context `{RT : PyRuntime}.


Section Buckets.
Variable calls : metrics -> gmap pyval bucket.
Variable set_calls :
  (gmap pyval bucket -> gmap pyval bucket) -> metrics -> metrics.
Hypothesis set_set :
  forall F G m, set_calls F (set_calls G m) = set_calls (fun d => F (G d)) m.

Lemma update_bucket_calls_run field item m d a v :
  duration_of item = Ok d ->
  lower_equals (dict_get item "Answered" (PStr [])) "true" = Ok a ->
  (a = false ->
   lower_equals (dict_get item "Call outcome reason" (PStr [])) "voicemail"
   = Ok v) ->
  exists F,
    update_bucket_calls field calls set_calls item m = (Ok tt, set_calls F m)
    /\ sum_buckets bk_total_calls (F (calls m))
       = sum_buckets bk_total_calls (calls m) + 1
    /\ sum_buckets bk_connected_calls (F (calls m))
       = sum_buckets bk_connected_calls (calls m) + connected_share a
    /\ sum_buckets bk_voicemail_calls (F (calls m))
       = sum_buckets bk_voicemail_calls (calls m) + voicemail_share a v
    /\ sum_buckets bk_total_duration (F (calls m))
       = sum_buckets bk_total_duration (calls m) + d.
Proof.
  intros Hd Ha Hv.
  unfold update_bucket_calls, bind, modify, lift_res, ret.
  rewrite Ha, Hd.
  set (k := dict_get item field (PStr (str "Unknown"))).
  set (d0 := calls m).
  assert (Hsd : forall f, f new_bucket = 0 -> exists b,
            (match d0 !! k with Some _ => d0 | None => <[k := new_bucket]> d0 end)
              !! k = Some b
            /\ sum_buckets f (match d0 !! k with
                              | Some _ => d0
                              | None => <[k := new_bucket]> d0
                              end) = sum_buckets f d0)
    by (intros f Hf; apply (sum_buckets_setdefault f k d0 Hf)).
  destruct (Hsd bk_total_calls eq_refl) as (b & Hb & S1).
  destruct (Hsd bk_connected_calls eq_refl) as (b2 & Hb2 & S2).
  destruct (Hsd bk_voicemail_calls eq_refl) as (b3 & Hb3 & S3).
  destruct (Hsd bk_total_duration eq_refl) as (b4 & Hb4 & S4).
  rewrite Hb in Hb2, Hb3, Hb4.
  injection Hb2 as <-. injection Hb3 as <-. injection Hb4 as <-.
  clear Hsd.
  set (d1 := match d0 !! k with Some _ => d0 | None => <[k := new_bucket]> d0 end)
    in *.
  destruct a.
  - rewrite !set_set. eexists. split; [reflexivity|]. cbv beta. fold d0 d1.
    pose proof (fun f => sum_buckets_alter f (bk_add_total_calls 1) k b d1 Hb) as A1.
    pose proof (fun f => sum_buckets_alter f (bk_add_connected_calls 1) k _ _
                           (proj2 (A1 f))) as A2.
    pose proof (fun f => sum_buckets_alter f (bk_add_total_duration d) k _ _
                           (proj2 (A2 f))) as A3.
    repeat split.
    + rewrite (proj1 (A3 _)), (proj1 (A2 _)), (proj1 (A1 _)), S1. simpl. lia.
    + rewrite (proj1 (A3 _)), (proj1 (A2 _)), (proj1 (A1 _)), S2. simpl. lia.
    + rewrite (proj1 (A3 _)), (proj1 (A2 _)), (proj1 (A1 _)), S3. simpl. lia.
    + rewrite (proj1 (A3 _)), (proj1 (A2 _)), (proj1 (A1 _)), S4. simpl. lia.
  - rewrite (Hv eq_refl). destruct v.
    + rewrite !set_set. eexists. split; [reflexivity|]. cbv beta. fold d0 d1.
      pose proof (fun f => sum_buckets_alter f (bk_add_total_calls 1) k b d1 Hb) as A1.
      pose proof (fun f => sum_buckets_alter f (bk_add_voicemail_calls 1) k _ _
                             (proj2 (A1 f))) as A2.
      pose proof (fun f => sum_buckets_alter f (bk_add_total_duration d) k _ _
                             (proj2 (A2 f))) as A3.
      repeat split.
      * rewrite (proj1 (A3 _)), (proj1 (A2 _)), (proj1 (A1 _)), S1. simpl. lia.
      * rewrite (proj1 (A3 _)), (proj1 (A2 _)), (proj1 (A1 _)), S2. simpl. lia.
      * rewrite (proj1 (A3 _)), (proj1 (A2 _)), (proj1 (A1 _)), S3. simpl. lia.
      * rewrite (proj1 (A3 _)), (proj1 (A2 _)), (proj1 (A1 _)), S4. simpl. lia.
    + rewrite !set_set. eexists. split; [reflexivity|]. cbv beta. fold d0 d1.
      pose proof (fun f => sum_buckets_alter f (bk_add_total_calls 1) k b d1 Hb) as A1.
      pose proof (fun f => sum_buckets_alter f (bk_add_total_duration d) k _ _
                             (proj2 (A1 f))) as A3.
      repeat split.
      * rewrite (proj1 (A3 _)), (proj1 (A1 _)), S1. simpl. lia.
      * rewrite (proj1 (A3 _)), (proj1 (A1 _)), S2. simpl. lia.
      * rewrite (proj1 (A3 _)), (proj1 (A1 _)), S3. simpl. lia.
      * rewrite (proj1 (A3 _)), (proj1 (A1 _)), S4. simpl. lia.
Qed.

End Buckets.
End AggregationFacts.

Section RowFacts.
Context `{RT : PyRuntime}.


Lemma update_department_calls_counters item m :
  same_counters m (snd (update_department_calls item m))
  /\ call_outcomes (snd (update_department_calls item m)) = call_outcomes m
  /\ user_calls (snd (update_department_calls item m)) = user_calls m.
Proof.
  unfold update_department_calls, update_bucket_calls, bind, modify, lift_res, ret.
  destruct (lower_equals (dict_get item "Answered" (PStr [])) "true") as [[]|];
    [| destruct (lower_equals (dict_get item "Call outcome reason" (PStr []))
                   "voicemail") as [[]|] |];
    try destruct (duration_of item); cbn; unfold same_counters; cbn; auto.
Qed.

Lemma update_user_calls_counters item m :
  same_counters m (snd (update_user_calls item m))
  /\ call_outcomes (snd (update_user_calls item m)) = call_outcomes m
  /\ department_calls (snd (update_user_calls item m)) = department_calls m.
Proof.
  unfold update_user_calls, update_bucket_calls, bind, modify, lift_res, ret.
  destruct (lower_equals (dict_get item "Answered" (PStr [])) "true") as [[]|];
    [| destruct (lower_equals (dict_get item "Call outcome reason" (PStr []))
                   "voicemail") as [[]|] |];
    try destruct (duration_of item); cbn; unfold same_counters; cbn; auto.
Qed.

Lemma record_response_time_outcome a s m :
  (exists t, record_response_time a s m = (Ok tt, append_response_time t m))
  \/ record_response_time a s m = (Ok tt, m)
  \/ record_response_time a s m = (Raise TypeError, m).
Proof.
  unfold record_response_time, try_except, bind, lift_res, modify, ret.
  destruct (datetime_fromisoformat a) as [x|e] eqn:Ha.
  - destruct (datetime_fromisoformat s) as [y|e] eqn:Hs.
    + destruct (datetime_sub x y) as [t|e] eqn:Hsub.
      * left. eexists. reflexivity.
      * right; right. unfold datetime_sub in Hsub.
        destruct (dt_utcoffset x), (dt_utcoffset y); inversion Hsub; reflexivity.
    + right. unfold datetime_fromisoformat in Hs. destruct s as [s|].
      * destruct (fromisoformat s); inversion Hs. left. reflexivity.
      * inversion Hs. right. reflexivity.
  - right. unfold datetime_fromisoformat in Ha. destruct a as [a|].
    + destruct (fromisoformat a); inversion Ha. left. reflexivity.
    + inversion Ha. right. reflexivity.
Qed.


Lemma process_call_record_unfold item m :
  process_call_record item m
  = match duration_of item with
    | Raise e => (Raise e, m)
    | Ok d =>
        let m0 := add_total_calls 1 (add_total_duration d m) in
        match lower_equals (dict_get item "Answered" (PStr [])) "true" with
        | Raise e => (Raise e, m0)
        | Ok a =>
            match py_lower (dict_get item "Call outcome reason" (PStr [])) with
            | Raise e => (Raise e, m0)
            | Ok r =>
                after_classification item
                  (if a then add_connected_calls 1 m0
                   else if bool_decide (r = str "voicemail")
                        then add_voicemail_calls 1 m0
                        else m0)
            end
        end
    end.
Proof.
  unfold process_call_record, after_classification, bind, lift_res, modify, ret.
  destruct (duration_of item) as [d|]; [|reflexivity]. cbv zeta.
  destruct (lower_equals _ _) as [a|]; [|reflexivity].
  destruct (py_lower _) as [r|]; [|reflexivity].
  destruct a; [reflexivity|]. destruct (bool_decide _); reflexivity.
Qed.

Lemma after_classification_counters item m :
  same_counters m (snd (after_classification item m)).
Proof.
  unfold after_classification, bind.
  set (first := if truthy _ && truthy _ then _ else _).
  assert (H1 : same_counters m (snd (first m))
               /\ (fst (first m) = Raise TypeError \/ fst (first m) = Ok tt)).
  { unfold first. destruct (truthy _ && truthy _).
    - destruct (record_response_time_outcome
                  (dict_get item "Answer time" (PStr []))
                  (dict_get item "Start time" (PStr [])) m)
        as [[t ->]|[->| ->]]; unfold same_counters; cbn; auto 10.
    - unfold ret, same_counters; cbn; auto 10. }
  destruct (first m) as [[[]|e] m1]; cbn [fst snd] in H1;
    [|destruct H1 as [H1 _]; exact H1].
  destruct H1 as [H1 _]. unfold modify at 1.
  set (m2 := set_call_outcomes _ m1).
  pose proof (update_department_calls_counters item m2) as [H2 _].
  destruct (update_department_calls item m2) as [[[]|e] m3]; cbn [snd] in *.
  - pose proof (update_user_calls_counters item m3) as [H3 _].
    destruct (update_user_calls item m3) as [r m4]; cbn [snd] in *.
    unfold same_counters in *. subst m2. cbn in *. lia.
  - unfold same_counters in *. subst m2. cbn in *. lia.
Qed.

(** The connected and voicemail counters never run ahead of the count of
    calls, whether the row is ingested to the end or raises on the way. *)
Lemma process_call_record_bounded item m :
  let m' := snd (process_call_record item m) in
  connected_calls m <= connected_calls m'
  /\ voicemail_calls m <= voicemail_calls m'
  /\ (connected_calls m' + voicemail_calls m')
     - (connected_calls m + voicemail_calls m)
     <= total_calls m' - total_calls m.
Proof.
  cbv zeta. rewrite process_call_record_unfold.
  destruct (duration_of item) as [d|]; [|cbn; lia]. cbv zeta.
  destruct (lower_equals _ _) as [a|]; [|cbn; lia].
  destruct (py_lower _) as [r|]; [|cbn; lia].
  match goal with |- context [after_classification item ?x] =>
    pose proof (after_classification_counters item x) as (Ht & Hc & Hv & _)
  end.
  rewrite Ht, Hc, Hv.
  destruct a; [|destruct (bool_decide _)]; cbn; lia.
Qed.

Lemma process_rows_bounded cdr_data m :
  connected_calls m + voicemail_calls m <= total_calls m ->
  let m' := snd (process_rows cdr_data m) in
  connected_calls m' + voicemail_calls m' <= total_calls m'.
Proof.
  revert m. induction cdr_data as [|item rest IH]; intros m Hm; [exact Hm|].
  cbn [process_rows]. unfold bind.
  pose proof (process_call_record_bounded item m) as Hb. cbv zeta in Hb.
  destruct (process_call_record item m) as [[[]|e] m1]; cbn [snd] in *.
  - apply IH. lia.
  - lia.
Qed.


Lemma after_classification_ok item m m' d a v :
  duration_of item = Ok d ->
  lower_equals (dict_get item "Answered" (PStr [])) "true" = Ok a ->
  lower_equals (dict_get item "Call outcome reason" (PStr [])) "voicemail"
  = Ok v ->
  after_classification item m = (Ok tt, m') ->
  sum_counts (call_outcomes m') = sum_counts (call_outcomes m) + 1
  /\ (forall calls : metrics -> gmap pyval bucket,
        calls = department_calls \/ calls = user_calls ->
        sum_buckets bk_total_calls (calls m')
        = sum_buckets bk_total_calls (calls m) + 1
        /\ sum_buckets bk_connected_calls (calls m')
           = sum_buckets bk_connected_calls (calls m) + connected_share a
        /\ sum_buckets bk_voicemail_calls (calls m')
           = sum_buckets bk_voicemail_calls (calls m) + voicemail_share a v
        /\ sum_buckets bk_total_duration (calls m')
           = sum_buckets bk_total_duration (calls m) + d).
Proof.
  intros Hd Ha Hv. unfold after_classification, bind.
  set (first := if truthy _ && truthy _ then _ else _).
  assert (H1 : fst (first m) = Ok tt ->
               call_outcomes (snd (first m)) = call_outcomes m
               /\ department_calls (snd (first m)) = department_calls m
               /\ user_calls (snd (first m)) = user_calls m).
  { unfold first. destruct (truthy _ && truthy _).
    - destruct (record_response_time_outcome
                  (dict_get item "Answer time" (PStr []))
                  (dict_get item "Start time" (PStr [])) m)
        as [[t ->]|[->| ->]]; cbn; auto; discriminate.
    - unfold ret; cbn; auto. }
  destruct (first m) as [[[]|e] m1]; cbn [fst snd] in H1; [|discriminate].
  destruct (H1 eq_refl) as (E1 & E2 & E3). clear H1.
  unfold modify at 1. set (m2 := set_call_outcomes _ m1).
  destruct (update_bucket_calls_run department_calls set_department_calls
              (fun _ _ _ => eq_refl)
              "Department ID" item m2 d a v Hd Ha (fun _ => Hv))
    as (F & HF & D1 & D2 & D3 & D4).
  fold update_department_calls in HF. rewrite HF.
  destruct (update_bucket_calls_run user_calls set_user_calls
              (fun _ _ _ => eq_refl)
              "User" item (set_department_calls F m2) d a v Hd Ha (fun _ => Hv))
    as (G & HG & U1 & U2 & U3 & U4).
  fold update_user_calls in HG. rewrite HG.
  intros [= <-]. split.
  - cbn. rewrite E1. apply sum_counts_increment.
  - intros calls [-> | ->]; cbn in *; rewrite <- ?E2, <- ?E3; auto.
Qed.

(** What a row that is ingested without raising adds to the metrics. *)
Lemma process_call_record_ok item m m' :
  process_call_record item m = (Ok tt, m') ->
  total_calls m' = total_calls m + 1
  /\ sum_counts (call_outcomes m') = sum_counts (call_outcomes m) + 1
  /\ exists d a v,
       duration_of item = Ok d
       /\ total_duration m' = total_duration m + d
       /\ connected_calls m' = connected_calls m + connected_share a
       /\ voicemail_calls m' = voicemail_calls m + voicemail_share a v
       /\ forall calls : metrics -> gmap pyval bucket,
            calls = department_calls \/ calls = user_calls ->
            sum_buckets bk_total_calls (calls m')
            = sum_buckets bk_total_calls (calls m) + 1
            /\ sum_buckets bk_connected_calls (calls m')
               = sum_buckets bk_connected_calls (calls m) + connected_share a
            /\ sum_buckets bk_voicemail_calls (calls m')
               = sum_buckets bk_voicemail_calls (calls m) + voicemail_share a v
            /\ sum_buckets bk_total_duration (calls m')
               = sum_buckets bk_total_duration (calls m) + d.
Proof.
  rewrite process_call_record_unfold.
  destruct (duration_of item) as [d|] eqn:Hd; [|discriminate]. cbv zeta.
  destruct (lower_equals _ "true") as [a|] eqn:Ha; [|discriminate].
  destruct (py_lower _) as [r|] eqn:Hr; [|discriminate].
  assert (Hv : lower_equals (dict_get item "Call outcome reason" (PStr []))
                 "voicemail" = Ok (bool_decide (r = str "voicemail")))
    by (unfold lower_equals; rewrite Hr; reflexivity).
  intros Hrun.
  match type of Hrun with after_classification item ?x = _ =>
    pose proof (after_classification_counters item x) as (Ht & Hc & Hvm & Hdur);
    destruct (after_classification_ok item x m' d a _ Hd Ha Hv Hrun)
      as (Ho & Hb)
  end.
  rewrite Hrun in Ht, Hc, Hvm, Hdur. cbn [snd] in *.
  assert (Hcalls : forall calls : metrics -> gmap pyval bucket,
            calls = department_calls \/ calls = user_calls ->
            calls (if a then add_connected_calls 1
                              (add_total_calls 1 (add_total_duration d m))
                   else if bool_decide (r = str "voicemail")
                        then add_voicemail_calls 1
                               (add_total_calls 1 (add_total_duration d m))
                        else add_total_calls 1 (add_total_duration d m))
            = calls m).
  { intros calls [-> | ->]; destruct a; try destruct (bool_decide _); reflexivity. }
  split; [|split; [|exists d, a, (bool_decide (r = str "voicemail"))]].
  - rewrite Ht. destruct a; [|destruct (bool_decide _)]; cbn; lia.
  - rewrite Ho. destruct a; [|destruct (bool_decide _)]; reflexivity.
  - split; [reflexivity|]. split; [|split; [|split]].
    + rewrite Hdur. destruct a; [|destruct (bool_decide _)]; cbn; lia.
    + rewrite Hc. destruct a; [|destruct (bool_decide _)]; cbn; lia.
    + rewrite Hvm. destruct a; [|destruct (bool_decide _)]; cbn; lia.
    + intros calls Hcase. rewrite <- (Hcalls calls Hcase). apply Hb, Hcase.
Qed.


Lemma initial_metrics_consistent :
  consistent initial_metrics /\ outcomes_agree initial_metrics.
Proof.
  unfold consistent, agrees_with, outcomes_agree. cbn.
  rewrite !sum_buckets_empty, sum_counts_empty. auto 10.
Qed.

Lemma process_call_record_ok_consistent item m m' :
  process_call_record item m = (Ok tt, m') ->
  consistent m -> consistent m'.
Proof.
  intros Hrun [Hd Hu].
  destruct (process_call_record_ok _ _ _ Hrun)
    as (Ht & _ & d & a & v & _ & Hdur & Hc & Hv & Hb).
  destruct (Hb department_calls (or_introl eq_refl)) as (D1 & D2 & D3 & D4).
  destruct (Hb user_calls (or_intror eq_refl)) as (U1 & U2 & U3 & U4).
  unfold consistent, agrees_with in *.
  destruct Hd as (? & ? & ? & ?), Hu as (? & ? & ? & ?).
  repeat split; lia.
Qed.

(** When the loop over the rows runs to its end, every row was counted
    once, in the totals, in the outcomes and in the buckets. *)
Lemma process_rows_ok cdr_data m m' :
  process_rows cdr_data m = (Ok tt, m') ->
  total_calls m' = total_calls m + Z.of_nat (length cdr_data)
  /\ (consistent m -> consistent m')
  /\ (outcomes_agree m -> outcomes_agree m').
Proof.
  revert m. induction cdr_data as [|item rest IH]; intros m.
  - intros [= <-]. cbn. split; [lia|auto].
  - cbn [process_rows]. unfold bind.
    destruct (process_call_record item m) as [[[]|e] m1] eqn:H1; [|discriminate].
    intros Hrest. destruct (IH _ Hrest) as (Ht & Hc & Ho).
    destruct (process_call_record_ok _ _ _ H1) as (Ht1 & Ho1 & _).
    split; [|split].
    + rewrite Ht, Ht1. cbn [length]. lia.
    + intros Hm. apply Hc. eapply process_call_record_ok_consistent; eauto.
    + intros Hm. apply Ho. unfold outcomes_agree in *. lia.
Qed.

End RowFacts.

(** ** The world: histories and the clock *)

Lemma chronological_app n2 n1 :
  chronological n2 -> chronological n1 ->
  (forall x y, In x n2 -> In y n1 -> fst y <= fst x) ->
  chronological (n2 ++ n1).
Proof.
  induction n2 as [|a n2 IH]; intros H2 H1 Hle; [exact H1|].
  cbn [app chronological] in *. destruct H2 as [Ha H2]. split.
  - destruct n2 as [|b n2]; cbn [app].
    + destruct n1 as [|c n1]; [exact I|]. apply Hle; left; reflexivity.
    + exact Ha.
  - apply IH; auto. intros x y Hx Hy. apply Hle; [right; exact Hx|exact Hy].
Qed.

Lemma chronological_order n2 n1 x y :
  chronological (n2 ++ n1) -> In x n2 -> In y n1 -> fst y <= fst x.
Proof.
  induction n2 as [|a n2 IH]; intros H Hx Hy; [destruct Hx|].
  cbn [app chronological] in H. destruct H as [Ha H].
  assert (Hall : forall l z, chronological (a :: l) -> In z l -> fst z <= fst a).
  { clear. intros l. revert a. induction l as [|b l IHl]; intros a z Hc Hz;
      [destruct Hz|].
    cbn [chronological] in Hc. destruct Hc as [Hab Hc].
    destruct Hz as [<-|Hz]; [exact Hab|].
    specialize (IHl b z Hc Hz). lia. }
  destruct Hx as [<-|Hx].
  - apply (Hall (n2 ++ n1)); [cbn [chronological]; auto|].
    apply in_or_app. right. exact Hy.
  - apply IH; auto.
Qed.

Lemma evolves_refl s : evolves s s [].
Proof. unfold evolves. cbn. repeat split; auto; try lia. Qed.

Lemma evolves_trans s1 s2 s3 n1 n2 :
  evolves s1 s2 n1 -> evolves s2 s3 n2 -> evolves s1 s3 (n2 ++ n1).
Proof.
  intros (T1 & C1 & F1 & S1 & W1) (T2 & C2 & F2 & S2 & W2). unfold evolves.
  split; [rewrite T2, T1, app_assoc; reflexivity|].
  split; [lia|]. split; [|split; [|congruence]].
  - apply List.Forall_app. split.
    + eapply List.Forall_impl; [|exact F2]. cbv beta. intros; lia.
    + eapply List.Forall_impl; [|exact F1]. cbv beta. intros; lia.
  - apply chronological_app; auto. intros x y Hx Hy.
    rewrite List.Forall_forall in F1, F2.
    specialize (F1 y Hy). specialize (F2 x Hx). cbv beta in *. lia.
Qed.

Section WorldFacts.
Context `{RT : PyRuntime}.
Variable env : Env.
Variable config : Config.

Lemma perform_spec {A} ev duration (reply : history -> res A) s :
  0 <= duration ->
  exists s',
    perform env ev duration reply s
    = Some (reply ((clock s, ev) :: trace s), s')
    /\ trace s' = (clock s, ev) :: trace s
    /\ clock s + duration <= clock s'
    /\ webex s' = webex s
    /\ self_metrics s' = self_metrics s
    /\ evolves s s' [(clock s, ev)].
Proof.
  intros Hd. unfold perform. eexists. split; [reflexivity|]. cbn.
  split; [reflexivity|]. split; [lia|]. split; [reflexivity|].
  split; [reflexivity|]. unfold evolves. cbn.
  split; [reflexivity|]. split; [lia|]. split; [|auto].
  constructor; [cbn; lia|constructor].
Qed.

Lemma log_spec msg s :
  exists s',
    log env msg s = Some (Ok tt, s')
    /\ trace s' = (clock s, EvLog msg) :: trace s
    /\ webex s' = webex s
    /\ self_metrics s' = self_metrics s
    /\ evolves s s' [(clock s, EvLog msg)].
Proof.
  unfold log.
  destruct (perform_spec (EvLog msg) 0 (fun _ => Ok tt) s ltac:(lia))
    as (s' & H & T & _ & Wb & Me & E).
  exists s'. auto.
Qed.

Lemma ticks_app report_id h1 h2 :
  ticks report_id h1 -> ticks report_id h2 -> ticks report_id (h1 ++ h2).
Proof.
  intros H1 H2. induction H1; [exact H2|].
  cbn [app]. constructor; auto.
Qed.

(** The poll loop: what it emits, and that the clock bounds its rounds. *)
Lemma poll_loop_spec fuel report_id start_time :
  forall status s,
    Z.max 0 (timeout - (clock s - start_time) + 30 * second) + 30 * second
    <= 30 * second * Z.of_nat fuel ->
    exists r s' new,
      poll_loop env fuel report_id start_time status s = Some (r, s')
      /\ evolves s s' new
      /\ self_metrics s' = self_metrics s
      /\ poll_shape report_id r new
      /\ (forall e, r = Raise e ->
            report_status_reply env (trace s') = Raise e).
Proof.
  induction fuel as [|fuel IH]; intros status s Hfuel.
  - exfalso. unfold second in *. cbn in Hfuel. lia.
  - cbn [poll_loop].
    destruct (bool_decide (status = PStr (str "done"))).
    { exists (Ok true), s, []. unfold wret.
      split; [reflexivity|]. split; [apply evolves_refl|].
      split; [reflexivity|]. split; [constructor|intros e; discriminate]. }
    unfold wbind at 1. unfold time_time.
    destruct (perform_spec EvTime 0 (fun _ => Ok (clock s)) s ltac:(lia))
      as (s1 & -> & T1 & C1 & W1 & M1 & E1).
    destruct (clock s - start_time >? timeout) eqn:Hto.
    { unfold wbind.
      destruct (log_spec LogTimeout s1) as (s2 & -> & T2 & W2 & M2 & E2).
      exists (Ok false), s2, ([(clock s1, EvLog LogTimeout)] ++ [(clock s, EvTime)]).
      unfold wret. split; [reflexivity|].
      split; [eapply evolves_trans; eauto|]. split; [congruence|].
      split; [|intros e; discriminate].
      cbn. do 3 eexists. split; [reflexivity|constructor]. }
    rewrite Z.gtb_ltb in Hto. apply Z.ltb_ge in Hto.
    unfold wbind at 1. unfold time_sleep.
    destruct (perform_spec (EvSleep 30) (30 * second) (fun _ => Ok tt) s1
                ltac:(unfold second; lia))
      as (s2 & -> & T2 & C2 & W2 & M2 & E2).
    unfold wbind at 1.
    destruct (perform_spec (EvReportStatus report_id) 0
                (report_status_reply env) s2 ltac:(lia))
      as (s3 & -> & T3 & C3 & W3 & M3 & E3).
    pose proof (evolves_trans _ _ _ _ _ (evolves_trans _ _ _ _ _ E1 E2) E3) as E13.
    assert (Hsl : clock s <= clock s1 /\ clock s1 + 30 * second <= clock s2).
    { destruct E1 as (_ & ? & _). lia. }
    destruct (report_status_reply env _) as [status'|e] eqn:Hreply.
    2:{ exists (Raise e), s3. eexists. split; [reflexivity|]. split; [exact E13|].
        split; [congruence|]. split.
        - cbn. do 4 eexists. split; [reflexivity|].
          repeat split; try lia; try constructor.
        - intros e' [= <-]. rewrite T3. exact Hreply. }
    unfold wbind at 1.
    destruct (log_spec (SpinnerWaiting status') s3)
      as (s4 & -> & T4 & W4 & M4 & E4).
    pose proof (evolves_trans _ _ _ _ _ E13 E4) as E14.
    destruct (IH status' s4) as (r & s' & new & Hrun & Ev & Me & Sh & Hr).
    { destruct E4 as (_ & C4 & _). unfold second in *.
      rewrite Nat2Z.inj_succ in Hfuel. lia. }
    exists r, s'. eexists. split; [exact Hrun|].
    split; [eapply evolves_trans; eauto|]. split; [congruence|].
    split; [|exact Hr].
    set (this := [(clock s3, EvLog (SpinnerWaiting status'))] ++
               ([(clock s2, EvReportStatus report_id)] ++
                [(clock s1, EvSleep 30)] ++ [(clock s, EvTime)])).
    assert (Hthis : ticks report_id this)
      by (cbn; constructor; [constructor|lia|lia]).
    destruct r as [[]|e]; cbn [poll_shape] in *.
    + apply ticks_app; auto.
    + destruct Sh as (t & tc & h & -> & Hh).
      exists t, tc, (h ++ this). split; [reflexivity|].
      apply ticks_app; [exact Hh|exact Hthis].
    + destruct Sh as (tq & ts & tc & h & -> & L1 & L2 & Hh).
      exists tq, ts, tc, (h ++ this). split; [reflexivity|].
      repeat split; auto. apply ticks_app; [exact Hh|exact Hthis].
Qed.

End WorldFacts.

Section FetchFacts.
Context `{RT : PyRuntime}.
Variable env : Env.
Variable config : Config.

Lemma create_report_spec num_days s :
  exists r s' new,
    create_report env config num_days s = Some (r, s')
    /\ evolves s s' new
    /\ self_metrics s' = self_metrics s
    /\ creation_history config num_days new
    /\ (r = Ok None -> exists days t,
          num_days = Some days /\ days <> 0 /\ new = [(t, EvCdrReportDays days)]).
Proof.
  assert (Hrange : exists r s' new,
            wbind (log env LogRunningReport)
              (fun _ => wbind (perform env
                           (EvCdrReportRange (START_DATE config) (END_DATE config))
                           0 (cdr_report_reply env))
                          (fun report_id => wret (Some report_id))) s
            = Some (r, s')
            /\ evolves s s' new
            /\ self_metrics s' = self_metrics s
            /\ (exists t1 t2,
                  new = [(t2, EvCdrReportRange (START_DATE config) (END_DATE config));
                         (t1, EvLog LogRunningReport)])
            /\ r <> Ok None).
  { unfold wbind at 1.
    destruct (log_spec env LogRunningReport s) as (s1 & -> & T1 & W1 & M1 & E1).
    unfold wbind.
    destruct (perform_spec env
                (EvCdrReportRange (START_DATE config) (END_DATE config)) 0
                (cdr_report_reply env) s1 ltac:(lia))
      as (s2 & -> & T2 & C2 & W2 & M2 & E2).
    pose proof (evolves_trans _ _ _ _ _ E1 E2) as E12. cbn [app] in E12.
    destruct (cdr_report_reply env _) as [rid|e]; unfold wret;
      do 3 eexists; (split; [reflexivity|]); (split; [exact E12|]);
      (split; [congruence|]); (split; [eauto|discriminate]). }
  unfold create_report, creation_history.
  destruct num_days as [days|].
  - destruct (days =? 0) eqn:Hz.
    + destruct Hrange as (r & s' & new & H & E & M & Hh & Hr).
      exists r, s', new. repeat (split; [assumption|]). intros; contradiction.
    + apply Z.eqb_neq in Hz. unfold wbind.
      destruct (perform_spec env (EvCdrReportDays days) 0
                  (cdr_report_reply env) s ltac:(lia))
        as (s1 & -> & T1 & C1 & W1 & M1 & E1).
      destruct (cdr_report_reply env _) as [rid|e].
      * destruct (negb (truthy rid)); unfold wret; do 3 eexists;
          (split; [reflexivity|]); (split; [exact E1|]);
          (split; [assumption|]); (split; [eauto|]); intros Hr;
          [eauto 6|discriminate].
      * do 3 eexists. split; [reflexivity|]. split; [exact E1|].
        split; [assumption|]. split; [eauto|discriminate].
  - destruct Hrange as (r & s' & new & H & E & M & Hh & Hr).
    exists r, s', new. repeat (split; [assumption|]). intros; contradiction.
Qed.

Lemma fetch_cdr_data_try_spec fuel num_days s :
  (62 <= fuel)%nat ->
  exists r s' new,
    fetch_cdr_data_try env config fuel num_days s = Some (r, s')
    /\ evolves s s' new
    /\ self_metrics s' = self_metrics s
    /\ fetch_body config num_days r new.
Proof.
  intros Hfuel. unfold fetch_cdr_data_try. unfold wbind at 1.
  destruct (create_report_spec num_days s)
    as (rc & s0 & pre & -> & E0 & M0 & Hpre & Hnone).
  destruct rc as [[report_id|]|e].
  2:{ destruct (Hnone eq_refl) as (days & t & -> & Hd & ->).
      do 3 eexists. split; [reflexivity|]. split; [exact E0|].
      split; [exact M0|]. apply fb_no_id; auto. }
  2:{ do 3 eexists. split; [reflexivity|]. split; [exact E0|].
      split; [exact M0|]. apply fb_creation_raised. exact Hpre. }
  unfold wbind at 1.
  destruct (log_spec env (LogCreated report_id) s0)
    as (s1 & -> & T1 & W1 & M1 & E1).
  unfold wbind at 1. unfold time_time.
  destruct (perform_spec env EvTime 0 (fun _ => Ok (clock s1)) s1 ltac:(lia))
    as (s2 & -> & T2 & C2 & W2 & M2 & E2).
  unfold wbind at 1.
  destruct (log_spec env SpinnerFetching s2) as (s3 & -> & T3 & W3 & M3 & E3).
  pose proof (evolves_trans _ _ _ _ _
                (evolves_trans _ _ _ _ _
                   (evolves_trans _ _ _ _ _ E0 E1) E2) E3) as E03.
  cbn [app] in E03.
  destruct (poll_loop_spec env fuel report_id (clock s1) (PStr (str "unknown")) s3)
    as (rp & s4 & polled & Hpoll & E4 & M4 & Hshape & _).
  { destruct E3 as (_ & C3 & _). unfold timeout, second in *. lia. }
  unfold wbind at 1. rewrite Hpoll.
  pose proof (evolves_trans _ _ _ _ _ E03 E4) as E04.
  assert (Hm4 : self_metrics s4 = self_metrics s) by congruence.
  destruct rp as [[]|e]; cbn [negb].
  - unfold wbind at 1.
    destruct (log_spec env SpinnerFetched s4) as (s5 & -> & T5 & W5 & M5 & E5).
    unfold wbind at 1.
    destruct (perform_spec env (EvGetReportLines report_id) 0
                (get_report_lines_reply env) s5 ltac:(lia))
      as (s6 & -> & T6 & C6 & W6 & M6 & E6).
    pose proof (evolves_trans _ _ _ _ _ (evolves_trans _ _ _ _ _ E04 E5) E6)
      as E06.
    cbn [app] in E06.
    assert (Hm6 : self_metrics s6 = self_metrics s) by congruence.
    destruct (get_report_lines_reply env _) as [[|line lines]|e].
    + unfold wbind.
      destruct (log_spec env LogNoData s6) as (s7 & -> & T7 & W7 & M7 & E7).
      pose proof (evolves_trans _ _ _ _ _ E06 E7) as E07. cbn [app] in E07.
      do 3 eexists. split; [reflexivity|]. split; [exact E07|].
      split; [congruence|].
      apply (fb_polled config num_days report_id pre _ _ _ (Ok true) polled
               (Ok None) [_; _; _]); auto. constructor.
    + destruct (DictReader (line :: lines)) as [cdr_data|e] eqn:Hdr.
      * do 3 eexists. split; [reflexivity|]. split; [exact E06|].
        split; [exact Hm6|].
        apply (fb_polled config num_days report_id pre _ _ _ (Ok true) polled
                 _ [_; _]); auto.
        apply (ap_rows report_id _ _ (line :: lines)); [discriminate|exact Hdr].
      * do 3 eexists. split; [reflexivity|]. split; [exact E06|].
        split; [exact Hm6|].
        apply (fb_polled config num_days report_id pre _ _ _ (Ok true) polled
                 _ [_; _]); auto. constructor.
    + do 3 eexists. split; [reflexivity|]. split; [exact E06|].
      split; [exact Hm6|].
      apply (fb_polled config num_days report_id pre _ _ _ (Ok true) polled
               _ [_; _]); auto. constructor.
  - do 3 eexists. split; [reflexivity|]. split; [exact E04|].
    split; [exact Hm4|].
    apply (fb_polled config num_days report_id pre _ _ _ (Ok false) polled
             _ []); auto. constructor.
  - do 3 eexists. split; [reflexivity|]. split; [exact E04|].
    split; [exact Hm4|].
    apply (fb_polled config num_days report_id pre _ _ _ (Raise e) polled
             _ []); auto. constructor.
Qed.

(** [fetch_cdr_data] comes to an end on 62 rounds of fuel, whatever the
    gateway answers, and its events have one of the shapes of
    [fetch_shape]. *)
Lemma fetch_cdr_data_spec fuel num_days s :
  (62 <= fuel)%nat ->
  exists r s' new,
    fetch_cdr_data env config fuel num_days s = Some (r, s')
    /\ evolves s s' new
    /\ self_metrics s' = self_metrics s
    /\ fetch_shape config num_days r new
    /\ (webex s = true -> new <> [])
    /\ (webex s = false -> new = [] /\ r = Ok None).
Proof.
  intros Hfuel. unfold fetch_cdr_data, wbind, wgets.
  destruct (webex s) eqn:Hw; cbn [negb].
  2:{ exists (Ok None), s, []. unfold wret. split; [reflexivity|].
      split; [apply evolves_refl|]. split; [reflexivity|].
      split; [constructor|]. split; [discriminate|auto]. }
  unfold wtry.
  destruct (fetch_cdr_data_try_spec fuel num_days s Hfuel)
    as (rb & s1 & body & -> & E1 & M1 & Hbody).
  assert (Hne : body <> []).
  { inversion Hbody; subst; try discriminate.
    - unfold creation_history in H.
      destruct num_days as [d|]; [destruct (d =? 0)|];
        [destruct H as (? & ? & ->)|destruct H as (? & ->)
        |destruct H as (? & ? & ->)]; discriminate.
    - destruct post; [destruct polled|]; discriminate. }
  destruct rb as [v|e].
  { do 3 eexists. split; [reflexivity|]. split; [exact E1|]. split; [exact M1|].
    split; [apply fs_returned; exact Hbody|]. split; [auto|discriminate]. }
  destruct (is_Exception e) eqn:He.
  2:{ do 3 eexists. split; [reflexivity|]. split; [exact E1|]. split; [exact M1|].
      split; [apply fs_passed; auto|]. split; [auto|discriminate]. }
  unfold fetch_cdr_data_except. unfold wbind at 1.
  destruct (log_spec env (LogFetchError e) s1) as (s2 & -> & T2 & W2 & M2 & E2).
  pose proof (evolves_trans _ _ _ _ _ E1 E2) as E12. cbn [app] in E12.
  destruct (response_of e) as [| |code] eqn:Hresp; unfold wbind, wret, wraise.
  - do 3 eexists. split; [reflexivity|]. split; [exact E12|].
    split; [congruence|]. split; [apply fs_logged; auto|].
    split; [discriminate|congruence].
  - do 3 eexists. split; [reflexivity|]. split; [exact E12|].
    split; [congruence|]. split; [apply fs_handler_raised; auto|].
    split; [discriminate|congruence].
  - destruct (log_spec env (LogFetchResponse code) s2)
      as (s3 & -> & T3 & W3 & M3 & E3).
    pose proof (evolves_trans _ _ _ _ _ E12 E3) as E13. cbn [app] in E13.
    do 3 eexists. split; [reflexivity|]. split; [exact E13|].
    split; [congruence|]. split; [eapply fs_logged_response; eauto|].
    split; [discriminate|congruence].
Qed.

End FetchFacts.

(** ** The discipline of the poll loop *)

Lemma ticks_disciplined report_id h older :
  ticks report_id h -> disciplined older -> disciplined (h ++ older).
Proof.
  intros H Hold. induction H; [exact Hold|].
  cbn [app disciplined]. repeat split; eauto 10.
Qed.

Lemma ticks_no_timeout report_id h :
  ticks report_id h ->
  List.Forall (fun te => is_timeout_log (snd te) = false) h.
Proof. induction 1; repeat constructor; auto. Qed.

Lemma ticks_no_creation report_id h t e :
  ticks report_id h -> In (t, e) h -> is_creation e = false.
Proof.
  induction 1; cbn [In]; [tauto|].
  intros [[= <- <-]|[[= <- <-]|[[= <- <-]|[[= <- <-]|Hin]]]]; auto.
Qed.

Lemma ticks_status_slept report_id h t rid :
  ticks report_id h -> In (t, EvReportStatus rid) h ->
  exists t_sleep, In (t_sleep, EvSleep 30) h /\ t_sleep + 30 * second <= t.
Proof.
  induction 1; cbn [In]; [tauto|].
  intros [[=]|[[= <- <-]|[[=]|[[=]|Hin]]]].
  - exists t_sleep. auto.
  - destruct (IHticks Hin) as (ts & Hts & Hle). exists ts. auto 6.
Qed.

Lemma poll_shape_disciplined report_id r polled older :
  poll_shape report_id r polled -> disciplined older ->
  disciplined (polled ++ older).
Proof.
  destruct r as [[]|e]; cbn [poll_shape].
  - apply ticks_disciplined.
  - intros (t & tc & h & -> & Hh) Hold. cbn [app disciplined].
    repeat split; eauto using ticks_disciplined.
  - intros (tq & ts & tc & h & -> & L1 & L2 & Hh) Hold. cbn [app disciplined].
    repeat split; eauto 10 using ticks_disciplined.
Qed.

Lemma poll_shape_no_creation report_id r polled t e :
  poll_shape report_id r polled -> In (t, e) polled -> is_creation e = false.
Proof.
  destruct r as [[]|x]; cbn [poll_shape].
  - apply ticks_no_creation.
  - intros (t' & tc & h & -> & Hh). cbn [In].
    intros [[= <- <-]|[[= <- <-]|Hin]]; eauto using ticks_no_creation.
  - intros (tq & ts & tc & h & -> & L1 & L2 & Hh). cbn [In].
    intros [[= <- <-]|[[= <- <-]|[[= <- <-]|Hin]]]; eauto using ticks_no_creation.
Qed.

Lemma poll_shape_status_slept report_id r polled t rid :
  poll_shape report_id r polled -> In (t, EvReportStatus rid) polled ->
  exists t_sleep, In (t_sleep, EvSleep 30) polled /\ t_sleep + 30 * second <= t.
Proof.
  destruct r as [[]|x]; cbn [poll_shape].
  - apply ticks_status_slept.
  - intros (t' & tc & h & -> & Hh). cbn [In].
    intros [[=]|[[=]|Hin]].
    destruct (ticks_status_slept _ _ _ _ Hh Hin) as (ts & ? & ?). eauto 6.
  - intros (tq & ts & tc & h & -> & L1 & L2 & Hh). cbn [In].
    intros [[= <- <-]|[[=]|[[=]|Hin]]]; [eauto 6|].
    destruct (ticks_status_slept _ _ _ _ Hh Hin) as (ts' & ? & ?). eauto 8.
Qed.

(** In the events of a poll loop, only the newest can report the timeout,
    and it does when the loop returned on the timeout. *)
Lemma poll_shape_timeout report_id r polled :
  poll_shape report_id r polled ->
  match polled with
  | [] => True
  | te :: older =>
      List.Forall (fun te => is_timeout_log (snd te) = false) older
      /\ (is_timeout_log (snd te) = true -> r = Ok false)
  end
  /\ (r <> Ok false ->
      List.Forall (fun te => is_timeout_log (snd te) = false) polled).
Proof.
  destruct r as [[]|x]; cbn [poll_shape].
  - intros H. pose proof (ticks_no_timeout _ _ H) as Hall. split; [|auto].
    destruct H; [exact I|]. inversion Hall; subst. split; [assumption|].
    cbn. discriminate.
  - intros (t' & tc & h & -> & Hh). split; [|congruence].
    split; [|reflexivity]. constructor; [reflexivity|].
    eapply ticks_no_timeout; eauto.
  - intros (tq & ts & tc & h & -> & L1 & L2 & Hh).
    assert (Hall : List.Forall (fun te => is_timeout_log (snd te) = false)
                     ((tq, EvReportStatus report_id) :: (ts, EvSleep 30)
                        :: (tc, EvTime) :: h))
      by (repeat (constructor; [reflexivity|]); eapply ticks_no_timeout; eauto).
    split; [|auto]. inversion Hall; subst. split; [assumption|].
    cbn. discriminate.
Qed.

Section Discipline.
Context `{RT : PyRuntime}.
Variable config : Config.

Lemma creation_history_cases num_days pre :
  creation_history config num_days pre ->
  (exists t days, pre = [(t, EvCdrReportDays days)]
                  /\ num_days = Some days /\ days <> 0)
  \/ (exists t1 t2,
        pre = [(t2, EvCdrReportRange (START_DATE config) (END_DATE config));
               (t1, EvLog LogRunningReport)]
        /\ (num_days = None \/ num_days = Some 0)).
Proof.
  unfold creation_history. destruct num_days as [d|].
  - destruct (d =? 0) eqn:Hz.
    + apply Z.eqb_eq in Hz. subst. intros (t1 & t2 & ->). right. eauto 6.
    + apply Z.eqb_neq in Hz. intros (t & ->). left. eauto 6.
  - intros (t1 & t2 & ->). right. eauto 6.
Qed.

(** The shape of the events of [fetch_cdr_data], read as the discipline of
    its poll loop. *)
Lemma fetch_body_discipline num_days r h :
  fetch_body config num_days r h ->
  chronological h ->
  disciplined h
  /\ (forall t rid t0 e,
        In (t, EvReportStatus rid) h -> In (t0, e) h -> is_creation e = true ->
        t0 + 30 * second <= t)
  /\ match h with
     | [] => True
     | te :: older =>
         List.Forall (fun te => is_timeout_log (snd te) = false) older
         /\ (is_timeout_log (snd te) = true -> r = Ok None)
     end
  /\ (forall e, r = Raise e ->
        List.Forall (fun te => is_timeout_log (snd te) = false) h).
Proof.
  intros Hb Hc. destruct Hb as [e pre Hpre|days t Hd Hz
    |report_id pre t1 t2 t3 rp polled r post Hpre Hpoll Hpost].
  - destruct (creation_history_cases _ _ Hpre)
      as [(t & d & -> & _)|(t1 & t2 & -> & _)];
      (split; [cbn; auto|]);
      (split; [intros ? ? ? ? Hs; cbn [In] in Hs;
               repeat (destruct Hs as [[=]|Hs]); destruct Hs|]);
      (split; [cbn; split; [repeat constructor|discriminate]|]);
      intros; repeat constructor.
  - split; [cbn; auto|].
    split; [intros ? ? ? ? Hs; cbn [In] in Hs;
            repeat (destruct Hs as [[=]|Hs]); destruct Hs|].
    split; [cbn; split; [repeat constructor|discriminate]|].
    intros; discriminate.
  - set (started := [(t3, EvLog SpinnerFetching); (t2, EvTime);
                     (t1, EvLog (LogCreated report_id))]) in *.
    assert (Hpre_d : disciplined (started ++ pre)).
    { destruct (creation_history_cases _ _ Hpre)
        as [(t & d & -> & _)|(t1' & t2' & -> & _)]; cbn; auto 10. }
    assert (Hpre_q : List.Forall (fun te => is_timeout_log (snd te) = false)
                       (started ++ pre)).
    { destruct (creation_history_cases _ _ Hpre)
        as [(t & d & -> & _)|(t1' & t2' & -> & _)]; cbn;
        repeat (constructor; [reflexivity|]); constructor. }
    assert (Hpost_q : List.Forall (fun te => is_timeout_log (snd te) = false) post
                      /\ disciplined (post ++ polled ++ started ++ pre)
                      /\ (forall t rid, ~ In (t, EvReportStatus rid) post)
                      /\ (rp = Ok false -> post = [] /\ r = Ok None)).
    { pose proof (poll_shape_disciplined _ _ _ _ Hpoll Hpre_d) as Hd.
      destruct Hpost; cbn [app disciplined];
        (split; [no_timeout_logs|]);
        (split; [auto 10|]);
        (split; [cbn [In]; intros ? ? Hin;
                 repeat (destruct Hin as [[=]|Hin]); destruct Hin|]);
        first [discriminate | auto]. }
    destruct Hpost_q as (Hpq & Hdisc & Hpost_ns & Hto).
    pose proof (poll_shape_timeout _ _ _ Hpoll) as (Hhd & Hnt).
    split; [exact Hdisc|]. split; [|split].
    + intros t rid t0 e Hst Hcr Hcre.
      apply in_app_or in Hst as [Hst|Hst]; [exfalso; eapply Hpost_ns; eauto|].
      apply in_app_or in Hst as [Hst|Hst].
      2:{ exfalso. destruct (creation_history_cases _ _ Hpre)
            as [(t' & d & -> & _)|(t1' & t2' & -> & _)];
            cbn [app In started] in Hst;
            repeat (destruct Hst as [[=]|Hst]); destruct Hst. }
      destruct (poll_shape_status_slept _ _ _ _ _ Hpoll Hst) as (ts & Hts & Hle).
      assert (Hin_pre : In (t0, e) pre).
      { apply in_app_or in Hcr as [Hcr|Hcr].
        - exfalso. destruct Hpost; cbn [In] in Hcr;
            repeat (destruct Hcr as [[= <- <-]|Hcr]; [discriminate|]);
            destruct Hcr.
        - apply in_app_or in Hcr as [Hcr|Hcr].
          + rewrite (poll_shape_no_creation _ _ _ _ _ Hpoll Hcr) in Hcre.
            discriminate.
          + apply in_app_or in Hcr as [Hcr|Hcr]; [|exact Hcr].
            exfalso. cbn [In started] in Hcr.
            repeat (destruct Hcr as [[= <- <-]|Hcr]; [discriminate|]).
            destruct Hcr. }
      assert (Hord : fst (t0, e) <= fst (ts, EvSleep 30)).
      { apply (chronological_order ((post ++ polled) ++ started) pre).
        - rewrite <- !app_assoc. exact Hc.
        - apply in_or_app. left. apply in_or_app. right. exact Hts.
        - exact Hin_pre. }
      cbn [fst] in Hord. lia.
    + destruct post as [|p post].
      * cbn [app]. destruct polled as [|q polled].
        -- cbn [app] in *. inversion Hpre_q; subst. split; [assumption|].
           cbn. discriminate.
        -- cbn [app]. destruct Hhd as (Hold & Hhead). split.
           ++ apply List.Forall_app. auto.
           ++ intros Hq. apply Hto. auto.
      * cbn [app]. inversion Hpq; subst. split.
        -- apply List.Forall_app. split; [assumption|].
           apply List.Forall_app. split; [|assumption].
           apply Hnt. intros ->. destruct (Hto eq_refl) as [? _]. discriminate.
        -- intros Hp. congruence.
    + intros e ->. apply List.Forall_app. split; [assumption|].
      apply List.Forall_app. split; [|assumption].
      apply Hnt. intros ->. destruct (Hto eq_refl) as [_ ?]. discriminate.
Qed.

End Discipline.

Lemma chronological_tail te h : chronological (te :: h) -> chronological h.
Proof. cbn [chronological]. tauto. Qed.

Section FetchShape.
Context `{RT : PyRuntime}.
Variable config : Config.

Lemma fetch_shape_discipline num_days r new :
  fetch_shape config num_days r new ->
  chronological new ->
  disciplined new
  /\ (forall t rid t0 e,
        In (t, EvReportStatus rid) new -> In (t0, e) new ->
        is_creation e = true -> t0 + 30 * second <= t)
  /\ match new with
     | [] => True
     | te :: older =>
         List.Forall (fun te => is_timeout_log (snd te) = false) older
         /\ (is_timeout_log (snd te) = true -> r = Ok None)
     end.
Proof.
  intros Hs Hc.
  assert (Hwrap : forall e h (extra : history),
            fetch_body config num_days (Raise e) h ->
            chronological h ->
            List.Forall (fun te => exists m, snd te = EvLog m /\ m <> LogTimeout)
                        extra ->
            extra <> [] ->
            disciplined (extra ++ h)
            /\ (forall t rid t0 e0,
                  In (t, EvReportStatus rid) (extra ++ h) ->
                  In (t0, e0) (extra ++ h) ->
                  is_creation e0 = true -> t0 + 30 * second <= t)
            /\ match extra ++ h with
               | [] => True
               | te :: older =>
                   List.Forall (fun te => is_timeout_log (snd te) = false) older
                   /\ (is_timeout_log (snd te) = true ->
                       @Ok (option (list row * pyval)) None = Ok None)
               end).
  { intros e h extra Hb Hch Hex Hne.
    destruct (fetch_body_discipline config _ _ _ Hb Hch) as (D & I & _ & Q).
    specialize (Q e eq_refl).
    assert (Hq : List.Forall (fun te => is_timeout_log (snd te) = false) extra).
    { eapply List.Forall_impl; [|exact Hex]. cbv beta.
      intros [t ev] (m & Hm & Hn). cbn in *. subst ev.
      destruct m; try reflexivity. congruence. }
    assert (Hin : forall t ev, In (t, ev) extra -> exists m, ev = EvLog m).
    { intros t ev H. rewrite List.Forall_forall in Hex.
      destruct (Hex _ H) as (m & Hm & _). eauto. }
    split; [|split].
    - clear -D Hex. induction Hex as [|[t ev] l (m & Hm & Hn) _ IH]; [exact D|].
      cbn in Hm. subst ev. cbn [app disciplined]. split; [|exact IH].
      destruct m; try exact I. congruence.
    - intros t rid t0 e0 Hst Hcr Hcre.
      apply in_app_or in Hst as [Hst|Hst];
        [destruct (Hin _ _ Hst); discriminate|].
      apply in_app_or in Hcr as [Hcr|Hcr];
        [destruct (Hin _ _ Hcr) as [m ->]; discriminate|].
      eapply I; eauto.
    - destruct extra as [|x extra]; [congruence|]. cbn [app].
      inversion Hq; subst. split; [|reflexivity].
      apply List.Forall_app. auto. }
  destruct Hs as [|v h Hb|e h He Hb|e t h He Hr Hb|e t h He Hr Hb
                  |e code t t' h He Hr Hb].
  - cbn. repeat split; auto. intros ? ? ? ? [].
  - destruct (fetch_body_discipline config _ _ _ Hb Hc) as (D & I & T & _). auto.
  - destruct (fetch_body_discipline config _ _ _ Hb Hc) as (D & I & T & _). auto.
  - apply (Hwrap e h [(t, EvLog (LogFetchError e))] Hb);
      [eapply chronological_tail; eauto| |discriminate].
    repeat constructor. eexists. split; [reflexivity|discriminate].
  - destruct (Hwrap e h [(t, EvLog (LogFetchError e))] Hb) as (D & I & T);
      [eapply chronological_tail; eauto| |discriminate|].
    + repeat constructor. eexists. split; [reflexivity|discriminate].
    + cbn [app] in *. split; [exact D|]. split; [exact I|].
      destruct T as [T _]. split; [exact T|]. cbn. discriminate.
  - apply (Hwrap e h [(t', EvLog (LogFetchResponse code));
                      (t, EvLog (LogFetchError e))] Hb);
      [eapply chronological_tail, chronological_tail; eauto| |discriminate].
    repeat constructor; eexists; (split; [reflexivity|discriminate]).
Qed.

(** The newest event of the [try] block of [fetch_cdr_data] tells how it
    ended. *)
Lemma fetch_body_head num_days rb h :
  fetch_body config num_days rb h ->
  exists t ev older,
    h = (t, ev) :: older
    /\ match ev with
       | EvLog LogNoData | EvLog LogTimeout => rb = Ok None
       | EvGetReportLines report_id =>
           (exists e, rb = Raise e)
           \/ exists cdr_data lines,
                rb = Ok (Some (cdr_data, report_id))
                /\ lines <> [] /\ DictReader lines = Ok cdr_data
       | EvReportStatus _ | EvCdrReportRange _ _ => exists e, rb = Raise e
       | EvCdrReportDays _ => rb = Ok None \/ exists e, rb = Raise e
       | _ => False
       end.
Proof.
  intros Hb.
  destruct Hb as [e pre Hpre|days t Hd Hz
    |report_id pre t1 t2 t3 rp polled rb post Hpre Hpoll Hpost].
  - destruct (creation_history_cases config _ _ Hpre)
      as [(t & d & -> & _)|(t1 & t2 & -> & _)];
      do 3 eexists; (split; [reflexivity|]); cbn; eauto.
  - do 3 eexists. split; [reflexivity|]. cbn. auto.
  - destruct Hpost.
    + destruct Hpoll as (tq & ts & tc & h & -> & _).
      do 3 eexists. split; [reflexivity|]. cbn. eauto.
    + destruct Hpoll as (t & tc & h & -> & _).
      do 3 eexists. split; [reflexivity|]. reflexivity.
    + do 3 eexists. split; [reflexivity|]. cbn. eauto.
    + do 3 eexists. split; [reflexivity|]. reflexivity.
    + do 3 eexists. split; [reflexivity|]. cbn. right. eauto 6.
Qed.

(** The result of [fetch_cdr_data] by its newest event: without data, on
    the timeout, without a report identifier and on a logged error it is
    the same [None]; rows come in a pair. *)
Lemma fetch_shape_head num_days r new :
  fetch_shape config num_days r new ->
  (new = [] /\ r = Ok None)
  \/ exists t ev older,
       new = (t, ev) :: older
       /\ match ev with
          | EvLog LogNoData | EvLog LogTimeout
          | EvLog (LogFetchResponse _) => r = Ok None
          | EvLog (LogFetchError e) =>
              is_Exception e = true
              /\ match response_of e with
                 | ResponseIsNone => r = Raise AttributeError
                 | _ => r = Ok None
                 end
          | EvGetReportLines report_id =>
              (exists e, r = Raise e /\ is_Exception e = false)
              \/ exists cdr_data lines,
                   r = Ok (Some (cdr_data, report_id))
                   /\ lines <> [] /\ DictReader lines = Ok cdr_data
          | EvReportStatus _ | EvCdrReportRange _ _ =>
              exists e, r = Raise e /\ is_Exception e = false
          | EvCdrReportDays _ =>
              r = Ok None \/ exists e, r = Raise e /\ is_Exception e = false
          | _ => False
          end.
Proof.
  intros Hs.
  destruct Hs as [|v h Hb|e h He Hb|e t h He Hr Hb|e t h He Hr Hb
                  |e code t t' h He Hr Hb].
  - left. auto.
  - right. destruct (fetch_body_head _ _ _ Hb) as (t & ev & older & -> & Hev).
    do 3 eexists. split; [reflexivity|].
    destruct ev as [[]| | | | | | | | | |]; try exact Hev; try contradiction;
      break_hyps; try discriminate;
      first [solve [eauto] | left; solve [eauto] | right; solve [eauto 6]].
  - right. destruct (fetch_body_head _ _ _ Hb) as (t & ev & older & -> & Hev).
    do 3 eexists. split; [reflexivity|].
    destruct ev as [[]| | | | | | | | | |]; try exact Hev; try contradiction;
      break_hyps; try discriminate;
      first [solve [eauto] | left; solve [eauto] | right; solve [eauto 6]].
  - right. do 3 eexists. split; [reflexivity|]. cbn. rewrite Hr. auto.
  - right. do 3 eexists. split; [reflexivity|]. cbn. rewrite Hr. auto.
  - right. do 3 eexists. split; [reflexivity|]. reflexivity.
Qed.

(** The oldest event of [fetch_cdr_data] is its creation request. *)
Lemma fetch_shape_first num_days r new :
  fetch_shape config num_days r new ->
  new <> [] ->
  exists newer pre, new = newer ++ pre /\ creation_history config num_days pre.
Proof.
  assert (Hbody : forall rb h,
            fetch_body config num_days rb h ->
            exists newer pre,
              h = newer ++ pre /\ creation_history config num_days pre).
  { intros rb h Hb.
    destruct Hb as [e pre Hpre|days t Hd Hz
      |report_id pre t1 t2 t3 rp polled rb post Hpre Hpoll Hpost].
    - exists [], pre. auto.
    - exists [], [(t, EvCdrReportDays days)]. split; [reflexivity|].
      unfold creation_history. rewrite Hd.
      destruct (days =? 0) eqn:E; [apply Z.eqb_eq in E; contradiction|eauto].
    - exists (post ++ polled ++ [(t3, EvLog SpinnerFetching); (t2, EvTime);
                                 (t1, EvLog (LogCreated report_id))]), pre.
      rewrite <- !app_assoc. auto. }
  intros Hs Hne.
  destruct Hs as [|v h Hb|e h He Hb|e t h He Hr Hb|e t h He Hr Hb
                  |e code t t' h He Hr Hb]; [contradiction|eauto|eauto| | |];
    destruct (Hbody _ _ Hb) as (newer & pre & -> & Hpre).
  - exists ((t, EvLog (LogFetchError e)) :: newer), pre. auto.
  - exists ((t, EvLog (LogFetchError e)) :: newer), pre. auto.
  - exists ((t', EvLog (LogFetchResponse code))
              :: (t, EvLog (LogFetchError e)) :: newer), pre. auto.
Qed.

End FetchShape.

(** ** The orchestration comes to an end *)

Lemma terminates_wret {A} (a : A) : terminates (wret a).
Proof. intros s. unfold wret. eauto. Qed.

Lemma terminates_wraise {A} e : terminates (@wraise A e).
Proof. intros s. unfold wraise. eauto. Qed.

Lemma terminates_wbind {A B} (c : W A) (k : A -> W B) :
  terminates c -> (forall a, terminates (k a)) -> terminates (wbind c k).
Proof.
  intros Hc Hk s. unfold wbind.
  destruct (Hc s) as ([a|e] & s' & ->); [apply Hk|eauto].
Qed.

Lemma terminates_wtry {A} (c : W A) catches handler :
  terminates c -> (forall e, terminates (handler e)) ->
  terminates (wtry c catches handler).
Proof.
  intros Hc Hh s. unfold wtry.
  destruct (Hc s) as ([a|e] & s' & ->); [eauto|].
  destruct (catches e); [apply Hh|eauto].
Qed.

Lemma terminates_wgets {A} (f : state -> A) : terminates (wgets f).
Proof. intros s. unfold wgets. eauto. Qed.

Lemma terminates_on_metrics {A} (c : M metrics A) : terminates (on_metrics c).
Proof. intros s. unfold on_metrics. destruct (c (self_metrics s)). eauto. Qed.

(** What the boundary [try ... except Exception] lets through. *)
Lemma wtry_Exception_boundary {A} (c : W A) handler s r s' :
  wtry c is_Exception handler s = Some (r, s') ->
  (forall e s1 r1 s2, handler e s1 = Some (r1, s2) -> exists a, r1 = Ok a) ->
  (exists a, r = Ok a) \/ exists e, r = Raise e /\ is_Exception e = false.
Proof.
  unfold wtry. intros H Hh.
  destruct (c s) as [[[a|e] s1]|]; [| |discriminate].
  - injection H as <- <-. eauto.
  - destruct (is_Exception e) eqn:He.
    + left. eapply Hh. exact H.
    + injection H as <- <-. eauto.
Qed.

Section RunFacts.
Context `{RT : PyRuntime}.
Variable env : Env.
Variable config : Config.

Lemma terminates_perform {A} ev duration (reply : history -> res A) :
  terminates (perform env ev duration reply).
Proof. intros s. unfold perform. eauto. Qed.

Lemma terminates_log msg : terminates (log env msg).
Proof. apply terminates_perform. Qed.

Lemma terminates_delete_report report_id :
  terminates (delete_report env report_id).
Proof.
  unfold delete_report.
  apply terminates_wbind; [apply terminates_perform|]. intros code.
  apply terminates_wbind; [apply terminates_log|]. intros _.
  destruct (code =? 204);
    (apply terminates_wbind; [apply terminates_log|intros; apply terminates_wret]).
Qed.

Lemma terminates_write_to_csv data : terminates (write_to_csv env data).
Proof.
  unfold write_to_csv. apply terminates_wtry.
  - destruct data; [apply terminates_wraise|].
    apply terminates_wbind; [apply terminates_perform|intros; apply terminates_log].
  - intros e. destruct (is_ValueError e); apply terminates_log.
Qed.

Lemma terminates_process_all_cdr_records cdr_data :
  terminates (process_all_cdr_records env cdr_data).
Proof.
  unfold process_all_cdr_records. apply terminates_wtry.
  - apply terminates_on_metrics.
  - intros; apply terminates_log.
Qed.

Lemma terminates_get_all_reports : terminates (get_all_reports env).
Proof.
  unfold get_all_reports. apply terminates_wtry.
  - apply terminates_wbind; [apply terminates_wgets|]. intros [].
    + apply terminates_perform.
    + apply terminates_wraise.
  - intros e. apply terminates_wbind; [apply terminates_log|].
    intros; apply terminates_wret.
Qed.

Lemma terminates_len_reports l : terminates (len_reports l).
Proof. destruct l; [apply terminates_wret|apply terminates_wraise]. Qed.

Lemma terminates_delete_each l : terminates (delete_each env l).
Proof.
  induction l as [|report rest IH]; cbn [delete_each]; [apply terminates_wret|].
  destruct (report !! str "Id"); [|apply terminates_wraise].
  apply terminates_wbind; [apply terminates_delete_report|auto].
Qed.

Lemma terminates_handle_existing_reports :
  terminates (handle_existing_reports env).
Proof.
  unfold handle_existing_reports.
  apply terminates_wbind; [apply terminates_get_all_reports|]. intros reports.
  apply terminates_wbind; [apply terminates_len_reports|]. intros n.
  apply terminates_wbind; [apply terminates_log|]. intros _.
  destruct (n =? 50); [|apply terminates_wret].
  apply terminates_wbind; [apply terminates_log|]. intros _.
  apply terminates_wbind; [apply terminates_log|]. intros _.
  apply terminates_wbind; [apply terminates_perform|]. intros answer.
  apply terminates_wbind.
  - destruct (bool_decide _).
    + apply terminates_wbind; [apply terminates_perform|]. intros answer_id.
      apply terminates_wbind; [apply terminates_delete_report|].
      intros; apply terminates_wret.
    + destruct (bool_decide _); [apply terminates_delete_each|].
      destruct (bool_decide _); [apply terminates_wraise|apply terminates_wret].
  - intros _.
    apply terminates_wbind; [apply terminates_get_all_reports|]. intros reports'.
    apply terminates_wbind; [apply terminates_len_reports|].
    intros; apply terminates_wret.
Qed.

Lemma terminates_fetch_cdr_data fuel num_days :
  (62 <= fuel)%nat -> terminates (fetch_cdr_data env config fuel num_days).
Proof.
  intros Hfuel s.
  destruct (fetch_cdr_data_spec env config fuel num_days s Hfuel)
    as (r & s' & new & H & _). eauto.
Qed.

Lemma terminates_fetch_cdr_data_based_on_config fuel :
  (62 <= fuel)%nat ->
  terminates (fetch_cdr_data_based_on_config env config fuel).
Proof.
  intros Hfuel. unfold fetch_cdr_data_based_on_config.
  assert (Hno : terminates
            (wbind (log env LogNoSchedule)
                   (fun _ => wret (@None (list row * pyval)))))
    by (apply terminates_wbind; [apply terminates_log|intros; apply terminates_wret]).
  destruct (NUMBER_OF_DAYS_CDR_REPORT config) as [days|].
  - destruct (negb (days =? 0)); [apply terminates_fetch_cdr_data; auto|].
    destruct (truthy_opt _ && truthy_opt _);
      [apply terminates_fetch_cdr_data; auto|exact Hno].
  - destruct (truthy_opt _ && truthy_opt _);
      [apply terminates_fetch_cdr_data; auto|exact Hno].
Qed.

Lemma terminates_run_report fuel :
  (62 <= fuel)%nat -> terminates (run_report env config fuel).
Proof.
  intros Hfuel. unfold run_report. apply terminates_wtry.
  - apply terminates_wbind; [apply terminates_handle_existing_reports|].
    intros proceed. destruct (negb proceed); [apply terminates_wret|].
    apply terminates_wbind;
      [apply terminates_fetch_cdr_data_based_on_config; auto|].
    intros [[cdr_data report_id]|]; [|apply terminates_wraise].
    destruct cdr_data; [apply terminates_log|].
    apply terminates_wbind; [apply terminates_write_to_csv|]. intros _.
    apply terminates_wbind; [apply terminates_process_all_cdr_records|]. intros _.
    apply terminates_wbind; [apply terminates_delete_report|]. intros _.
    apply terminates_log.
  - intros e. apply terminates_log.
Qed.

End RunFacts.

(** ** The duration of a call *)

Lemma digit_not_decimal_unreadable c :
  is_digit_char c = true -> is_decimal_char c = false ->
  to_ascii_digit_or_space c = None.
Proof.
  unfold is_digit_char, is_decimal_char, Py_UNICODE_TODIGIT, to_ascii_digit_or_space.
  destruct (Py_UNICODE_TODECIMAL c) eqn:Hdec; [discriminate|]. intros Hdig _.
  destruct (List.find _ digit_runs) as [r|] eqn:Hf; [|discriminate].
  apply List.find_some in Hf as [Hin Hr]. pose proof Hr as Hr'.
  apply andb_prop in Hr as [Hlo Hhi]. apply N.leb_le in Hlo.
  assert (Hall : Forall (fun r => (178 <= fst (fst r))%N) digit_runs).
  { unfold digit_runs. repeat (constructor; [cbn; lia|]). constructor. }
  rewrite List.Forall_forall in Hall. pose proof (Hall _ Hin) as Hbig.
  replace (c <? 127)%N with false by (symmetry; apply N.ltb_ge; lia).
  destruct (Py_UNICODE_ISSPACE c) eqn:Hs; [|reflexivity].
  exfalso. unfold Py_UNICODE_ISSPACE in Hs.
  apply existsb_exists in Hs as [x [Hx Heq]]. apply N.eqb_eq in Heq. subst x.
  assert (Hsp2 : Forall (fun x => Py_UNICODE_TODIGIT x = None) unicode_spaces).
  { unfold unicode_spaces. repeat (constructor; [vm_compute; reflexivity|]).
    constructor. }
  rewrite List.Forall_forall in Hsp2. specialize (Hsp2 _ Hx).
  unfold Py_UNICODE_TODIGIT in Hsp2. rewrite Hdec in Hsp2.
  destruct (List.find _ digit_runs) eqn:Hf2; [discriminate|].
  eapply List.find_none in Hf2; [|exact Hin]. cbv beta in Hf2. congruence.
Qed.

Section DurationFacts.
Context `{RT : PyRuntime}.

(** A duration that is absent, or is not made of digits, counts for 0. *)
Lemma duration_of_absent item :
  item !! str "Duration" = None -> duration_of item = Ok 0.
Proof. intros H. unfold duration_of, dict_get. rewrite H. reflexivity. Qed.

Lemma duration_of_not_digits item s :
  item !! str "Duration" = Some (PStr s) -> isdigit s = false ->
  duration_of item = Ok 0.
Proof. intros H Hd. unfold duration_of, dict_get. rewrite H, Hd. reflexivity. Qed.

(** A duration made of decimal characters counts for the number it
    denotes, which is not negative. *)
Lemma duration_of_decimal item s :
  item !! str "Duration" = Some (PStr s) -> isdecimal s = true ->
  (int_max_str_digits = 0%N \/ (N.of_nat (length s) <= int_max_str_digits)%N) ->
  duration_of item = Ok (decimal_value s) /\ 0 <= decimal_value s.
Proof.
  intros H Hd Hlim. split; [|apply decimal_value_nonneg].
  unfold duration_of, dict_get.
  rewrite H, (isdecimal_isdigit _ Hd). apply py_int_decimal; assumption.
Qed.

(** A duration made of digits of which one is not decimal makes the
    conversion raise. *)
Lemma duration_of_digit_not_decimal item s :
  item !! str "Duration" = Some (PStr s) ->
  isdigit s = true -> isdecimal s = false ->
  duration_of item = Raise ValueError.
Proof.
  intros H Hd Hn. unfold duration_of, dict_get. rewrite H, Hd.
  apply py_int_unreadable.
  unfold isdigit, isdecimal in *. destruct s as [|c s]; [discriminate|].
  revert Hd Hn. generalize (c :: s). clear. intros l.
  induction l as [|a l IH]; cbn [forallb]; [discriminate|].
  intros Hd Hn. apply andb_prop in Hd as [Ha Hl].
  destruct (is_decimal_char a) eqn:Hdec.
  - destruct (IH Hl Hn) as (x & Hx & Hnone). exists x. split; [right|]; auto.
  - exists a. split; [left; reflexivity|].
    apply digit_not_decimal_unreadable; assumption.
Qed.

Lemma duration_of_superscript : duration_of row_superscript = Raise ValueError.
Proof.
  apply (duration_of_digit_not_decimal _ [0xb2%N]); vm_compute; reflexivity.
Qed.

Lemma process_call_record_superscript (m : metrics) :
  process_call_record row_superscript m = (Raise ValueError, m).
Proof.
  rewrite process_call_record_unfold, duration_of_superscript. reflexivity.
Qed.

(** C3, at the failing input: the duration "²" (U+00B2) passes [isdigit],
    [int] raises [ValueError] on it, and the row is left uncounted. *)
Theorem superscript_duration_raises (m : metrics) :
  isdigit [0xb2%N] = true
  /\ duration_of row_superscript = Raise ValueError
  /\ process_call_record row_superscript m = (Raise ValueError, m).
Proof.
  split; [reflexivity|]. split; [apply duration_of_superscript|].
  apply process_call_record_superscript.
Qed.

(** A row that reaches the classification of lines 158 to 164 is
    classified by the first test that holds, answered before voicemail, and
    the connected and voicemail calls together never exceed the calls
    counted. *)
Lemma classification_first_match_wins :
  (forall item m d a reason,
      duration_of item = Ok d ->
      py_lower (dict_get item "Answered" (PStr [])) = Ok a ->
      py_lower (dict_get item "Call outcome reason" (PStr [])) = Ok reason ->
      let m' := snd (process_call_record item m) in
      (a = str "true" ->
       connected_calls m' = connected_calls m + 1
       /\ voicemail_calls m' = voicemail_calls m)
      /\ (a <> str "true" -> reason = str "voicemail" ->
          connected_calls m' = connected_calls m
          /\ voicemail_calls m' = voicemail_calls m + 1)
      /\ (a <> str "true" -> reason <> str "voicemail" ->
          connected_calls m' = connected_calls m
          /\ voicemail_calls m' = voicemail_calls m))
  /\ (forall cdr_data m,
        connected_calls m + voicemail_calls m <= total_calls m ->
        let m' := snd (process_rows cdr_data m) in
        connected_calls m' + voicemail_calls m' <= total_calls m')
  /\ connected_calls initial_metrics + voicemail_calls initial_metrics
     <= total_calls initial_metrics.
Proof.
  split; [|split; [apply process_rows_bounded|cbn; lia]].
  intros item m d a reason Hd Ha Hr. cbv zeta.
  rewrite process_call_record_unfold, Hd. unfold lower_equals. rewrite Ha, Hr.
  cbv zeta.
  match goal with |- context [after_classification item ?x] =>
    pose proof (after_classification_counters item x) as (_ & Hc & Hv & _)
  end.
  rewrite Hc, Hv.
  destruct (bool_decide_reflect (a = str "true")) as [Ea|Ea];
    [|destruct (bool_decide_reflect (reason = str "voicemail")) as [Er|Er]];
    cbn; repeat split; intros; try contradiction; try lia.
Qed.

End DurationFacts.

(** The lemma at a row with an answered call that also names voicemail. *)
Lemma classification_first_match_wins_witness :
  let m' := snd (process_call_record (RT := reference_runtime)
                   row_answered_voicemail initial_metrics) in
  (str "true" = str "true" ->
   connected_calls m' = connected_calls initial_metrics + 1
   /\ voicemail_calls m' = voicemail_calls initial_metrics)
  /\ (connected_calls m' + voicemail_calls m' <= total_calls m').
Proof.
  destruct (classification_first_match_wins (RT := reference_runtime))
    as (Hrow & Hrows & Hinit).
  split.
  - apply (Hrow row_answered_voicemail initial_metrics 30 (str "true")
             (str "voicemail")); vm_compute; reflexivity.
  - apply (Hrows [row_answered_voicemail] initial_metrics). exact Hinit.
Defined.

(** ** Rows the aggregation loses *)

Section Batches.
Context `{RT : PyRuntime}.
Variable env : Env.

(** [process_all_cdr_records] runs the loop over the rows on
    [self.metrics]; a [TypeError] ends the loop and is logged, any other
    exception goes on to the caller. *)
Lemma process_all_cdr_records_spec cdr_data s :
  exists r s',
    process_all_cdr_records env cdr_data s = Some (r, s')
    /\ self_metrics s' = snd (process_rows cdr_data (self_metrics s))
    /\ match fst (process_rows cdr_data (self_metrics s)) with
       | Ok _ => r = Ok tt /\ trace s' = trace s
       | Raise e =>
           if is_TypeError e
           then r = Ok tt
                /\ trace s' = (clock s, EvLog LogProcessingError) :: trace s
           else r = Raise e /\ trace s' = trace s
       end.
Proof.
  unfold process_all_cdr_records, wtry, on_metrics.
  destruct (process_rows cdr_data (self_metrics s)) as [[[]|e] m]; cbn [fst snd].
  - do 2 eexists. repeat split; reflexivity.
  - destruct (is_TypeError e).
    + unfold log, perform. do 2 eexists. repeat split; reflexivity.
    + do 2 eexists. repeat split; reflexivity.
Qed.

(** When no row raises, every row is counted once: the totals agree with
    the number of rows, with the buckets and with the outcomes. *)
Lemma process_all_cdr_records_ok cdr_data s :
  fst (process_rows cdr_data (self_metrics s)) = Ok tt ->
  exists s',
    process_all_cdr_records env cdr_data s = Some (Ok tt, s')
    /\ total_calls (self_metrics s')
       = total_calls (self_metrics s) + Z.of_nat (length cdr_data)
    /\ (consistent (self_metrics s) -> consistent (self_metrics s'))
    /\ (outcomes_agree (self_metrics s) -> outcomes_agree (self_metrics s')).
Proof.
  intros Hok.
  destruct (process_all_cdr_records_spec cdr_data s) as (r & s' & H & Hm & Hr).
  rewrite Hok in Hr. destruct Hr as [-> _]. exists s'. split; [exact H|].
  rewrite Hm. apply process_rows_ok.
  destruct (process_rows cdr_data (self_metrics s)) as [r m].
  cbn in *. congruence.
Qed.

End Batches.

Lemma mixed_zones_rows_run (rest : list row) :
  process_rows (RT := reference_runtime) (row_mixed_zones :: rest)
    initial_metrics
  = (Raise TypeError, add_total_calls 1 (add_total_duration 0 initial_metrics)).
Proof.
  cbn [process_rows]. unfold bind.
  replace (process_call_record (RT := reference_runtime) row_mixed_zones
             initial_metrics)
    with (@Raise unit TypeError,
          add_total_calls 1 (add_total_duration 0 initial_metrics))
    by (vm_compute; reflexivity).
  reflexivity.
Qed.

Lemma mixed_zones_batch (env : Env) (rest : list row) :
  exists s',
    process_all_cdr_records (RT := reference_runtime) env
      (row_mixed_zones :: rest) fresh_state = Some (Ok tt, s')
    /\ self_metrics s'
       = add_total_calls 1 (add_total_duration 0 initial_metrics).
Proof.
  destruct (process_all_cdr_records_spec (RT := reference_runtime) env
              (row_mixed_zones :: rest) fresh_state) as (r & s' & H & Hm & Hr).
  cbn [self_metrics fresh_state] in Hm, Hr.
  rewrite mixed_zones_rows_run in Hm, Hr. cbn in Hm, Hr.
  destruct Hr as [-> _]. eauto.
Qed.

(** C1, at two failing inputs.  A row whose timestamps mix an aware and a
    naive time raises [TypeError] after it was counted: the loop ends
    there, the batch returns and the rows behind it are never counted.  A
    row whose duration is "²" raises [ValueError] before it is counted. *)
Theorem total_calls_falls_short_of_rows :
  (forall env, exists s',
      process_all_cdr_records (RT := reference_runtime) env
        [row_mixed_zones; row_plain] fresh_state = Some (Ok tt, s')
      /\ total_calls (self_metrics s') = 1
      /\ Z.of_nat (length [row_mixed_zones; row_plain]) = 2)
  /\ (forall (RT : PyRuntime) env, exists s',
        process_all_cdr_records env [row_superscript] fresh_state
        = Some (Raise ValueError, s')
        /\ total_calls (self_metrics s') = 0
        /\ Z.of_nat (length [row_superscript]) = 1).
Proof.
  split.
  - intros env. destruct (mixed_zones_batch env [row_plain]) as (s' & H & Hm).
    exists s'. rewrite Hm. auto.
  - intros RT env.
    destruct (process_all_cdr_records_spec env [row_superscript] fresh_state)
      as (r & s' & H & Hm & Hr).
    cbn [process_rows self_metrics fresh_state] in Hm, Hr. unfold bind in Hm, Hr.
    rewrite process_call_record_superscript in Hm, Hr. cbn in Hm, Hr. destruct Hr as [-> _].
    exists s'. rewrite Hm. auto.
Qed.

(** C4, at the failing input: the row with mixed timestamps is in the
    global count of calls and in no bucket, of a department or of a user. *)
Theorem mixed_zones_row_in_no_bucket (env : Env) :
  exists s',
    process_all_cdr_records (RT := reference_runtime) env [row_mixed_zones]
      fresh_state = Some (Ok tt, s')
    /\ total_calls (self_metrics s') = 1
    /\ sum_buckets bk_total_calls (department_calls (self_metrics s')) = 0
    /\ sum_buckets bk_total_calls (user_calls (self_metrics s')) = 0.
Proof.
  destruct (mixed_zones_batch env []) as (s' & H & Hm).
  exists s'. rewrite Hm. cbn. rewrite sum_buckets_empty. auto.
Qed.

(** C9, at the failing input: the row with mixed timestamps is counted as
    a call and under no outcome. *)
Theorem mixed_zones_row_without_outcome (env : Env) :
  exists s',
    process_all_cdr_records (RT := reference_runtime) env [row_mixed_zones]
      fresh_state = Some (Ok tt, s')
    /\ total_calls (self_metrics s') = 1
    /\ sum_counts (call_outcomes (self_metrics s')) = 0.
Proof.
  destruct (mixed_zones_batch env []) as (s' & H & Hm).
  exists s'. rewrite Hm. cbn. rewrite sum_counts_empty. auto.
Qed.

(** ** Answered calls the classification never sees *)

Lemma process_call_record_answered_superscript `{RT : PyRuntime} (m : metrics) :
  process_call_record row_answered_superscript m = (Raise ValueError, m).
Proof.
  rewrite process_call_record_unfold.
  rewrite (duration_of_digit_not_decimal row_answered_superscript [0xb2%N]);
    [reflexivity| |reflexivity|reflexivity].
  vm_compute. reflexivity.
Qed.

Lemma process_call_record_answered_short (m : metrics) :
  process_call_record (RT := reference_runtime) row_answered_short m
  = (Raise AttributeError, add_total_calls 1 (add_total_duration 5 m)).
Proof.
  rewrite process_call_record_unfold.
  replace (duration_of (RT := reference_runtime) row_answered_short)
    with (@Ok Z 5) by (vm_compute; reflexivity).
  cbv zeta.
  replace (lower_equals (dict_get row_answered_short "Answered" (PStr []))
             "true") with (Ok true) by (vm_compute; reflexivity).
  replace (py_lower (dict_get row_answered_short "Call outcome reason"
                       (PStr []))) with (@Raise pystr AttributeError)
    by (vm_compute; reflexivity).
  reflexivity.
Qed.

(** C2, at two failing inputs.  Both rows are answered calls: [Answered]
    is 'true'.  The duration "²" makes line 154 raise [ValueError], and the
    [None] that [csv.DictReader] gives for the missing last field of a
    short line makes [.lower()] raise [AttributeError] on line 160; either
    exception leaves the batch before line 162 is reached, and the
    answered call is not counted as connected. *)
Theorem answered_call_is_not_connected :
  (forall (RT : PyRuntime) env, exists s',
      lower_equals (dict_get row_answered_superscript "Answered" (PStr []))
        "true" = Ok true
      /\ process_all_cdr_records env [row_answered_superscript] fresh_state
         = Some (Raise ValueError, s')
      /\ connected_calls (self_metrics s') = 0
      /\ total_calls (self_metrics s') = 0)
  /\ (forall env, exists s',
        DictReader (PyRuntime := reference_runtime) report_answered_short
        = Ok [row_answered_short]
        /\ lower_equals (dict_get row_answered_short "Answered" (PStr []))
             "true" = Ok true
        /\ process_all_cdr_records (RT := reference_runtime) env
             [row_answered_short] fresh_state
           = Some (Raise AttributeError, s')
        /\ connected_calls (self_metrics s') = 0
        /\ total_calls (self_metrics s') = 1).
Proof.
  split.
  - intros RT env.
    destruct (process_all_cdr_records_spec env [row_answered_superscript]
                fresh_state) as (r & s' & H & Hm & Hr).
    cbn [process_rows self_metrics fresh_state] in Hm, Hr.
    unfold bind in Hm, Hr.
    rewrite process_call_record_answered_superscript in Hm, Hr.
    cbn in Hm, Hr. destruct Hr as [-> _].
    exists s'. rewrite Hm. split; [vm_compute; reflexivity|auto].
  - intros env.
    destruct (process_all_cdr_records_spec (RT := reference_runtime) env
                [row_answered_short] fresh_state) as (r & s' & H & Hm & Hr).
    cbn [process_rows self_metrics fresh_state] in Hm, Hr.
    unfold bind in Hm, Hr.
    rewrite process_call_record_answered_short in Hm, Hr.
    cbn in Hm, Hr. destruct Hr as [-> _].
    exists s'. rewrite Hm.
    split; [vm_compute; reflexivity|].
    split; [vm_compute; reflexivity|]. auto.
Qed.

(** ** The poll loop and the result of [fetch_cdr_data] *)

Section FetchClaims.
Context `{RT : PyRuntime}.
Variable env : Env.
Variable config : Config.

(** C10: in every run of [fetch_cdr_data] each status query comes right
    after a sleep of 30 seconds, itself right after the reading of the clock
    for the timeout; at least 30 seconds lie between the creation request
    and any status query; and once the timeout is reported nothing follows:
    [fetch_cdr_data] returns [None]. *)
Theorem poll_sleeps_before_each_status_query fuel num_days s :
  (62 <= fuel)%nat ->
  exists r s' new,
    fetch_cdr_data env config fuel num_days s = Some (r, s')
    /\ trace s' = new ++ trace s
    /\ disciplined new
    /\ (forall t report_id t0 e,
          In (t, EvReportStatus report_id) new -> In (t0, e) new ->
          is_creation e = true -> t0 + 30 * second <= t)
    /\ match new with
       | [] => True
       | te :: older =>
           List.Forall (fun te => is_timeout_log (snd te) = false) older
           /\ (is_timeout_log (snd te) = true -> r = Ok None)
       end.
Proof.
  intros Hfuel.
  destruct (fetch_cdr_data_spec env config fuel num_days s Hfuel)
    as (r & s' & new & Hrun & (Ht & _ & _ & Hc & _) & _ & Hshape & _).
  exists r, s', new. split; [exact Hrun|]. split; [exact Ht|].
  apply (fetch_shape_discipline config num_days r new Hshape Hc).
Qed.

(** The validator of the configuration lets through no day count but 0
    and 1 to 31. *)
Lemma validate_number_of_days_range v n :
  validate_number_of_days_for_cdr_report v = Ok (Some n) ->
  n = 0 \/ 1 <= n <= 31.
Proof.
  assert (Hchecked : forall c : res Z,
            match c with
            | Ok k => if (1 <=? k) && (k <=? 31) then Ok (Some k)
                      else Raise ValueError
            | Raise e => Raise e
            end = Ok (Some n) -> 1 <= n <= 31).
  { intros [k|e]; [|discriminate].
    destruct ((1 <=? k) && (k <=? 31)) eqn:E; [|discriminate].
    intros [= <-]. apply andb_prop in E as [E1 E2]. lia. }
  unfold validate_number_of_days_for_cdr_report.
  destruct v as [[|c s']|[|p|p]|]; try discriminate.
  - intros H. right. exact (Hchecked _ H).
  - intros [= <-]. left. reflexivity.
  - intros H. right. exact (Hchecked (Ok (Z.pos p)) H).
Qed.

(** C8, as the code has it: [fetch_cdr_data] checks no range.  With a
    valid token its first act is the creation request, carrying the day
    count, or the dates of the configuration, as they were given; the range
    1 to 31 is the business of the validator of the configuration. *)
Theorem creation_request_is_not_validated fuel num_days s :
  (62 <= fuel)%nat ->
  webex s = true ->
  (exists r s' newer pre,
      fetch_cdr_data env config fuel num_days s = Some (r, s')
      /\ trace s' = newer ++ pre ++ trace s
      /\ creation_history config num_days pre)
  /\ (forall v n,
        validate_number_of_days_for_cdr_report v = Ok (Some n) ->
        n = 0 \/ 1 <= n <= 31).
Proof.
  intros Hfuel Hw. split; [|apply validate_number_of_days_range].
  destruct (fetch_cdr_data_spec env config fuel num_days s Hfuel)
    as (r & s' & new & Hrun & (Ht & _) & _ & Hshape & Hne & _).
  destruct (fetch_shape_first config num_days r new Hshape (Hne Hw))
    as (newer & pre & -> & Hpre).
  exists r, s', newer, pre. rewrite <- app_assoc in Ht. auto.
Qed.

End FetchClaims.

Lemma poll_sleeps_before_each_status_query_witness :
  exists r s' new,
    fetch_cdr_data (RT := reference_runtime) stalled_env (config_days 7) 62
      (Some 7) fresh_state = Some (r, s')
    /\ trace s' = new ++ trace fresh_state
    /\ disciplined new
    /\ (forall t report_id t0 e,
          In (t, EvReportStatus report_id) new -> In (t0, e) new ->
          is_creation e = true -> t0 + 30 * second <= t)
    /\ match new with
       | [] => True
       | te :: older =>
           List.Forall (fun te => is_timeout_log (snd te) = false) older
           /\ (is_timeout_log (snd te) = true -> r = Ok None)
       end.
Proof.
  apply (poll_sleeps_before_each_status_query (RT := reference_runtime)
           stalled_env (config_days 7) 62%nat (Some 7) fresh_state).
  lia.
Defined.


Lemma creation_request_is_not_validated_witness :
  (exists r s' newer pre,
      fetch_cdr_data (RT := reference_runtime) (scripted_env 0 "" 1 [])
        (config_days 45) 62 (Some 45) fresh_state = Some (r, s')
      /\ trace s' = newer ++ pre ++ trace fresh_state
      /\ creation_history (config_days 45) (Some 45) pre)
  /\ (forall v n,
        validate_number_of_days_for_cdr_report (RT := reference_runtime) v
        = Ok (Some n) ->
        n = 0 \/ 1 <= n <= 31).
Proof.
  apply (creation_request_is_not_validated (RT := reference_runtime)
           (scripted_env 0 "" 1 []) (config_days 45) 62%nat (Some 45)
           fresh_state); [lia|reflexivity].
Defined.

(** C8 as stated fails: given 45 days, [fetch_cdr_data] sends the creation
    request for 45 days, the value the validator of the configuration
    refuses; given dates in the wrong order it sends them too. *)
Lemma out_of_range_days_are_requested :
  hd_error (events (fetch_cdr_data (RT := reference_runtime)
                      (scripted_env 0 "" 1 []) (config_days 45) 62 (Some 45)
                      fresh_state)) = Some (EvCdrReportDays 45)
  /\ validate_number_of_days_for_cdr_report (RT := reference_runtime)
       (RawInt 45) = Raise ValueError
  /\ In (EvCdrReportRange (Some (str "2024-03-01")) (Some (str "2024-01-01")))
        (events (fetch_cdr_data (RT := reference_runtime)
                   (scripted_env 0 "" 1 [])
                   {| NUMBER_OF_DAYS_CDR_REPORT := None;
                      START_DATE := Some (str "2024-03-01");
                      END_DATE := Some (str "2024-01-01") |}
                   62 None fresh_state)).
Proof.
  split; [vm_compute; reflexivity|]. split; [vm_compute; reflexivity|].
  vm_compute. right. left. reflexivity.
Qed.

(** ** The run: what leaves it, and when the report is deleted *)

Section RunClaims.
Context `{RT : PyRuntime}.
Variable env : Env.
Variable config : Config.

Lemma handle_existing_reports_abort s l a :
  webex s = true ->
  list_reports_reply env ((clock s, EvListReports) :: trace s) = Ok (Some l) ->
  length l = 50%nat ->
  (forall h, input_reply env h = Ok a) ->
  strip a = str "3" ->
  exists s', handle_existing_reports env s = Some (Raise (SystemExit 1), s').
Proof.
  intros Hw Hl Hlen Hin Ha.
  assert (Hget : exists s1, get_all_reports env s = Some (Ok (Some l), s1)).
  { unfold get_all_reports, wtry, wbind, wgets. rewrite Hw.
    unfold perform. rewrite Hl. eauto. }
  destruct Hget as (s1 & Hget).
  unfold handle_existing_reports. unfold wbind at 1. rewrite Hget.
  unfold wbind at 1. unfold len_reports, wret. rewrite Hlen.
  unfold wbind at 1.
  destruct (log_spec env LogReportTable s1) as (s2 & -> & _).
  change (Z.of_nat 50 =? 50) with true. cbv iota.
  unfold wbind at 1.
  destruct (log_spec env LogQuotaReached s2) as (s3 & -> & _).
  unfold wbind at 1.
  destruct (log_spec env LogOptions s3) as (s4 & -> & _).
  unfold wbind at 1. unfold perform at 1. rewrite Hin, Ha.
  replace (bool_decide (str "3" = str "1")) with false by reflexivity.
  replace (bool_decide (str "3" = str "2")) with false by reflexivity.
  replace (bool_decide (str "3" = str "3")) with true by reflexivity.
  unfold wbind, wraise. eauto.
Qed.

Lemma delete_report_issued report_id s :
  exists r s' newer,
    delete_report env report_id s = Some (r, s')
    /\ trace s' = newer ++ (clock s, EvDelete report_id) :: trace s.
Proof.
  unfold delete_report, wbind, perform at 1.
  destruct (delete_reply env _) as [code|e].
  - unfold log, perform. destruct (code =? 204); unfold wret; cbn;
      do 2 eexists; eexists [_; _]; split; reflexivity.
  - do 2 eexists. exists []. split; reflexivity.
Qed.

(** [write_to_csv] returns whatever [Exception] the file system raises. *)
Lemma write_to_csv_returns data s :
  data <> [] ->
  (forall e,
      write_csv_reply env ((clock s, EvWriteCsv data) :: trace s) = Raise e ->
      is_Exception e = true) ->
  exists s', write_to_csv env data s = Some (Ok tt, s').
Proof.
  intros Hne Hexc. destruct data as [|item rest]; [contradiction|].
  unfold write_to_csv, wtry, wbind, perform at 1.
  destruct (write_csv_reply env _) as [[]|e] eqn:Hr.
  - unfold log, perform. eauto.
  - rewrite (Hexc e eq_refl).
    destruct (is_ValueError e); unfold log, perform; eauto.
Qed.

Lemma run_report_after_fetch fuel s s1 s2 cdr_data report_id :
  handle_existing_reports env s = Some (Ok true, s1) ->
  fetch_cdr_data_based_on_config env config fuel s1
  = Some (Ok (Some (cdr_data, report_id)), s2) ->
  run_report env config fuel s
  = wtry (match cdr_data with
          | _ :: _ =>
              wbind (write_to_csv env cdr_data)
                (fun _ => wbind (process_all_cdr_records env cdr_data)
                   (fun _ => wbind (delete_report env report_id)
                      (fun _ => log env LogFinished)))
          | [] => log env LogNoCdrToProcess
          end) is_Exception (fun e => log env (LogRunError e)) s2.
Proof.
  intros Hh Hf. unfold run_report, wtry. unfold wbind at 1. rewrite Hh.
  cbn [negb]. unfold wbind at 1. rewrite Hf. reflexivity.
Qed.

(** C6, as the code has it: once the report was fetched, with at least one
    row, it is deleted when the aggregation returns, which it does also
    after the [TypeError] it logs, and whether or not the CSV file could
    be written.  When the aggregation raises anything else the run ends in
    the handler of [run_report], and when there is no row it ends on a
    message: in both cases nothing is deleted. *)
Theorem report_deleted_when_aggregation_returns fuel s s1 s2 cdr_data
    report_id :
  handle_existing_reports env s = Some (Ok true, s1) ->
  fetch_cdr_data_based_on_config env config fuel s1
  = Some (Ok (Some (cdr_data, report_id)), s2) ->
  (forall e,
      write_csv_reply env ((clock s2, EvWriteCsv cdr_data) :: trace s2)
      = Raise e -> is_Exception e = true) ->
  match cdr_data with
  | [] =>
      exists s',
        run_report env config fuel s = Some (Ok tt, s')
        /\ trace s' = (clock s2, EvLog LogNoCdrToProcess) :: trace s2
  | _ :: _ =>
      exists s3 ra s4,
        write_to_csv env cdr_data s2 = Some (Ok tt, s3)
        /\ process_all_cdr_records env cdr_data s3 = Some (ra, s4)
        /\ match ra with
           | Ok _ =>
               exists r s' newer,
                 run_report env config fuel s = Some (r, s')
                 /\ trace s'
                    = newer ++ (clock s4, EvDelete report_id) :: trace s4
           | Raise e =>
               fst (process_rows cdr_data (self_metrics s3)) = Raise e
               /\ is_TypeError e = false
               /\ exists r s',
                    run_report env config fuel s = Some (r, s')
                    /\ (trace s' = trace s4
                        \/ trace s'
                           = (clock s4, EvLog (LogRunError e)) :: trace s4)
           end
  end.
Proof.
  intros Hh Hf Hcsv.
  rewrite (run_report_after_fetch fuel s s1 s2 cdr_data report_id Hh Hf).
  unfold wtry.
  destruct cdr_data as [|item rest].
  - unfold log, perform. eexists. split; reflexivity.
  - destruct (write_to_csv_returns (item :: rest) s2 ltac:(discriminate) Hcsv)
      as (s3 & Hw).
    destruct (process_all_cdr_records_spec env (item :: rest) s3)
      as (ra & s4 & Hp & Hm & Hr).
    exists s3, ra, s4. split; [exact Hw|]. split; [exact Hp|].
    destruct ra as [[]|e];
      unfold wbind at 1; rewrite Hw; cbv beta iota;
      unfold wbind at 1; rewrite Hp; cbv beta iota.
    + unfold wbind at 1.
      destruct (delete_report_issued report_id s4) as (rd & s5 & newer & -> & Ht).
      destruct rd as [b|e].
      * unfold log, perform. do 2 eexists.
        exists ((clock s5, EvLog LogFinished) :: newer).
        split; [reflexivity|]. cbn. rewrite Ht. reflexivity.
      * destruct (is_Exception e).
        -- unfold log, perform. do 2 eexists.
           exists ((clock s5, EvLog (LogRunError e)) :: newer).
           split; [reflexivity|]. cbn. rewrite Ht. reflexivity.
        -- do 2 eexists. exists newer. split; [reflexivity|exact Ht].
    + destruct (fst (process_rows (item :: rest) (self_metrics s3)))
        as [u|e'] eqn:Hfst; [destruct Hr; discriminate|].
      destruct (is_TypeError e') eqn:Hte; [destruct Hr; discriminate|].
      destruct Hr as [[= ->] _]. split; [reflexivity|]. split; [exact Hte|].
      destruct (is_Exception e').
      * unfold log, perform. do 2 eexists. split; [reflexivity|]. right. reflexivity.
      * do 2 eexists. split; [reflexivity|]. left. reflexivity.
Qed.

End RunClaims.

(** C5 as stated fails: with 50 stored reports and the answer "3" the run
    is left by [SystemExit], before any report is requested. *)
Lemma exit_option_raises_SystemExit :
  result (run_report (RT := reference_runtime) (scripted_env 50 "3" 0 [])
            (config_days 7) 62 fresh_state) = Some (Raise (SystemExit 1))
  /\ List.filter is_creation
       (events (run_report (RT := reference_runtime) (scripted_env 50 "3" 0 [])
                  (config_days 7) 62 fresh_state)) = [].
Proof. vm_compute. split; reflexivity. Qed.

(** C6 as stated fails: the report R1 is fetched and read into one row,
    which is short of its last field; the aggregation raises
    [AttributeError] on it and the run ends without a request to delete
    R1. *)
Lemma report_with_short_line_is_not_deleted :
  let run := run_report (RT := reference_runtime)
               (scripted_env 3 "" 2 report_with_short_line) (config_days 7) 62
               fresh_state in
  result run = Some (Ok tt)
  /\ existsb is_get_report_lines (events run) = true
  /\ existsb writes_rows (events run) = true
  /\ length (rows_of report_with_short_line) = 1%nat
  /\ List.filter is_delete (events run) = []
  /\ last (events run) = Some (EvLog (LogRunError AttributeError)).
Proof. vm_compute. repeat split; reflexivity. Qed.

Lemma report_deleted_when_aggregation_returns_witness :
  let env := scripted_env 3 "" 2 report_of_one_call in
  let s1 := final_state (handle_existing_reports env fresh_state) in
  let s2 := final_state (fetch_cdr_data_based_on_config
                           (RT := reference_runtime) env (config_days 7) 62 s1) in
  exists s3 ra s4,
    write_to_csv env (rows_of report_of_one_call) s2 = Some (Ok tt, s3)
    /\ process_all_cdr_records (RT := reference_runtime) env
         (rows_of report_of_one_call) s3 = Some (ra, s4)
    /\ match ra with
       | Ok _ =>
           exists r s' newer,
             run_report (RT := reference_runtime) env (config_days 7) 62
               fresh_state = Some (r, s')
             /\ trace s'
                = newer ++ (clock s4, EvDelete (PStr (str "R1"))) :: trace s4
       | Raise e =>
           fst (process_rows (RT := reference_runtime)
                  (rows_of report_of_one_call) (self_metrics s3)) = Raise e
           /\ is_TypeError e = false
           /\ exists r s',
                run_report (RT := reference_runtime) env (config_days 7) 62
                  fresh_state = Some (r, s')
                /\ (trace s' = trace s4
                    \/ trace s'
                       = (clock s4, EvLog (LogRunError e)) :: trace s4)
       end.
Proof.
  intros env s1 s2.
  apply (report_deleted_when_aggregation_returns (RT := reference_runtime)
           env (config_days 7) 62%nat fresh_state s1 s2
           (rows_of report_of_one_call) (PStr (str "R1"))).
  - vm_compute. reflexivity.
  - vm_compute. reflexivity.
  - intros e. vm_compute. discriminate.
Defined.

(** ** The orchestration with a console that can fail *)

(** What a [try ... except Exception] gives: the result of its body, or
    that of its handler on the [Exception] the body raised. *)
Lemma wtry_Exception_cases {A} (c : W A) handler s r s' :
  wtry c is_Exception handler s = Some (r, s') ->
  (c s = Some (r, s')
   /\ ((exists a, r = Ok a) \/ exists e, r = Raise e /\ is_Exception e = false))
  \/ exists caught s1,
       c s = Some (Raise caught, s1)
       /\ is_Exception caught = true
       /\ handler caught s1 = Some (r, s').
Proof.
  unfold wtry. intros H.
  destruct (c s) as [[[a|e] s1]|]; [| |discriminate].
  - injection H as <- <-. left. eauto.
  - destruct (is_Exception e) eqn:He.
    + right. eauto.
    + injection H as <- <-. left. eauto.
Qed.

Lemma wbind_ext {A B} (c c' : W A) (k k' : A -> W B) s :
  c s = c' s -> (forall a s1, k a s1 = k' a s1) -> wbind c k s = wbind c' k' s.
Proof.
  intros Hc Hk. unfold wbind. rewrite Hc.
  destruct (c' s) as [[[a|e] s1]|]; auto.
Qed.

Lemma wtry_ext {A} (c c' : W A) catches (h h' : exn -> W A) s :
  c s = c' s -> (forall e s1, h e s1 = h' e s1) ->
  wtry c catches h s = wtry c' catches h' s.
Proof.
  intros Hc Hh. unfold wtry. rewrite Hc.
  destruct (c' s) as [[[a|e] s1]|]; auto.
  destruct (catches e); auto.
Qed.

Lemma wbind_assoc {A B C} (c : W A) (k : A -> W B) (k' : B -> W C) s :
  wbind (wbind c k) k' s = wbind c (fun a => wbind (k a) k') s.
Proof.
  unfold wbind. destruct (c s) as [[[a|e] s1]|]; reflexivity.
Qed.

Section RenderedFacts.
Context `{RT : PyRuntime}.
Variable env : Env.
Variable config : Config.
Variable console : history -> res unit.

(** A message is recorded and handed to the console, whose answer is the
    result of the log call. *)
Lemma rendered_log_spec msg s :
  exists s',
    Rendered.log env console msg s
    = Some (console ((clock s, EvLog msg) :: trace s), s')
    /\ trace s' = (clock s, EvLog msg) :: trace s
    /\ clock s <= clock s'
    /\ webex s' = webex s
    /\ self_metrics s' = self_metrics s.
Proof.
  unfold Rendered.log.
  destruct (perform_spec env (EvLog msg) 0 console s ltac:(lia))
    as (s' & H & T & C & Wb & Me & _).
  exists s'. repeat split; auto. lia.
Qed.

Lemma terminates_rendered_log msg : terminates (Rendered.log env console msg).
Proof. apply terminates_perform. Qed.

(** The clock bounds the rounds of the loop, whatever the console does. *)
Lemma rendered_poll_loop_ends fuel report_id start_time :
  forall status s,
    Z.max 0 (timeout - (clock s - start_time) + 30 * second) + 30 * second
    <= 30 * second * Z.of_nat fuel ->
    exists r s',
      Rendered.poll_loop env console fuel report_id start_time status s
      = Some (r, s').
Proof.
  induction fuel as [|fuel IH]; intros status s Hfuel.
  - exfalso. unfold second in *. cbn in Hfuel. lia.
  - cbn [Rendered.poll_loop].
    destruct (bool_decide (status = PStr (str "done"))).
    { unfold wret. eauto. }
    unfold wbind at 1. unfold time_time.
    destruct (perform_spec env EvTime 0 (fun _ => Ok (clock s)) s ltac:(lia))
      as (s1 & -> & T1 & C1 & _).
    destruct (clock s - start_time >? timeout) eqn:Hto.
    { apply terminates_wbind;
        [apply terminates_rendered_log|intros; apply terminates_wret]. }
    rewrite Z.gtb_ltb in Hto. apply Z.ltb_ge in Hto.
    unfold wbind at 1. unfold time_sleep.
    destruct (perform_spec env (EvSleep 30) (30 * second) (fun _ => Ok tt) s1
                ltac:(unfold second; lia))
      as (s2 & -> & T2 & C2 & _).
    unfold wbind at 1.
    destruct (perform_spec env (EvReportStatus report_id) 0
                (report_status_reply env) s2 ltac:(lia))
      as (s3 & -> & T3 & C3 & _).
    destruct (report_status_reply env _) as [status'|e]; [|eauto].
    unfold wbind at 1.
    destruct (rendered_log_spec (SpinnerWaiting status') s3)
      as (s4 & -> & T4 & C4 & _).
    destruct (console _) as [[]|e]; [|eauto].
    apply IH. unfold second in *. rewrite Nat2Z.inj_succ in Hfuel. lia.
Qed.

Lemma terminates_rendered_await_report fuel report_id :
  (62 <= fuel)%nat ->
  terminates (Rendered.await_report env console fuel report_id).
Proof.
  intros Hfuel s. unfold Rendered.await_report.
  unfold wbind at 1.
  destruct (rendered_log_spec (LogCreated report_id) s)
    as (s1 & -> & T1 & C1 & _).
  destruct (console _) as [[]|e]; [|eauto].
  unfold wbind at 1. unfold time_time.
  destruct (perform_spec env EvTime 0 (fun _ => Ok (clock s1)) s1 ltac:(lia))
    as (s2 & -> & T2 & C2 & _).
  unfold wbind at 1.
  destruct (rendered_log_spec SpinnerFetching s2) as (s3 & -> & T3 & C3 & _).
  destruct (console _) as [[]|e]; [|eauto].
  apply rendered_poll_loop_ends.
  unfold timeout, second in *. lia.
Qed.

Lemma terminates_rendered_create_report num_days :
  terminates (Rendered.create_report env config console num_days).
Proof.
  unfold Rendered.create_report.
  assert (Hrange : terminates
            (wbind (Rendered.log env console LogRunningReport)
               (fun _ => wbind (perform env (EvCdrReportRange (START_DATE config)
                                               (END_DATE config)) 0
                                  (cdr_report_reply env))
                           (fun report_id => wret (Some report_id))))).
  { apply terminates_wbind; [apply terminates_rendered_log|]. intros _.
    apply terminates_wbind; [apply terminates_perform|].
    intros; apply terminates_wret. }
  destruct num_days as [days|]; [|exact Hrange].
  destruct (days =? 0); [exact Hrange|].
  apply terminates_wbind; [apply terminates_perform|]. intros report_id.
  destruct (negb (truthy report_id)); apply terminates_wret.
Qed.

Lemma terminates_rendered_read_report report_id :
  terminates (Rendered.read_report env console report_id).
Proof.
  unfold Rendered.read_report.
  apply terminates_wbind; [apply terminates_rendered_log|]. intros _.
  apply terminates_wbind; [apply terminates_perform|]. intros [|line lines].
  - apply terminates_wbind; [apply terminates_rendered_log|].
    intros; apply terminates_wret.
  - destruct (DictReader (line :: lines));
      [apply terminates_wret|apply terminates_wraise].
Qed.

Lemma terminates_rendered_fetch_cdr_data_except e :
  terminates (Rendered.fetch_cdr_data_except env console e).
Proof.
  unfold Rendered.fetch_cdr_data_except.
  apply terminates_wbind; [apply terminates_rendered_log|]. intros _.
  apply terminates_wbind; [|intros; apply terminates_wret].
  destruct (response_of e);
    [apply terminates_wret|apply terminates_wraise|apply terminates_rendered_log].
Qed.

Lemma terminates_rendered_fetch_cdr_data fuel num_days :
  (62 <= fuel)%nat ->
  terminates (Rendered.fetch_cdr_data env config console fuel num_days).
Proof.
  intros Hfuel. unfold Rendered.fetch_cdr_data.
  apply terminates_wbind; [apply terminates_wgets|]. intros webex_ok.
  destruct (negb webex_ok); [apply terminates_wret|].
  apply terminates_wtry; [|apply terminates_rendered_fetch_cdr_data_except].
  unfold Rendered.fetch_cdr_data_try.
  apply terminates_wbind; [apply terminates_rendered_create_report|].
  intros [report_id|]; [|apply terminates_wret].
  apply terminates_wbind; [apply terminates_rendered_await_report; auto|].
  intros done. destruct (negb done);
    [apply terminates_wret|apply terminates_rendered_read_report].
Qed.

Lemma terminates_rendered_delete_report report_id :
  terminates (Rendered.delete_report env console report_id).
Proof.
  unfold Rendered.delete_report.
  apply terminates_wbind; [apply terminates_perform|]. intros code.
  apply terminates_wbind; [apply terminates_rendered_log|]. intros _.
  destruct (code =? 204);
    (apply terminates_wbind;
       [apply terminates_rendered_log|intros; apply terminates_wret]).
Qed.

Lemma terminates_rendered_write_to_csv data :
  terminates (Rendered.write_to_csv env console data).
Proof.
  unfold Rendered.write_to_csv. apply terminates_wtry.
  - destruct data; [apply terminates_wraise|].
    apply terminates_wbind;
      [apply terminates_perform|intros; apply terminates_rendered_log].
  - intros e. destruct (is_ValueError e); apply terminates_rendered_log.
Qed.

Lemma terminates_rendered_process_all_cdr_records cdr_data :
  terminates (Rendered.process_all_cdr_records env console cdr_data).
Proof.
  unfold Rendered.process_all_cdr_records. apply terminates_wtry.
  - apply terminates_on_metrics.
  - intros; apply terminates_rendered_log.
Qed.

Lemma terminates_rendered_get_all_reports :
  terminates (Rendered.get_all_reports env console).
Proof.
  unfold Rendered.get_all_reports. apply terminates_wtry.
  - apply terminates_wbind; [apply terminates_wgets|]. intros [].
    + apply terminates_perform.
    + apply terminates_wraise.
  - intros e. apply terminates_wbind; [apply terminates_rendered_log|].
    intros; apply terminates_wret.
Qed.

Lemma terminates_rendered_delete_each l :
  terminates (Rendered.delete_each env console l).
Proof.
  induction l as [|report rest IH]; cbn [Rendered.delete_each];
    [apply terminates_wret|].
  destruct (report !! str "Id"); [|apply terminates_wraise].
  apply terminates_wbind; [apply terminates_rendered_delete_report|auto].
Qed.

Lemma terminates_rendered_handle_existing_reports :
  terminates (Rendered.handle_existing_reports env console).
Proof.
  unfold Rendered.handle_existing_reports.
  apply terminates_wbind; [apply terminates_rendered_get_all_reports|].
  intros reports.
  apply terminates_wbind; [apply terminates_len_reports|]. intros n.
  apply terminates_wbind; [apply terminates_rendered_log|]. intros _.
  destruct (n =? 50); [|apply terminates_wret].
  apply terminates_wbind; [apply terminates_rendered_log|]. intros _.
  apply terminates_wbind; [apply terminates_rendered_log|]. intros _.
  apply terminates_wbind; [apply terminates_perform|]. intros answer.
  apply terminates_wbind.
  - destruct (bool_decide _).
    + apply terminates_wbind; [apply terminates_perform|]. intros answer_id.
      apply terminates_wbind; [apply terminates_rendered_delete_report|].
      intros; apply terminates_wret.
    + destruct (bool_decide _); [apply terminates_rendered_delete_each|].
      destruct (bool_decide _); [apply terminates_wraise|apply terminates_wret].
  - intros _.
    apply terminates_wbind; [apply terminates_rendered_get_all_reports|].
    intros reports'.
    apply terminates_wbind; [apply terminates_len_reports|].
    intros; apply terminates_wret.
Qed.

Lemma terminates_rendered_fetch_cdr_data_based_on_config fuel :
  (62 <= fuel)%nat ->
  terminates (Rendered.fetch_cdr_data_based_on_config env config console fuel).
Proof.
  intros Hfuel. unfold Rendered.fetch_cdr_data_based_on_config.
  assert (Hno : terminates
            (wbind (Rendered.log env console LogNoSchedule)
                   (fun _ => wret (@None (list row * pyval)))))
    by (apply terminates_wbind;
          [apply terminates_rendered_log|intros; apply terminates_wret]).
  destruct (NUMBER_OF_DAYS_CDR_REPORT config) as [days|].
  - destruct (negb (days =? 0));
      [apply terminates_rendered_fetch_cdr_data; auto|].
    destruct (truthy_opt _ && truthy_opt _);
      [apply terminates_rendered_fetch_cdr_data; auto|exact Hno].
  - destruct (truthy_opt _ && truthy_opt _);
      [apply terminates_rendered_fetch_cdr_data; auto|exact Hno].
Qed.

Lemma terminates_rendered_run_report fuel :
  (62 <= fuel)%nat ->
  terminates (Rendered.run_report env config console fuel).
Proof.
  intros Hfuel. unfold Rendered.run_report. apply terminates_wtry.
  - apply terminates_wbind;
      [apply terminates_rendered_handle_existing_reports|].
    intros proceed. destruct (negb proceed); [apply terminates_wret|].
    apply terminates_wbind;
      [apply terminates_rendered_fetch_cdr_data_based_on_config; auto|].
    intros [[cdr_data report_id]|]; [|apply terminates_wraise].
    destruct cdr_data; [apply terminates_rendered_log|].
    apply terminates_wbind; [apply terminates_rendered_write_to_csv|].
    intros _.
    apply terminates_wbind;
      [apply terminates_rendered_process_all_cdr_records|]. intros _.
    apply terminates_wbind; [apply terminates_rendered_delete_report|].
    intros _. apply terminates_rendered_log.
  - intros e. apply terminates_rendered_log.
Qed.

End RenderedFacts.

(** ** A console that renders every message

    With a console that never fails the statements of [Rendered] are those
    of the orchestration the other properties are about. *)

Section QuietConsole.
Context `{RT : PyRuntime}.
Variable env : Env.
Variable config : Config.

Lemma quiet_poll_loop fuel report_id start_time :
  forall status s,
    Rendered.poll_loop env quiet_console fuel report_id start_time status s
    = poll_loop env fuel report_id start_time status s.
Proof.
  induction fuel as [|fuel IH]; intros status s;
    cbn [Rendered.poll_loop poll_loop]; [reflexivity|].
  destruct (bool_decide _); [reflexivity|].
  apply wbind_ext; [reflexivity|]. intros now s1.
  destruct (_ >? _); [reflexivity|].
  apply wbind_ext; [reflexivity|]. intros _ s2.
  apply wbind_ext; [reflexivity|]. intros status' s3.
  apply wbind_ext; [reflexivity|]. intros _ s4. apply IH.
Qed.

Lemma quiet_fetch_cdr_data fuel num_days s :
  Rendered.fetch_cdr_data env config quiet_console fuel num_days s
  = fetch_cdr_data env config fuel num_days s.
Proof.
  unfold Rendered.fetch_cdr_data, fetch_cdr_data.
  apply wbind_ext; [reflexivity|]. intros webex_ok s0.
  destruct (negb webex_ok); [reflexivity|].
  apply wtry_ext; [|reflexivity].
  unfold Rendered.fetch_cdr_data_try, fetch_cdr_data_try.
  apply wbind_ext; [reflexivity|]. intros [report_id|] s1; [|reflexivity].
  unfold Rendered.await_report.
  rewrite wbind_assoc. apply wbind_ext; [reflexivity|]. intros _ s2.
  rewrite wbind_assoc. apply wbind_ext; [reflexivity|]. intros start_time s3.
  rewrite wbind_assoc. apply wbind_ext; [reflexivity|]. intros _ s4.
  apply wbind_ext; [apply quiet_poll_loop|]. intros done s5.
  destruct (negb done); reflexivity.
Qed.

Lemma quiet_delete_each existing_reports s :
  Rendered.delete_each env quiet_console existing_reports s
  = delete_each env existing_reports s.
Proof.
  revert s. induction existing_reports as [|report rest IH]; intros s;
    cbn [Rendered.delete_each delete_each]; [reflexivity|].
  destruct (report !! str "Id"); [|reflexivity].
  apply wbind_ext; [reflexivity|]. intros _ s1. apply IH.
Qed.

Lemma quiet_handle_existing_reports s :
  Rendered.handle_existing_reports env quiet_console s
  = handle_existing_reports env s.
Proof.
  unfold Rendered.handle_existing_reports, handle_existing_reports.
  apply wbind_ext; [reflexivity|]. intros existing_reports s1.
  apply wbind_ext; [reflexivity|]. intros n s2.
  apply wbind_ext; [reflexivity|]. intros _ s3.
  destruct (n =? 50); [|reflexivity].
  apply wbind_ext; [reflexivity|]. intros _ s4.
  apply wbind_ext; [reflexivity|]. intros _ s5.
  apply wbind_ext; [reflexivity|]. intros answer s6. cbv zeta.
  apply wbind_ext; [|reflexivity].
  destruct (bool_decide _); [reflexivity|].
  destruct (bool_decide _); [apply quiet_delete_each|reflexivity].
Qed.

(** The run with a console that renders every message. *)
Lemma quiet_run_report fuel s :
  Rendered.run_report env config quiet_console fuel s
  = run_report env config fuel s.
Proof.
  unfold Rendered.run_report, run_report.
  apply wtry_ext; [|reflexivity].
  apply wbind_ext; [apply quiet_handle_existing_reports|]. intros proceed s1.
  destruct (negb proceed); [reflexivity|].
  apply wbind_ext; [|reflexivity].
  unfold Rendered.fetch_cdr_data_based_on_config,
    fetch_cdr_data_based_on_config.
  destruct (NUMBER_OF_DAYS_CDR_REPORT config) as [days|].
  - destruct (negb (days =? 0)); [apply quiet_fetch_cdr_data|].
    destruct (truthy_opt _ && truthy_opt _);
      [apply quiet_fetch_cdr_data|reflexivity].
  - destruct (truthy_opt _ && truthy_opt _);
      [apply quiet_fetch_cdr_data|reflexivity].
Qed.

Lemma quiet_write_to_csv data s :
  Rendered.write_to_csv env quiet_console data s = write_to_csv env data s.
Proof. reflexivity. Qed.

End QuietConsole.

(** ** The result of [fetch_cdr_data], path by path *)

Section FetchPaths.
Context `{RT : PyRuntime}.
Variable env : Env.
Variable config : Config.
Variable console : history -> res unit.




End FetchPaths.


(** ** What leaves [run_report] and [write_to_csv] *)

Section Boundary.
Context `{RT : PyRuntime}.
Variable env : Env.
Variable config : Config.
Variable console : history -> res unit.

Lemma rendered_handle_existing_reports_abort s l a :
  webex s = true ->
  list_reports_reply env ((clock s, EvListReports) :: trace s) = Ok (Some l) ->
  length l = 50%nat ->
  (forall h, input_reply env h = Ok a) ->
  strip a = str "3" ->
  renders console is_quota_prompt ->
  exists s',
    Rendered.handle_existing_reports env console s
    = Some (Raise (SystemExit 1), s').
Proof.
  intros Hw Hl Hlen Hin Ha Hren.
  assert (Hget : exists s1,
             Rendered.get_all_reports env console s = Some (Ok (Some l), s1)).
  { unfold Rendered.get_all_reports, wtry, wbind, wgets. rewrite Hw.
    unfold perform. rewrite Hl. eauto. }
  destruct Hget as (s1 & Hget).
  unfold Rendered.handle_existing_reports. unfold wbind at 1. rewrite Hget.
  unfold wbind at 1. unfold len_reports, wret. rewrite Hlen.
  unfold wbind at 1.
  destruct (rendered_log_spec env console LogReportTable s1) as (s2 & -> & _).
  rewrite (Hren _ LogReportTable _ eq_refl).
  change (Z.of_nat 50 =? 50) with true. cbv iota.
  unfold wbind at 1.
  destruct (rendered_log_spec env console LogQuotaReached s2) as (s3 & -> & _).
  rewrite (Hren _ LogQuotaReached _ eq_refl).
  unfold wbind at 1.
  destruct (rendered_log_spec env console LogOptions s3) as (s4 & -> & _).
  rewrite (Hren _ LogOptions _ eq_refl).
  unfold wbind at 1. unfold perform at 1. rewrite Hin, Ha.
  replace (bool_decide (str "3" = str "1")) with false by reflexivity.
  replace (bool_decide (str "3" = str "2")) with false by reflexivity.
  replace (bool_decide (str "3" = str "3")) with true by reflexivity.
  unfold wbind, wraise. eauto.
Qed.

(** C5, as the code has it: [run_report] comes to an end, and every
    [Exception] its [try] block raises is caught at the boundary and handed
    to the handler, which logs it.  What leaves [run_report] is no
    [Exception], or it is what the log call of the handler raised on the
    exception it was reporting.  The exit the operator chooses with "3" is
    of the first kind: [sys.exit(1)] raises [SystemExit], which passes
    through [run_report] to its caller. *)
Theorem run_report_lets_exits_and_its_own_log_through fuel s :
  (62 <= fuel)%nat ->
  exists r s',
    Rendered.run_report env config console fuel s = Some (r, s')
    /\ (r = Ok tt
        \/ exists e,
             r = Raise e
             /\ (is_Exception e = false
                 \/ exists t caught older,
                      trace s' = (t, EvLog (LogRunError caught)) :: older
                      /\ is_Exception caught = true
                      /\ console (trace s') = Raise e))
    /\ (forall l a,
          webex s = true ->
          list_reports_reply env ((clock s, EvListReports) :: trace s)
          = Ok (Some l) ->
          length l = 50%nat ->
          (forall h, input_reply env h = Ok a) ->
          strip a = str "3" ->
          renders console is_quota_prompt ->
          r = Raise (SystemExit 1)).
Proof.
  intros Hfuel.
  destruct (terminates_rendered_run_report env config console fuel Hfuel s)
    as (r & s' & Hrun).
  exists r, s'. split; [exact Hrun|]. split.
  - unfold Rendered.run_report in Hrun.
    apply wtry_Exception_cases in Hrun
      as [(_ & [[[] ->]|(e & -> & He)])|(caught & s1 & _ & Hc & Hh)];
      [left; reflexivity|right; eauto|].
    destruct (rendered_log_spec env console (LogRunError caught) s1)
      as (s2 & Hlog & T2 & _).
    rewrite Hlog in Hh. injection Hh as <- <-.
    destruct (console _) as [[]|e] eqn:Hreply; [left; reflexivity|].
    right. exists e. split; [reflexivity|]. right.
    exists (clock s1), caught, (trace s1).
    rewrite T2. auto.
  - intros l a Hw Hl Hlen Hin Ha Hren.
    destruct (rendered_handle_existing_reports_abort s l a Hw Hl Hlen Hin Ha
                Hren) as (s1 & Hh).
    unfold Rendered.run_report, wtry, wbind in Hrun. rewrite Hh in Hrun.
    cbn in Hrun. congruence.
Qed.

(** X21: [write_to_csv] comes to an end, and an [Exception] leaves it
    only from the log call of one of its two handlers: what the file
    operations raise, and what the message of success raises, is caught
    whenever it is an [Exception].  With no data it touches no file and
    logs the CSV writing error; otherwise it makes one attempt to write
    the file.  The metrics stay as they are. *)
Theorem write_to_csv_raises_only_from_its_handlers (data : list row)
    (s : state) :
  exists r s' new,
    Rendered.write_to_csv env console data s = Some (r, s')
    /\ trace s' = new ++ trace s
    /\ (forall e,
          r = Raise e -> is_Exception e = true ->
          console (trace s') = Raise e
          /\ exists t m older,
               new = (t, EvLog m) :: older
               /\ (m = LogCsvValueError \/ m = LogCsvError))
    /\ match data with
       | [] =>
           new = [(clock s, EvLog LogCsvValueError)]
           /\ r = console ((clock s, EvLog LogCsvValueError) :: trace s)
       | _ :: _ =>
           exists newer,
             new = newer ++ [(clock s, EvWriteCsv data)]
             /\ (count_events is_write_csv newer <= 0)%nat
       end
    /\ self_metrics s' = self_metrics s.
Proof.
  unfold Rendered.write_to_csv, wtry.
  destruct data as [|item rest].
  - unfold wraise. cbn [is_Exception is_ValueError].
    destruct (rendered_log_spec env console LogCsvValueError s)
      as (s1 & -> & T1 & _ & _ & M1).
    exists (console ((clock s, EvLog LogCsvValueError) :: trace s)), s1,
      [(clock s, EvLog LogCsvValueError)].
    split; [reflexivity|]. split; [exact T1|]. split; [|auto].
    intros e He _. rewrite T1. split; [exact He|].
    exists (clock s), LogCsvValueError, []. auto.
  - unfold wbind.
    destruct (perform_spec env (EvWriteCsv (item :: rest)) 0
                (write_csv_reply env) s ltac:(lia))
      as (s1 & -> & T1 & _ & _ & M1 & _).
    assert (Hhandler : forall m,
              m = LogCsvValueError \/ m = LogCsvError ->
              exists r s' new,
                Rendered.log env console m s1 = Some (r, s')
                /\ trace s' = new ++ trace s
                /\ (forall e,
                      r = Raise e -> is_Exception e = true ->
                      console (trace s') = Raise e
                      /\ exists t m' older,
                           new = (t, EvLog m') :: older
                           /\ (m' = LogCsvValueError \/ m' = LogCsvError))
                /\ (exists newer,
                      new = newer ++ [(clock s, EvWriteCsv (item :: rest))]
                      /\ (count_events is_write_csv newer <= 0)%nat)
                /\ self_metrics s' = self_metrics s).
    { intros m Hm.
      destruct (rendered_log_spec env console m s1)
        as (s2 & Hlog & T2 & _ & _ & M2).
      exists (console ((clock s1, EvLog m) :: trace s1)), s2,
        [(clock s1, EvLog m); (clock s, EvWriteCsv (item :: rest))].
      split; [exact Hlog|]. split; [rewrite T2, T1; reflexivity|].
      split; [|split; [|congruence]].
      - intros e He _. rewrite T2. split; [exact He|].
        exists (clock s1), m, [(clock s, EvWriteCsv (item :: rest))]. auto.
      - exists [(clock s1, EvLog m)]. split; [reflexivity|]. cbn. lia. }
    destruct (write_csv_reply env _) as [[]|e] eqn:Hreply.
    + destruct (rendered_log_spec env console LogCsvWritten s1)
        as (s2 & -> & T2 & _ & _ & M2).
      destruct (console ((clock s1, EvLog LogCsvWritten) :: trace s1))
        as [[]|e] eqn:Hshown.
      * exists (Ok tt), s2,
          [(clock s1, EvLog LogCsvWritten); (clock s, EvWriteCsv (item :: rest))].
        split; [reflexivity|]. split; [rewrite T2, T1; reflexivity|].
        split; [intros e; discriminate|]. split; [|congruence].
        exists [(clock s1, EvLog LogCsvWritten)]. split; [reflexivity|].
        cbn. lia.
      * destruct (is_Exception e) eqn:He.
        -- assert (Hm : (if is_ValueError e then LogCsvValueError
                         else LogCsvError) = LogCsvValueError
                        \/ (if is_ValueError e then LogCsvValueError
                            else LogCsvError) = LogCsvError)
             by (destruct (is_ValueError e); auto).
           destruct (rendered_log_spec env console
                       (if is_ValueError e then LogCsvValueError
                        else LogCsvError) s2)
             as (s3 & Hlog & T3 & _ & _ & M3).
           exists (console ((clock s2,
                             EvLog (if is_ValueError e then LogCsvValueError
                                    else LogCsvError)) :: trace s2)), s3,
             [(clock s2, EvLog (if is_ValueError e then LogCsvValueError
                                else LogCsvError));
              (clock s1, EvLog LogCsvWritten);
              (clock s, EvWriteCsv (item :: rest))].
           split; [destruct (is_ValueError e); exact Hlog|].
           split; [rewrite T3, T2, T1; reflexivity|].
           split; [|split; [|congruence]].
           ++ intros e' He' _. rewrite T3. split; [exact He'|].
              do 3 eexists. split; [reflexivity|exact Hm].
           ++ eexists [_; _]. split; [reflexivity|].
              destruct (is_ValueError e); cbn; lia.
        -- exists (Raise e), s2,
             [(clock s1, EvLog LogCsvWritten);
              (clock s, EvWriteCsv (item :: rest))].
           split; [reflexivity|]. split; [rewrite T2, T1; reflexivity|].
           split; [intros e' [= <-]; congruence|]. split; [|congruence].
           exists [(clock s1, EvLog LogCsvWritten)]. split; [reflexivity|].
           cbn. lia.
    + destruct (is_Exception e) eqn:He.
      * destruct (is_ValueError e);
          [apply (Hhandler LogCsvValueError)|apply (Hhandler LogCsvError)];
          auto.
      * exists (Raise e), s1, [(clock s, EvWriteCsv (item :: rest))].
        split; [reflexivity|]. split; [exact T1|].
        split; [intros e' [= <-]; congruence|]. split; [|exact M1].
        exists []. split; [reflexivity|]. cbn. lia.
Qed.

End Boundary.

(** The theorem at the exit the operator chooses with "3". *)
Lemma run_report_lets_exits_and_its_own_log_through_witness :
  exists r s',
    Rendered.run_report (RT := reference_runtime) (scripted_env 50 "3" 0 [])
      (config_days 7) quiet_console 62 fresh_state = Some (r, s')
    /\ (r = Ok tt
        \/ exists e,
             r = Raise e
             /\ (is_Exception e = false
                 \/ exists t caught older,
                      trace s' = (t, EvLog (LogRunError caught)) :: older
                      /\ is_Exception caught = true
                      /\ quiet_console (trace s') = Raise e))
    /\ r = Raise (SystemExit 1).
Proof.
  destruct (run_report_lets_exits_and_its_own_log_through
              (RT := reference_runtime) (scripted_env 50 "3" 0 [])
              (config_days 7) quiet_console 62%nat fresh_state ltac:(lia))
    as (r & s' & Hrun & Hb & Habort).
  exists r, s'. split; [exact Hrun|]. split; [exact Hb|].
  apply (Habort (repeat ({[ str "Id" := PStr (str "R0") ]} : row) 50)
                (str "3"));
    try reflexivity.
  intros t m h _. reflexivity.
Defined.

(** An [Exception] that leaves [run_report]: at the limit of 50 reports
    the operator asks to delete one report and types [/] for its
    identifier.  The console raises [MarkupError] on the message that the
    deletion failed, the boundary catches it, and the console raises again
    on the message of the handler, which quotes the tag. *)
Lemma markup_error_leaves_run_report :
  let run := Rendered.run_report (RT := reference_runtime) slash_env
               (config_days 7) strict_console 62 fresh_state in
  result run = Some (Raise MarkupError)
  /\ is_Exception MarkupError = true
  /\ events run
     = [ EvListReports; EvLog LogReportTable; EvLog LogQuotaReached;
         EvLog LogOptions; EvInput; EvInput; EvDelete (PStr (str "[/]"));
         EvLog (LogHttpStatus 404);
         EvLog (LogDeleteFailed (PStr (str "[/]")) 404);
         EvLog (LogRunError MarkupError) ].
Proof. vm_compute. repeat split; reflexivity. Qed.

(** An [Exception] that leaves [write_to_csv]: the disk is full and the
    console cannot render the text of the error. *)
Lemma csv_log_error_leaves_write_to_csv :
  let console := fun h : history =>
                   match h with
                   | (_, EvLog LogCsvError) :: _ => Raise MarkupError
                   | _ => Ok tt
                   end in
  let run := Rendered.write_to_csv full_disk_env console [row_plain]
               fresh_state in
  result run = Some (Raise MarkupError)
  /\ events run = [EvWriteCsv [row_plain]; EvLog LogCsvError].
Proof. vm_compute. split; reflexivity. Qed.

(** ** Rows the aggregation takes in *)

(** [int] on a string of decimal characters: the number, or [ValueError]
    when the string has more digits than the limit allows. *)
Lemma py_int_decimal_limit limit s :
  isdecimal s = true ->
  py_int limit s
  = if ((0 <? limit) && (limit <? N.of_nat (length s)))%N
    then Raise ValueError
    else Ok (decimal_value s).
Proof.
  intros Hdec. unfold isdecimal in Hdec.
  destruct s as [|c s]; [discriminate|].
  destruct (transform_decimal _ Hdec) as (t & Ht & Hlen & Hscan).
  unfold py_int. rewrite Ht.
  cbn [forallb] in Hdec. apply andb_prop in Hdec as [Hc _].
  unfold is_decimal_char in Hc.
  destruct (Py_UNICODE_TODECIMAL c) as [d|] eqn:Hd; [|discriminate].
  pose proof (decimal_char_inv _ _ Hd) as [Hlt _].
  cbn [transform_decimal_and_space] in Ht.
  rewrite (to_ascii_decimal _ _ Hd) in Ht.
  destruct (transform_decimal_and_space s) as [t'|]; [|discriminate].
  injection Ht as <-.
  rewrite (skip_spaces_digit _ _ Hlt).
  replace ((48 + d =? 43)%N) with false by (symmetry; apply N.eqb_neq; lia).
  replace ((48 + d =? 45)%N) with false by (symmetry; apply N.eqb_neq; lia).
  rewrite Hscan by (right; discriminate).
  cbn [skip_spaces]. rewrite N.add_0_l.
  destruct ((0 <? limit)%N && (limit <? N.of_nat (length (c :: s)))%N);
    [reflexivity|].
  unfold decimal_value. f_equal. lia.
Qed.

Lemma metrics_eq (m1 m2 : metrics) :
  total_duration m1 = total_duration m2 ->
  total_calls m1 = total_calls m2 ->
  connected_calls m1 = connected_calls m2 ->
  voicemail_calls m1 = voicemail_calls m2 ->
  response_times m1 = response_times m2 ->
  call_outcomes m1 = call_outcomes m2 ->
  department_calls m1 = department_calls m2 ->
  user_calls m1 = user_calls m2 ->
  m1 = m2.
Proof.
  destruct m1, m2; cbn; intros; subst; reflexivity.
Qed.

Section IngestionFacts.
Context `{RT : PyRuntime}.

Lemma isdigit_nonempty s : isdigit s = true -> s <> [].
Proof. destruct s; [discriminate|discriminate]. Qed.

(** The duration expression returns exactly on the readable durations,
    with the value they stand for. *)
Lemma duration_of_readable item :
  duration_of item
  = if readable_duration item then Ok (duration_value item)
    else Raise (match item !! str "Duration" with
                | Some PNone => AttributeError
                | _ => ValueError
                end).
Proof.
  unfold readable_duration, duration_value.
  destruct (item !! str "Duration") as [[s|]|] eqn:Hk.
  - destruct (isdigit s) eqn:Hdig; cbn [negb orb].
    + destruct (isdecimal s) eqn:Hdec; cbn [andb].
      * unfold duration_of, dict_get. rewrite Hk, Hdig.
        rewrite (py_int_decimal_limit _ _ Hdec).
        unfold within_digit_limit.
        destruct ((0 <? int_max_str_digits)%N
                  && (int_max_str_digits <? N.of_nat (length s))%N);
          reflexivity.
      * apply (duration_of_digit_not_decimal item s Hk Hdig Hdec).
    + apply (duration_of_not_digits item s Hk Hdig).
  - unfold duration_of, dict_get. rewrite Hk. reflexivity.
  - apply (duration_of_absent item Hk).
Qed.

Lemma duration_value_nonneg item : 0 <= duration_value item.
Proof.
  unfold duration_value.
  destruct (item !! str "Duration") as [[s|]|]; try lia.
  destruct (isdigit s); [apply decimal_value_nonneg|lia].
Qed.

(** [item.get(key, '').lower() == lit] on a field that is a string or
    absent. *)
Lemma lower_equals_field item key lit :
  str lit <> [] ->
  lower_equals (dict_get item key (PStr [])) lit
  = if string_or_absent item key then Ok (field_is item key lit)
    else Raise AttributeError.
Proof.
  intros Hlit. unfold lower_equals, py_lower, dict_get, string_or_absent, field_is.
  destruct (item !! str key) as [[s|]|]; try reflexivity.
  cbn. f_equal. apply bool_decide_eq_false. intros H. apply Hlit.
  symmetry. exact H.
Qed.

Lemma py_lower_field item key lit :
  str lit <> [] ->
  match py_lower (dict_get item key (PStr [])) with
  | Ok r => string_or_absent item key = true
            /\ bool_decide (r = str lit) = field_is item key lit
  | Raise e => string_or_absent item key = false /\ e = AttributeError
  end.
Proof.
  intros Hlit. unfold py_lower, dict_get, string_or_absent, field_is.
  destruct (item !! str key) as [[s|]|]; try (split; reflexivity).
  split; [reflexivity|]. cbn. apply bool_decide_eq_false. intros H.
  apply Hlit. symmetry. exact H.
Qed.

(** The [datetime] of a field, as [process_call_record] reads it. *)
Lemma timestamp_spec item key :
  let v := dict_get item key (PStr []) in
  if truthy v
  then datetime_fromisoformat v
       = match timestamp item key with
         | Some d => Ok d
         | None => Raise ValueError
         end
  else timestamp item key = None.
Proof.
  unfold dict_get, timestamp, datetime_fromisoformat, truthy.
  destruct (item !! str key) as [[[|c s]|]|]; reflexivity.
Qed.

Lemma datetime_sub_awareness a b :
  datetime_sub a b
  = if same_awareness a b
    then Ok (match dt_utcoffset a, dt_utcoffset b with
             | Some oa, Some ob => (dt_wall a - oa) - (dt_wall b - ob)
             | _, _ => dt_wall a - dt_wall b
             end)
    else Raise TypeError.
Proof.
  unfold datetime_sub, same_awareness.
  destruct (dt_utcoffset a), (dt_utcoffset b); reflexivity.
Qed.

(** Lines 167 to 176: the response-time sample of a row. *)
Lemma response_step item m :
  (let answer_time_str := dict_get item "Answer time" (PStr []) in
   let start_time_str := dict_get item "Start time" (PStr []) in
   if truthy answer_time_str && truthy start_time_str
   then record_response_time answer_time_str start_time_str
   else ret tt) m
  = if comparable_timestamps item
    then (Ok tt,
          match response_sample item with
          | t :: _ => append_response_time t m
          | [] => m
          end)
    else (Raise TypeError, m).
Proof.
  cbv zeta.
  pose proof (timestamp_spec item "Answer time") as Ha.
  pose proof (timestamp_spec item "Start time") as Hs.
  cbv zeta in Ha, Hs.
  unfold comparable_timestamps, response_sample.
  destruct (truthy (dict_get item "Answer time" (PStr []))); cbn [andb].
  - destruct (truthy (dict_get item "Start time" (PStr []))).
    + unfold record_response_time, try_except, bind, lift_res, modify, ret.
      rewrite Ha, Hs.
      destruct (timestamp item "Answer time") as [a|]; [|reflexivity].
      destruct (timestamp item "Start time") as [b|]; [|reflexivity].
      rewrite datetime_sub_awareness.
      destruct (same_awareness a b); reflexivity.
    + rewrite Hs. destruct (timestamp item "Answer time"); reflexivity.
  - rewrite Ha. reflexivity.
Qed.

Section BucketEffect.
Variable calls : metrics -> gmap pyval bucket.
Variable set_calls :
  (gmap pyval bucket -> gmap pyval bucket) -> metrics -> metrics.
Hypothesis set_set :
  forall F G m, set_calls F (set_calls G m) = set_calls (fun d => F (G d)) m.

Lemma alter_present (f : bucket -> bucket) (k : pyval) (b : bucket)
    (d : gmap pyval bucket) :
  d !! k = Some b -> alter f k d = <[k := f b]> d.
Proof.
  intros Hb. apply map_eq. intros j. destruct (decide (j = k)) as [->|Hne].
  - rewrite lookup_alter_eq, lookup_insert_eq, Hb. reflexivity.
  - rewrite lookup_alter_ne, lookup_insert_ne by congruence. reflexivity.
Qed.

Lemma setdefault_bucket (k : pyval) (d : gmap pyval bucket) :
  let d1 := match d !! k with Some _ => d | None => <[k := new_bucket]> d end in
  d1 !! k = Some (bucket_of d k)
  /\ forall b, <[k := b]> d1 = <[k := b]> d.
Proof.
  cbv zeta. unfold bucket_of. destruct (d !! k) as [b0|] eqn:Hk.
  - split; [exact Hk|reflexivity].
  - split; [apply lookup_insert_eq|]. intros b. apply insert_insert_eq.
Qed.

(** The bucket of the row gets the call; [bucket_metrics] is the stored
    dictionary itself, so the four updates land in one entry. *)
Lemma update_bucket_calls_effect field item m :
  readable_duration item = true ->
  string_or_absent item "Answered" = true ->
  string_or_absent item "Call outcome reason" = true ->
  exists F,
    update_bucket_calls field calls set_calls item m = (Ok tt, set_calls F m)
    /\ forall d,
         F d = <[dict_get item field (PStr (str "Unknown")) :=
                   add_call (is_answered item) (is_voicemail item)
                     (duration_value item)
                     (bucket_of d (dict_get item field (PStr (str "Unknown"))))]>
                 d.
Proof.
  intros Hd Ha Hv.
  unfold update_bucket_calls, bind, modify, lift_res, ret.
  rewrite (lower_equals_field item "Answered" "true") by discriminate.
  rewrite Ha. rewrite duration_of_readable, Hd.
  rewrite (lower_equals_field item "Call outcome reason" "voicemail")
    by discriminate.
  rewrite Hv. fold (is_answered item). fold (is_voicemail item).
  set (k := dict_get item field (PStr (str "Unknown"))).
  assert (Hfinal : forall d (b : bucket),
             b = add_call (is_answered item) (is_voicemail item)
                   (duration_value item) (bucket_of d k) ->
             forall d2, d2 !! k = Some b ->
             (forall j, j <> k ->
                d2 !! j = (match d !! k with
                           | Some _ => d
                           | None => <[k := new_bucket]> d
                           end) !! j) ->
             d2 = <[k := b]> d).
  { intros d b _ d2 Hk Hother. apply map_eq. intros j.
    destruct (decide (j = k)) as [->|Hne].
    - rewrite lookup_insert_eq. exact Hk.
    - rewrite lookup_insert_ne by congruence. rewrite (Hother j Hne).
      destruct (d !! k); [reflexivity|].
      rewrite lookup_insert_ne by congruence. reflexivity. }
  destruct (is_answered item) eqn:Hans.
  - rewrite !set_set. eexists. split; [reflexivity|]. intros d. cbv beta.
    pose proof (setdefault_bucket k d) as [Hk _]. cbv zeta in Hk.
    apply Hfinal.
    + reflexivity.
    + rewrite !lookup_alter_eq, Hk. cbn.
      unfold add_call, bk_add_total_duration, bk_add_connected_calls,
        bk_add_voicemail_calls, bk_add_total_calls. cbn.
      f_equal. f_equal; lia.
    + intros j Hne. rewrite !lookup_alter_ne by congruence. reflexivity.
  - destruct (is_voicemail item) eqn:Hvm.
    + rewrite !set_set. eexists. split; [reflexivity|]. intros d. cbv beta.
      pose proof (setdefault_bucket k d) as [Hk _]. cbv zeta in Hk.
      apply Hfinal.
      * reflexivity.
      * rewrite !lookup_alter_eq, Hk. cbn.
        unfold add_call, bk_add_total_duration, bk_add_connected_calls,
          bk_add_voicemail_calls, bk_add_total_calls. cbn.
        f_equal. f_equal; lia.
      * intros j Hne. rewrite !lookup_alter_ne by congruence. reflexivity.
    + rewrite !set_set. eexists. split; [reflexivity|]. intros d. cbv beta.
      pose proof (setdefault_bucket k d) as [Hk _]. cbv zeta in Hk.
      apply Hfinal.
      * reflexivity.
      * rewrite !lookup_alter_eq, Hk. cbn.
        unfold add_call, bk_add_total_duration, bk_add_connected_calls,
          bk_add_voicemail_calls, bk_add_total_calls. cbn.
        f_equal. f_equal; lia.
      * intros j Hne. rewrite !lookup_alter_ne by congruence. reflexivity.
Qed.

End BucketEffect.

Lemma update_department_calls_effect item m :
  readable_duration item = true ->
  string_or_absent item "Answered" = true ->
  string_or_absent item "Call outcome reason" = true ->
  update_department_calls item m
  = (Ok tt,
     set_department_calls
       (fun d =>
          <[dict_get item "Department ID" (PStr (str "Unknown")) :=
              add_call (is_answered item) (is_voicemail item)
                (duration_value item)
                (bucket_of d (dict_get item "Department ID"
                                (PStr (str "Unknown"))))]> d) m).
Proof.
  intros Hd Ha Hv.
  destruct (update_bucket_calls_effect department_calls set_department_calls
              (fun F G m => eq_refl) "Department ID" item m Hd Ha Hv)
    as (F & Hrun & HF).
  unfold update_department_calls. rewrite Hrun. f_equal.
  unfold set_department_calls. rewrite HF. reflexivity.
Qed.

Lemma update_user_calls_effect item m :
  readable_duration item = true ->
  string_or_absent item "Answered" = true ->
  string_or_absent item "Call outcome reason" = true ->
  update_user_calls item m
  = (Ok tt,
     set_user_calls
       (fun d =>
          <[dict_get item "User" (PStr (str "Unknown")) :=
              add_call (is_answered item) (is_voicemail item)
                (duration_value item)
                (bucket_of d (dict_get item "User" (PStr (str "Unknown"))))]> d)
       m).
Proof.
  intros Hd Ha Hv.
  destruct (update_bucket_calls_effect user_calls set_user_calls
              (fun F G m => eq_refl) "User" item m Hd Ha Hv)
    as (F & Hrun & HF).
  unfold update_user_calls. rewrite Hrun. f_equal.
  unfold set_user_calls. rewrite HF. reflexivity.
Qed.

Lemma response_sample_short item :
  match response_sample item with
  | [] => True
  | [_] => True
  | _ :: _ :: _ => False
  end.
Proof.
  unfold response_sample.
  destruct (timestamp item "Answer time"); [|exact I].
  destruct (timestamp item "Start time"); [|exact I].
  destruct (datetime_sub _ _); exact I.
Qed.

(** What [process_call_record] does with a row, by what the row holds. *)
Lemma process_call_record_run item m :
  process_call_record item m
  = if ingestible item then (Ok tt, ingested item m)
    else (Raise (if negb (readable_duration item)
                 then match item !! str "Duration" with
                      | Some PNone => AttributeError
                      | _ => ValueError
                      end
                 else if negb (string_or_absent item "Answered"
                               && string_or_absent item "Call outcome reason")
                 then AttributeError
                 else TypeError),
          if readable_duration item
          then (let m0 := add_total_calls 1
                            (add_total_duration (duration_value item) m) in
                if string_or_absent item "Answered"
                   && string_or_absent item "Call outcome reason"
                then if is_answered item then add_connected_calls 1 m0
                     else if is_voicemail item then add_voicemail_calls 1 m0
                          else m0
                else m0)
          else m).
Proof.
  rewrite process_call_record_unfold, duration_of_readable.
  unfold ingestible.
  destruct (readable_duration item) eqn:Hd; cbn [andb negb]; [|reflexivity].
  cbv zeta.
  rewrite (lower_equals_field item "Answered" "true") by discriminate.
  destruct (string_or_absent item "Answered") eqn:Ha; cbn [andb negb];
    [|reflexivity].
  pose proof (py_lower_field item "Call outcome reason" "voicemail") as Hr.
  destruct (py_lower (dict_get item "Call outcome reason" (PStr [])))
    as [r|e].
  2:{ destruct Hr as [Hr He]; [discriminate|]. rewrite Hr. subst e.
      reflexivity. }
  destruct Hr as [Hv Hvm]; [discriminate|]. rewrite Hv. cbn [negb].
  fold (is_voicemail item) in Hvm. rewrite Hvm.
  fold (is_answered item).
  unfold after_classification, bind. cbn [andb].
  set (m1 := if is_answered item then _ else _).
  pose proof (response_step item m1) as Hstep. cbv zeta in Hstep.
  rewrite Hstep. clear Hstep.
  destruct (comparable_timestamps item) eqn:Hc; [|reflexivity].
  unfold modify at 1.
  rewrite (update_department_calls_effect item _ Hd Ha Hv).
  rewrite (update_user_calls_effect item _ Hd Ha Hv).
  f_equal. pose proof (response_sample_short item) as Hshort.
  unfold ingested. cbv zeta. subst m1.
  destruct (is_answered item), (is_voicemail item),
    (response_sample item) as [|t [|t' l]];
    try contradiction;
    apply metrics_eq; cbn; try reflexivity; try lia;
    try (rewrite app_nil_r; reflexivity).
Qed.

Lemma process_call_record_ingestible item m :
  ingestible item = true -> process_call_record item m = (Ok tt, ingested item m).
Proof. intros H. rewrite process_call_record_run, H. reflexivity. Qed.

Lemma process_rows_ingestible cdr_data :
  forall m,
    forallb ingestible cdr_data = true ->
    process_rows cdr_data m
    = (Ok tt, fold_left (fun m item => ingested item m) cdr_data m).
Proof.
  induction cdr_data as [|item rest IH]; intros m Hall; [reflexivity|].
  cbn [forallb] in Hall. apply andb_prop in Hall as [Hi Hrest].
  cbn [process_rows fold_left]. unfold bind.
  rewrite (process_call_record_ingestible item m Hi). apply IH. exact Hrest.
Qed.

Lemma process_rows_app pre rest m :
  process_rows (pre ++ rest) m
  = match process_rows pre m with
    | (Ok _, m1) => process_rows rest m1
    | (Raise e, m1) => (Raise e, m1)
    end.
Proof.
  revert m. induction pre as [|item pre IH]; intros m; [reflexivity|].
  cbn [app process_rows]. unfold bind.
  destruct (process_call_record item m) as [[[]|e] m1]; [apply IH|reflexivity].
Qed.

End IngestionFacts.

Section IngestionProperties.
Context `{RT : PyRuntime}.

(** What a row that raises leaves behind. *)
Lemma process_call_record_raises item m :
  ingestible item = false ->
  exists e m1,
    process_call_record item m = (Raise e, m1)
    /\ (e = ValueError \/ e = AttributeError \/ e = TypeError)
    /\ response_times m1 = response_times m
    /\ call_outcomes m1 = call_outcomes m
    /\ department_calls m1 = department_calls m
    /\ user_calls m1 = user_calls m
    /\ (if readable_duration item
        then total_calls m1 = total_calls m + 1
             /\ total_duration m1 = total_duration m + duration_value item
             /\ connected_calls m <= connected_calls m1 <= connected_calls m + 1
             /\ voicemail_calls m <= voicemail_calls m1 <= voicemail_calls m + 1
        else m1 = m).
Proof.
  intros Hno. rewrite process_call_record_run, Hno.
  eexists. eexists. split; [reflexivity|].
  split.
  { destruct (readable_duration item); cbn [negb].
    - destruct (string_or_absent item "Answered"
                && string_or_absent item "Call outcome reason"); cbn [negb]; auto.
    - destruct (item !! str "Duration") as [[s|]|]; auto. }
  destruct (readable_duration item); [|repeat split; reflexivity].
  cbv zeta.
  destruct (string_or_absent item "Answered"
            && string_or_absent item "Call outcome reason");
    [destruct (is_answered item); [|destruct (is_voicemail item)]|];
    cbn; repeat split; try reflexivity; lia.
Qed.

(** X1: the duration expression of lines 108, 121 and 154 returns exactly
    when the field is absent, or is a string that [isdigit] refuses or that
    is all decimal characters within the interpreter's limit on digits; the
    value is then 0 or the number the string denotes, never negative.
    Otherwise it raises: [AttributeError] on a field that is [None],
    [ValueError] on every other string. *)
Theorem duration_by_cases (item : row) :
  (forall d,
      duration_of item = Ok d
      <-> readable_duration item = true /\ d = duration_value item)
  /\ 0 <= duration_value item
  /\ (forall e,
        duration_of item = Raise e
        <-> readable_duration item = false
            /\ e = match item !! str "Duration" with
                   | Some PNone => AttributeError
                   | _ => ValueError
                   end).
Proof.
  rewrite duration_of_readable.
  split; [|split; [apply duration_value_nonneg|]].
  - intros d. destruct (readable_duration item).
    + split; [intros [= <-]; auto|intros [_ ->]; reflexivity].
    + split; [discriminate|intros [H _]; discriminate].
  - intros e. destruct (readable_duration item).
    + split; [discriminate|intros [H _]; discriminate].
    + split; [intros [= <-]; auto|intros [_ ->]; reflexivity].
Qed.

(** X2: [process_call_record] returns exactly on the rows whose duration
    is readable, whose [Answered] and [Call outcome reason] are strings or
    absent, and whose two timestamps, when both are read, are both aware
    or both naive.  On every other row it raises [ValueError],
    [AttributeError] or [TypeError]; the row has then been counted in
    [total_calls] unless its duration was the cause, and in no bucket, under
    no outcome and with no response time. *)
Theorem row_returns_iff_ingestible (item : row) (m : metrics) :
  (fst (process_call_record item m) = Ok tt <-> ingestible item = true)
  /\ (forall e,
        fst (process_call_record item m) = Raise e ->
        let m1 := snd (process_call_record item m) in
        (e = ValueError \/ e = AttributeError \/ e = TypeError)
        /\ total_calls m1
           = total_calls m + (if readable_duration item then 1 else 0)
        /\ response_times m1 = response_times m
        /\ call_outcomes m1 = call_outcomes m
        /\ department_calls m1 = department_calls m
        /\ user_calls m1 = user_calls m).
Proof.
  destruct (ingestible item) eqn:Hi.
  - rewrite (process_call_record_ingestible item m Hi). cbn [fst].
    split; [split; reflexivity|]. intros e [=].
  - destruct (process_call_record_raises item m Hi)
      as (e & m1 & Hrun & He & Hrt & Hco & Hdc & Huc & Hcount).
    rewrite Hrun. cbn [fst snd]. split; [split; discriminate|].
    intros e' [= <-]. cbv zeta. repeat split; try assumption.
    destruct (readable_duration item).
    + destruct Hcount as [Ht _]. exact Ht.
    + subst m1. lia.
Qed.

(** X3: a row that is taken in lands in one bucket of [department_calls]
    and one of [user_calls]: the bucket under the row's [Department ID]
    (its [User]), or under 'Unknown' when the row has no such field.  That
    bucket, created when missing, gets one more call, the call's share of
    connected and voicemail calls and its duration; every other bucket is
    as before. *)
Theorem ingested_row_lands_in_its_buckets (item : row) (m m' : metrics) :
  process_call_record item m = (Ok tt, m') ->
  forall field (calls : metrics -> gmap pyval bucket),
    (field = "Department ID"%string /\ calls = department_calls)
    \/ (field = "User"%string /\ calls = user_calls) ->
    let k := dict_get item field (PStr (str "Unknown")) in
    calls m' !! k
    = Some (add_call (is_answered item) (is_voicemail item)
              (duration_value item) (bucket_of (calls m) k))
    /\ forall j, j <> k -> calls m' !! j = calls m !! j.
Proof.
  intros Hrun field calls Hwhich. cbv zeta.
  rewrite process_call_record_run in Hrun.
  destruct (ingestible item); [|discriminate].
  injection Hrun as <-.
  destruct Hwhich as [[-> ->]|[-> ->]]; unfold ingested;
    cbn [department_calls user_calls];
    (split; [apply lookup_insert_eq|]);
    intros j Hne; apply lookup_insert_ne; congruence.
Qed.

(** X4: a row that is taken in adds one to the count of its [Call
    outcome] ('Unknown' when the row has none) and leaves every other
    outcome as it was; it appends one response time, answer time minus
    start time, when both fields are non-empty strings that
    [fromisoformat] reads, and none otherwise. *)
Theorem ingested_row_outcome_and_response_time (item : row) (m m' : metrics) :
  process_call_record item m = (Ok tt, m') ->
  let outcome := dict_get item "Call outcome" (PStr (str "Unknown")) in
  call_outcomes m' !! outcome
  = Some (match call_outcomes m !! outcome with Some n => n | None => 0 end + 1)
  /\ (forall j, j <> outcome -> call_outcomes m' !! j = call_outcomes m !! j)
  /\ match timestamp item "Answer time", timestamp item "Start time" with
     | Some a, Some b =>
         exists t, datetime_sub a b = Ok t
                   /\ response_times m' = response_times m ++ [t]
     | _, _ => response_times m' = response_times m
     end.
Proof.
  intros Hrun. cbv zeta.
  rewrite process_call_record_run in Hrun.
  destruct (ingestible item) eqn:Hi; [|discriminate].
  injection Hrun as <-. unfold ingested.
  cbn [call_outcomes response_times].
  split; [apply lookup_insert_eq|].
  split; [intros j Hne; apply lookup_insert_ne; congruence|].
  unfold ingestible in Hi. apply andb_prop in Hi as [_ Hc].
  unfold comparable_timestamps in Hc. unfold response_sample.
  destruct (timestamp item "Answer time") as [a|]; [|apply app_nil_r].
  destruct (timestamp item "Start time") as [b|]; [|apply app_nil_r].
  rewrite datetime_sub_awareness, Hc. eexists. split; reflexivity.
Qed.

Lemma ingested_counters item m :
  total_calls (ingested item m) = total_calls m + 1
  /\ total_duration m <= total_duration (ingested item m)
  /\ connected_calls m <= connected_calls (ingested item m)
  /\ voicemail_calls m <= voicemail_calls (ingested item m)
  /\ exists new, response_times (ingested item m) = response_times m ++ new
                 /\ (length new <= 1)%nat.
Proof.
  unfold ingested. cbn. pose proof (duration_value_nonneg item).
  repeat split; try lia.
  - destruct (is_answered item); cbn; lia.
  - destruct (is_answered item), (is_voicemail item); cbn; lia.
  - exists (response_sample item). split; [reflexivity|].
    pose proof (response_sample_short item) as Hs.
    destruct (response_sample item) as [|t [|t' l]]; cbn; lia.
Qed.

Lemma process_call_record_grows item m :
  let m' := snd (process_call_record item m) in
  total_calls m <= total_calls m' <= total_calls m + 1
  /\ total_duration m <= total_duration m'
  /\ connected_calls m <= connected_calls m'
  /\ voicemail_calls m <= voicemail_calls m'
  /\ exists new, response_times m' = response_times m ++ new
                 /\ (length new <= 1)%nat.
Proof.
  cbv zeta. destruct (ingestible item) eqn:Hi.
  - rewrite (process_call_record_ingestible item m Hi). cbn [snd].
    destruct (ingested_counters item m) as (Ht & Hd & Hc & Hv & Hr).
    repeat split; try lia. exact Hr.
  - destruct (process_call_record_raises item m Hi)
      as (e & m1 & Hrun & _ & Hrt & _ & _ & _ & Hcount).
    rewrite Hrun. cbn [snd].
    assert (Hnew : exists new, response_times m1 = response_times m ++ new
                               /\ (length new <= 1)%nat).
    { exists []. rewrite app_nil_r. split; [exact Hrt|cbn; lia]. }
    pose proof (duration_value_nonneg item).
    destruct (readable_duration item).
    + destruct Hcount as (Ht & Hd & Hc & Hv). repeat split; try lia. exact Hnew.
    + subst m1. repeat split; try lia. exact Hnew.
Qed.

(** X5: a batch all of whose rows can be taken in is processed to the
    end: [process_all_cdr_records] returns without logging an error, every
    row is counted once in [total_calls], and the global counters still
    agree with the sums over the department buckets, over the user buckets
    and over the outcome counts when they did before. *)
Theorem ingestible_rows_are_all_counted (env : Env) (cdr_data : list row)
    (s : state) :
  forallb ingestible cdr_data = true ->
  exists s',
    process_all_cdr_records env cdr_data s = Some (Ok tt, s')
    /\ trace s' = trace s
    /\ total_calls (self_metrics s')
       = total_calls (self_metrics s) + Z.of_nat (length cdr_data)
    /\ (consistent (self_metrics s) -> consistent (self_metrics s'))
    /\ (outcomes_agree (self_metrics s) -> outcomes_agree (self_metrics s')).
Proof.
  intros Hall.
  pose proof (process_rows_ingestible cdr_data (self_metrics s) Hall) as Hrun.
  destruct (process_all_cdr_records_spec env cdr_data s)
    as (r & s' & Hp & Hm & Hr).
  rewrite Hrun in Hm, Hr. cbn [fst snd] in Hm, Hr. destruct Hr as [-> Htr].
  exists s'. split; [exact Hp|]. split; [exact Htr|].
  rewrite Hm.
  destruct (process_rows_ok cdr_data (self_metrics s) _ Hrun) as (Ht & Hc & Ho).
  auto.
Qed.

(** X6: the loop of [process_all_cdr_records] ends at the first row that
    cannot be taken in: the rows after it are never looked at, whatever
    they hold, and [total_calls] has grown by the number of rows before it,
    plus one when the row got past its duration. *)
Theorem batch_stops_at_first_raising_row (pre : list row) (bad : row)
    (rest : list row) (m : metrics) :
  forallb ingestible pre = true ->
  ingestible bad = false ->
  process_rows (pre ++ bad :: rest) m = process_rows (pre ++ [bad]) m
  /\ (exists e, fst (process_rows (pre ++ bad :: rest) m) = Raise e)
  /\ total_calls (snd (process_rows (pre ++ bad :: rest) m))
     = total_calls m + Z.of_nat (length pre)
       + (if readable_duration bad then 1 else 0).
Proof.
  intros Hpre Hbad.
  rewrite !process_rows_app.
  pose proof (process_rows_ingestible pre m Hpre) as Hrun.
  destruct (process_rows_ok pre m _ Hrun) as (Ht & _ & _).
  rewrite Hrun. cbn [process_rows]. unfold bind.
  destruct (process_call_record_raises bad
              (fold_left (fun m item => ingested item m) pre m) Hbad)
    as (e & m1 & Hb & _ & _ & _ & _ & _ & Hcount).
  rewrite Hb. cbn [fst snd]. split; [reflexivity|].
  split; [exists e; reflexivity|].
  destruct (readable_duration bad).
  - destruct Hcount as [Hc _]. lia.
  - subst m1. lia.
Qed.

(** X7: whatever the rows hold and whether or not the loop raises, the
    four global counters never decrease, [total_calls] grows by the number
    of rows at most, and the response times already recorded stay where
    they are: at most one is appended per row. *)
Theorem counters_never_decrease (cdr_data : list row) (m : metrics) :
  let m' := snd (process_rows cdr_data m) in
  total_calls m <= total_calls m' <= total_calls m + Z.of_nat (length cdr_data)
  /\ total_duration m <= total_duration m'
  /\ connected_calls m <= connected_calls m'
  /\ voicemail_calls m <= voicemail_calls m'
  /\ exists new,
       response_times m' = response_times m ++ new
       /\ (length new <= length cdr_data)%nat.
Proof.
  cbv zeta. revert m.
  induction cdr_data as [|item rest IH]; intros m.
  - cbn. repeat split; try lia. exists []. rewrite app_nil_r.
    split; [reflexivity|cbn; lia].
  - cbn [process_rows]. unfold bind.
    pose proof (process_call_record_grows item m) as Hg. cbv zeta in Hg.
    destruct (process_call_record item m) as [[[]|e] m1]; cbn [snd] in *.
    + destruct Hg as (Ht & Hd & Hc & Hv & new1 & Hr1 & Hl1).
      destruct (IH m1) as (Ht' & Hd' & Hc' & Hv' & new2 & Hr2 & Hl2).
      cbn [length]. repeat split; try lia.
      exists (new1 ++ new2). rewrite Hr2, Hr1, <- app_assoc.
      split; [reflexivity|]. rewrite length_app. lia.
    + destruct Hg as (Ht & Hd & Hc & Hv & new1 & Hr1 & Hl1).
      cbn [length]. repeat split; try lia.
      exists new1. split; [exact Hr1|lia].
Qed.

End IngestionProperties.

(** ** The exported tables *)

Lemma column_sum_buckets (f : bucket -> Z) (column : pyval * Z * Z * Z * Z -> Z)
    (calls : gmap pyval bucket) :
  (forall k b,
      column (k, bk_total_calls b, bk_connected_calls b, bk_voicemail_calls b,
              bk_total_duration b) = f b) ->
  column_sum column (transform_calls_to_list calls) = sum_buckets f calls.
Proof.
  intros Hcol. unfold sum_buckets, transform_calls_to_list, column_sum.
  rewrite map_fold_foldr.
  induction (map_to_list calls) as [|[k b] l IH]; [reflexivity|].
  cbn [List.map fold_right foldr]. rewrite IH. cbn [fst snd uncurry].
  unfold add_entry at 2. rewrite Hcol. reflexivity.
Qed.

(** X8: the table that [transform_department_calls_to_list] and
    [transform_user_calls_to_list] build has one record per bucket and no
    other: no key comes twice, and a record is in the table exactly when
    its values are those of the bucket under its key. *)
Theorem table_lists_each_bucket_once (calls : gmap pyval bucket) :
  NoDup (List.map record_key (transform_calls_to_list calls))
  /\ length (transform_calls_to_list calls) = size calls
  /\ forall k t c v d,
       In (k, t, c, v, d) (transform_calls_to_list calls)
       <-> exists b,
             calls !! k = Some b
             /\ t = bk_total_calls b /\ c = bk_connected_calls b
             /\ v = bk_voicemail_calls b /\ d = bk_total_duration b.
Proof.
  unfold transform_calls_to_list. split; [|split].
  - rewrite List.map_map. cbn [record_key fst].
    pose proof (NoDup_fst_map_to_list calls) as Hnd.
    unfold fmap, list_fmap in Hnd. exact Hnd.
  - rewrite List.length_map. apply length_map_to_list.
  - intros k t c v d. rewrite List.in_map_iff. split.
    + intros ([k' b] & Heq & Hin). cbn [fst snd] in Heq.
      injection Heq as -> <- <- <- <-.
      exists b. apply list_elem_of_In in Hin.
      apply elem_of_map_to_list in Hin. auto.
    + intros (b & Hk & -> & -> & -> & ->). exists (k, b).
      split; [reflexivity|]. apply list_elem_of_In.
      apply elem_of_map_to_list. exact Hk.
Qed.

(** X9: after a batch all of whose rows could be taken in, started on
    the metrics of [__init__], the columns of both exported tables add up
    to the global counters: TotalCalls to the number of rows, and
    ConnectedCalls, VoicemailCalls and TotalDuration to [connected_calls],
    [voicemail_calls] and [total_duration]. *)
Theorem table_totals_match_counters `{RT : PyRuntime} (cdr_data : list row) :
  forallb ingestible cdr_data = true ->
  let m' := snd (process_rows cdr_data initial_metrics) in
  forall table,
    table = transform_calls_to_list (department_calls m')
    \/ table = transform_calls_to_list (user_calls m') ->
    column_sum TotalCalls table = Z.of_nat (length cdr_data)
    /\ column_sum ConnectedCalls table = connected_calls m'
    /\ column_sum VoicemailCalls table = voicemail_calls m'
    /\ column_sum TotalDuration table = total_duration m'.
Proof.
  intros Hall. cbv zeta. intros table Htable.
  pose proof (process_rows_ingestible cdr_data initial_metrics Hall) as Hrun.
  destruct (process_rows_ok cdr_data initial_metrics _ Hrun) as (Ht & Hc & _).
  rewrite Hrun. rewrite Hrun in Htable. cbn [snd] in Htable |- *.
  destruct (Hc (proj1 initial_metrics_consistent)) as [Hdep Husr].
  cbn in Ht.
  destruct Htable as [-> | ->].
  - destruct Hdep as (H1 & H2 & H3 & H4).
    rewrite (column_sum_buckets bk_total_calls TotalCalls) by reflexivity.
    rewrite (column_sum_buckets bk_connected_calls ConnectedCalls) by reflexivity.
    rewrite (column_sum_buckets bk_voicemail_calls VoicemailCalls) by reflexivity.
    rewrite (column_sum_buckets bk_total_duration TotalDuration) by reflexivity.
    rewrite <- H1, <- H2, <- H3, <- H4. repeat split; lia.
  - destruct Husr as (H1 & H2 & H3 & H4).
    rewrite (column_sum_buckets bk_total_calls TotalCalls) by reflexivity.
    rewrite (column_sum_buckets bk_connected_calls ConnectedCalls) by reflexivity.
    rewrite (column_sum_buckets bk_voicemail_calls VoicemailCalls) by reflexivity.
    rewrite (column_sum_buckets bk_total_duration TotalDuration) by reflexivity.
    rewrite <- H1, <- H2, <- H3, <- H4. repeat split; lia.
Qed.

(** ** Comparison up to case *)

Lemma lower_char_cases c :
  ((65 <= c <= 90)%N /\ lower_char c = [(c + 32)%N])
  \/ (c = 0x130%N /\ lower_char c = [0x69; 0x307]%N)
  \/ (c = 0x212a%N /\ lower_char c = [0x6b]%N)
  \/ (~ (65 <= c <= 90)%N /\ c <> 0x130%N /\ c <> 0x212a%N
      /\ lower_char c = [c]).
Proof.
  unfold lower_char.
  destruct ((65 <=? c) && (c <=? 90))%N eqn:Hup.
  - left. apply andb_prop in Hup as [H1 H2].
    apply N.leb_le in H1. apply N.leb_le in H2. auto.
  - right. destruct (c =? 0x130)%N eqn:H130.
    + left. apply N.eqb_eq in H130. auto.
    + right. destruct (c =? 0x212a)%N eqn:HK.
      * left. apply N.eqb_eq in HK. auto.
      * right. apply N.eqb_neq in H130. apply N.eqb_neq in HK.
        repeat split; auto. intros [H1 H2].
        apply N.leb_le in H1. apply N.leb_le in H2.
        rewrite H1, H2 in Hup. discriminate.
Qed.

Lemma plain_letter_range l :
  plain_letter l = true -> (97 <= l <= 122)%N /\ l <> 107%N.
Proof.
  unfold plain_letter. intros H.
  apply andb_prop in H as [H Hk]. apply andb_prop in H as [H1 H2].
  apply N.leb_le in H1. apply N.leb_le in H2.
  apply negb_true_iff in Hk. apply N.eqb_neq in Hk. auto.
Qed.

Lemma same_letter_plain l c :
  (97 <= l <= 122)%N ->
  same_letter l c = true <-> c = l \/ (c + 32)%N = l.
Proof.
  intros [H1 H2]. unfold same_letter.
  rewrite orb_true_iff, !andb_true_iff, !N.leb_le, !N.eqb_eq. tauto.
Qed.

Lemma lower_spells lit :
  forallb plain_letter lit = true ->
  forall s, lower s = lit <-> spells lit s = true.
Proof.
  induction lit as [|l lit IH]; intros Hlit s.
  - destruct s as [|c s]; [split; reflexivity|].
    cbn [spells]. unfold lower. cbn [List.map concat].
    destruct (lower_char_cases c) as [[_ ->]|[[_ ->]|[[_ ->]|(_ & _ & _ & ->)]]];
      split; discriminate.
  - cbn [forallb] in Hlit. apply andb_prop in Hlit as [Hl Hrest].
    apply plain_letter_range in Hl as [Hrange Hk].
    destruct s as [|c s]; [split; discriminate|].
    cbn [spells]. rewrite andb_true_iff, (same_letter_plain l c Hrange).
    rewrite <- (IH Hrest s).
    change (lower (c :: s)) with (lower_char c ++ lower s).
    destruct (lower_char_cases c)
      as [[Hc ->]|[[Hc ->]|[[Hc ->]|(Hc1 & Hc2 & Hc3 & ->)]]]; cbn [app].
    + split.
      * intros [= H1 H2]. split; [right; exact H1|exact H2].
      * intros [[H1|H1] H2]; [lia|]. rewrite H1, H2. reflexivity.
    + split.
      * intros [= H1 H2]. destruct lit as [|l' lit']; [discriminate|].
        injection H2 as H2 _. cbn [forallb] in Hrest.
        apply andb_prop in Hrest as [Hl' _].
        apply plain_letter_range in Hl' as [Hr' _]. lia.
      * intros [[H1|H1] _]; lia.
    + split.
      * intros [= H1 _]. lia.
      * intros [[H1|H1] _]; lia.
    + split.
      * intros [= H1 H2]. split; [left; exact H1|exact H2].
      * intros [[H1|H1] H2]; [rewrite H1, H2; reflexivity|lia].
Qed.

(** X10: the comparisons [.lower() == 'true'] and
    [.lower() == 'voicemail'] hold for the spellings of the word in upper
    and lower case ASCII letters and for nothing else: no surrounding
    white space, and no other character whose lower case is a letter of
    the word. *)
Theorem lower_equals_ascii_spellings (lit : string) (s : pystr) :
  forallb plain_letter (str lit) = true ->
  lower_equals (PStr s) lit = Ok (spells (str lit) s).
Proof.
  intros Hlit. unfold lower_equals, py_lower. f_equal.
  pose proof (lower_spells (str lit) Hlit s) as Hiff.
  destruct (spells (str lit) s).
  - apply bool_decide_eq_true. apply Hiff. reflexivity.
  - apply bool_decide_eq_false. intros H. apply Hiff in H. discriminate.
Qed.

(** ** The properties above on sample rows *)

Lemma ingested_row_lands_in_its_buckets_witness :
  let m' := snd (process_call_record (RT := reference_runtime) row_plain
                   initial_metrics) in
  let k := dict_get row_plain "Department ID" (PStr (str "Unknown")) in
  department_calls m' !! k
  = Some (add_call (is_answered row_plain) (is_voicemail row_plain)
            (duration_value row_plain)
            (bucket_of (department_calls initial_metrics) k))
  /\ forall j, j <> k ->
       department_calls m' !! j = department_calls initial_metrics !! j.
Proof.
  intros m'.
  apply (ingested_row_lands_in_its_buckets (RT := reference_runtime)
           row_plain initial_metrics m' eq_refl "Department ID"
           department_calls (or_introl (conj eq_refl eq_refl))).
Defined.

Lemma ingested_row_outcome_and_response_time_witness :
  let m' := snd (process_call_record (RT := reference_runtime) row_timed
                   initial_metrics) in
  call_outcomes m' !! PStr (str "Success") = Some 1
  /\ exists t, t = 5 * second /\ response_times m' = [t].
Proof.
  intros m'.
  destruct (ingested_row_outcome_and_response_time (RT := reference_runtime)
              row_timed initial_metrics m' eq_refl) as (Ho & _ & Hr).
  split; [exact Ho|].
  destruct Hr as (t & Ht & Hr). exists t. split; [|exact Hr].
  injection Ht as <-. reflexivity.
Defined.

Lemma ingestible_rows_are_all_counted_witness :
  exists s',
    process_all_cdr_records (RT := reference_runtime) refusing_env
      [row_plain; row_voicemail; row_timed] fresh_state = Some (Ok tt, s')
    /\ trace s' = trace fresh_state
    /\ total_calls (self_metrics s') = 3.
Proof.
  destruct (ingestible_rows_are_all_counted (RT := reference_runtime)
              refusing_env [row_plain; row_voicemail; row_timed] fresh_state
              eq_refl) as (s' & Hrun & Htr & Ht & _).
  exists s'. split; [exact Hrun|]. split; [exact Htr|exact Ht].
Defined.

Lemma batch_stops_at_first_raising_row_witness :
  process_rows (RT := reference_runtime)
    ([row_plain] ++ row_mixed_zones :: [row_voicemail; row_timed])
    initial_metrics
  = process_rows (RT := reference_runtime) ([row_plain] ++ [row_mixed_zones])
      initial_metrics
  /\ total_calls
       (snd (process_rows (RT := reference_runtime)
               ([row_plain] ++ row_mixed_zones :: [row_voicemail; row_timed])
               initial_metrics)) = 2.
Proof.
  destruct (batch_stops_at_first_raising_row (RT := reference_runtime)
              [row_plain] row_mixed_zones [row_voicemail; row_timed]
              initial_metrics eq_refl eq_refl) as (Hsame & _ & Ht).
  split; [exact Hsame|exact Ht].
Defined.

Lemma table_totals_match_counters_witness :
  let m' := snd (process_rows (RT := reference_runtime)
                   [row_plain; row_voicemail] initial_metrics) in
  column_sum TotalCalls (transform_calls_to_list (department_calls m')) = 2
  /\ column_sum TotalDuration (transform_calls_to_list (department_calls m'))
     = total_duration m'.
Proof.
  intros m'.
  destruct (table_totals_match_counters (RT := reference_runtime)
              [row_plain; row_voicemail] eq_refl
              (transform_calls_to_list (department_calls m'))
              (or_introl eq_refl)) as (Ht & _ & _ & Hd).
  split; [exact Ht|exact Hd].
Defined.

Lemma lower_equals_ascii_spellings_witness :
  lower_equals (PStr (str "VoiceMail")) "voicemail"
  = Ok (spells (str "voicemail") (str "VoiceMail")).
Proof.
  apply (lower_equals_ascii_spellings "voicemail" (str "VoiceMail") eq_refl).
Defined.

(** ** What the statements of the processor add to the history *)

Lemma count_events_cons p t e h :
  count_events p ((t, e) :: h) = (Nat.b2n (p e) + count_events p h)%nat.
Proof. unfold count_events. cbn. destruct (p e); reflexivity. Qed.

Lemma count_events_app p h1 h2 :
  count_events p (h1 ++ h2) = (count_events p h1 + count_events p h2)%nat.
Proof. unfold count_events. rewrite List.filter_app, length_app. reflexivity. Qed.

Lemma wbind_inv {A B} (c : W A) (k : A -> W B) s r s' :
  wbind c k s = Some (r, s') ->
  (exists a s1, c s = Some (Ok a, s1) /\ k a s1 = Some (r, s'))
  \/ (exists e, c s = Some (Raise e, s') /\ r = Raise e).
Proof.
  unfold wbind. destruct (c s) as [[[a|e] s1]|]; [| |discriminate].
  - intros H. left. eauto.
  - intros [= <- <-]. right. eauto.
Qed.

Section Emits.
Variable env : Env.
Variable p : event -> bool.

Lemma emits_mono {A} (n n' : nat) (c : W A) :
  emits p n c -> (n <= n')%nat -> emits p n' c.
Proof.
  intros Hc Hle s r s' H. destruct (Hc s r s' H) as (new & T & C).
  exists new. split; [exact T|lia].
Qed.

Lemma emits_wret {A} (a : A) : emits p 0 (wret a).
Proof. intros s r s' [= <- <-]. exists []. split; reflexivity. Qed.

Lemma emits_wraise {A} e : emits p 0 (@wraise A e).
Proof. intros s r s' [= <- <-]. exists []. split; reflexivity. Qed.

Lemma emits_wgets {A} (f : state -> A) : emits p 0 (wgets f).
Proof. intros s r s' [= <- <-]. exists []. split; reflexivity. Qed.

Lemma emits_out_of_fuel {A} : emits p 0 (@out_of_fuel A).
Proof. intros s r s' [=]. Qed.

Lemma emits_on_metrics {A} (c : M metrics A) : emits p 0 (on_metrics c).
Proof.
  intros s r s' H. unfold on_metrics in H.
  destruct (c (self_metrics s)) as [r0 m]. injection H as <- <-.
  exists []. split; reflexivity.
Qed.

Lemma emits_wbind {A B} (n1 n2 : nat) (c : W A) (k : A -> W B) :
  emits p n1 c -> (forall a, emits p n2 (k a)) -> emits p (n1 + n2) (wbind c k).
Proof.
  intros Hc Hk s r s' H.
  destruct (wbind_inv c k s r s' H) as [(a & s1 & Hcs & Hks)|(e & Hcs & ->)].
  - destruct (Hc _ _ _ Hcs) as (new1 & T1 & C1).
    destruct (Hk a _ _ _ Hks) as (new2 & T2 & C2).
    exists (new2 ++ new1). rewrite T2, T1, app_assoc.
    split; [reflexivity|]. rewrite count_events_app. lia.
  - destruct (Hc _ _ _ Hcs) as (new & T & C). exists new. split; [exact T|lia].
Qed.

Lemma emits_wtry {A} (n1 n2 : nat) (c : W A) catches handler :
  emits p n1 c -> (forall e, emits p n2 (handler e)) ->
  emits p (n1 + n2) (wtry c catches handler).
Proof.
  intros Hc Hh s r s' H. unfold wtry in H.
  destruct (c s) as [[[a|e] s1]|] eqn:Hcs; [| |discriminate].
  - injection H as <- <-. destruct (Hc _ _ _ Hcs) as (new & T & C).
    exists new. split; [exact T|lia].
  - destruct (Hc _ _ _ Hcs) as (new1 & T1 & C1).
    destruct (catches e).
    + destruct (Hh e _ _ _ H) as (new2 & T2 & C2).
      exists (new2 ++ new1). rewrite T2, T1, app_assoc.
      split; [reflexivity|]. rewrite count_events_app. lia.
    + injection H as <- <-. exists new1. split; [exact T1|lia].
Qed.

Lemma emits_perform {A} ev duration (reply : history -> res A) :
  emits p (Nat.b2n (p ev)) (perform env ev duration reply).
Proof.
  intros s r s' H. unfold perform in H. injection H as <- <-.
  exists [(clock s, ev)]. split; [reflexivity|].
  rewrite count_events_cons. cbn. lia.
Qed.

Lemma emits_time_time : emits p (Nat.b2n (p EvTime)) (time_time env).
Proof.
  intros s r s' H. unfold time_time in H.
  exact (emits_perform EvTime 0 (fun _ => Ok (clock s)) s r s' H).
Qed.

Hypothesis silent_logs : forall m, p (EvLog m) = false.

Lemma emits_log msg : emits p 0 (log env msg).
Proof.
  unfold log. pose proof (emits_perform (EvLog msg) 0 (fun _ => Ok tt)) as H.
  rewrite silent_logs in H. exact H.
Qed.

Lemma emits_delete_report report_id :
  emits p (Nat.b2n (p (EvDelete report_id))) (delete_report env report_id).
Proof.
  unfold delete_report.
  eapply emits_mono.
  - eapply emits_wbind; [apply emits_perform|]. intros status_code.
    eapply emits_wbind; [apply emits_log|]. intros _.
    destruct (status_code =? 204);
      (eapply (emits_wbind 0 0); [apply emits_log|intros _; apply emits_wret]).
  - lia.
Qed.

Lemma emits_write_to_csv data :
  emits p (Nat.b2n (p (EvWriteCsv data))) (write_to_csv env data).
Proof.
  unfold write_to_csv.
  eapply emits_mono.
  - eapply (emits_wtry _ 0).
    + destruct data as [|item rest].
      * eapply emits_mono; [apply emits_wraise|]. apply Nat.le_0_l.
      * eapply emits_mono.
        -- eapply emits_wbind; [apply emits_perform|].
           intros _. apply emits_log.
        -- rewrite Nat.add_0_r. apply Nat.le_refl.
    + intros e. destruct (is_ValueError e); apply emits_log.
  - lia.
Qed.

Lemma emits_process_all_cdr_records `{RT : PyRuntime} cdr_data :
  emits p 0 (process_all_cdr_records env cdr_data).
Proof.
  unfold process_all_cdr_records.
  apply (emits_wtry 0 0); [apply emits_on_metrics|intros e; apply emits_log].
Qed.

Lemma emits_get_all_reports :
  emits p (Nat.b2n (p EvListReports)) (get_all_reports env).
Proof.
  unfold get_all_reports.
  eapply emits_mono.
  - eapply (emits_wtry _ 0).
    + eapply (emits_wbind 0); [apply emits_wgets|]. intros webex_ok.
      destruct webex_ok.
      * apply emits_perform.
      * eapply emits_mono; [apply emits_wraise|]. apply Nat.le_0_l.
    + intros e. apply (emits_wbind 0 0); [apply emits_log|].
      intros _. apply emits_wret.
  - lia.
Qed.

Lemma emits_len_reports existing_reports :
  emits p 0 (len_reports existing_reports).
Proof.
  destruct existing_reports; [apply emits_wret|apply emits_wraise].
Qed.

Lemma emits_create_report config num_days :
  emits p (Nat.b2n (p (creation_event config num_days)))
    (create_report env config num_days).
Proof.
  assert (Hrange :
            emits p (Nat.b2n (p (EvCdrReportRange (START_DATE config)
                                   (END_DATE config))))
              (wbind (log env LogRunningReport)
                 (fun _ => wbind (perform env
                              (EvCdrReportRange (START_DATE config)
                                 (END_DATE config)) 0 (cdr_report_reply env))
                             (fun report_id => wret (Some report_id))))).
  { eapply emits_mono.
    - eapply (emits_wbind 0); [apply emits_log|]. intros _.
      eapply (emits_wbind _ 0); [apply emits_perform|].
      intros report_id. apply emits_wret.
    - lia. }
  unfold create_report, creation_event.
  destruct num_days as [days|]; [|exact Hrange].
  destruct (days =? 0); [exact Hrange|].
  eapply emits_mono.
  - eapply (emits_wbind _ 0); [apply emits_perform|]. intros report_id.
    destruct (negb (truthy report_id)); apply emits_wret.
  - lia.
Qed.

Lemma emits_fetch_cdr_data_except e :
  emits p 0 (fetch_cdr_data_except env e).
Proof.
  unfold fetch_cdr_data_except.
  apply (emits_wbind 0 0); [apply emits_log|]. intros _.
  apply (emits_wbind 0 0); [|intros _; apply emits_wret].
  destruct (response_of e);
    [apply emits_wret|apply emits_wraise|apply emits_log].
Qed.

Section SilentDeletes.
Hypothesis silent_deletes : forall report_id, p (EvDelete report_id) = false.

Lemma emits_delete_report_silent report_id :
  emits p 0 (delete_report env report_id).
Proof.
  pose proof (emits_delete_report report_id) as H.
  rewrite silent_deletes in H. exact H.
Qed.

Lemma emits_delete_each existing_reports :
  emits p 0 (delete_each env existing_reports).
Proof.
  induction existing_reports as [|report rest IH]; cbn [delete_each].
  - apply emits_wret.
  - destruct (report !! str "Id") as [report_id|]; [|apply emits_wraise].
    apply (emits_wbind 0 0); [|intros _; exact IH].
    apply emits_delete_report_silent.
Qed.

(** The quota check lists the reports twice and prompts twice at most;
    besides it logs and deletes. *)
Lemma emits_handle_existing_reports :
  emits p (2 * Nat.b2n (p EvListReports) + 2 * Nat.b2n (p EvInput))
    (handle_existing_reports env).
Proof.
  unfold handle_existing_reports.
  eapply emits_mono.
  - eapply emits_wbind; [apply emits_get_all_reports|]. intros existing_reports.
    eapply (emits_wbind 0); [apply emits_len_reports|]. intros num.
    eapply (emits_wbind 0
              (2 * Nat.b2n (p EvInput) + Nat.b2n (p EvListReports)));
      [apply emits_log|]. intros _.
    destruct (num =? 50).
    + eapply emits_mono.
      * eapply (emits_wbind 0); [apply emits_log|]. intros _.
        eapply (emits_wbind 0); [apply emits_log|]. intros _.
        eapply emits_wbind; [apply emits_perform|]. intros answer.
        eapply (emits_wbind (Nat.b2n (p EvInput))).
        -- destruct (bool_decide (strip answer = str "1")).
           ++ eapply emits_mono.
              ** eapply emits_wbind; [apply emits_perform|]. intros answer_id.
                 eapply (emits_wbind 0 0); [apply emits_delete_report_silent|].
                 intros _. apply emits_wret.
              ** lia.
           ++ eapply emits_mono; [|apply Nat.le_0_l].
              destruct (bool_decide (strip answer = str "2"));
                [apply emits_delete_each|].
              destruct (bool_decide (strip answer = str "3"));
                [apply emits_wraise|apply emits_wret].
        -- intros _.
           eapply emits_wbind; [apply emits_get_all_reports|]. intros er'.
           eapply (emits_wbind 0 0); [apply emits_len_reports|].
           intros num'. apply emits_wret.
      * lia.
    + eapply emits_mono; [apply emits_wret|]. apply Nat.le_0_l.
  - lia.
Qed.

End SilentDeletes.

Section SilentPoll.
Hypothesis silent_time : p EvTime = false.
Hypothesis silent_sleep : forall seconds, p (EvSleep seconds) = false.
Hypothesis silent_status : forall report_id, p (EvReportStatus report_id) = false.

Lemma emits_poll_loop fuel report_id start_time :
  forall status, emits p 0 (poll_loop env fuel report_id start_time status).
Proof.
  induction fuel as [|fuel IH]; intros status; cbn [poll_loop].
  - apply emits_out_of_fuel.
  - destruct (bool_decide (status = PStr (str "done"))); [apply emits_wret|].
    apply (emits_wbind 0 0).
    + pose proof emits_time_time as H. rewrite silent_time in H. exact H.
    + intros now. destruct (now - start_time >? timeout).
      * apply (emits_wbind 0 0); [apply emits_log|intros _; apply emits_wret].
      * apply (emits_wbind 0 0).
        { unfold time_sleep.
          pose proof (emits_perform (EvSleep 30) (30 * second) (fun _ => Ok tt))
            as H.
          rewrite silent_sleep in H. exact H. }
        intros _. apply (emits_wbind 0 0).
        { pose proof (emits_perform (EvReportStatus report_id) 0
                        (report_status_reply env)) as H.
          rewrite silent_status in H. exact H. }
        intros status'. apply (emits_wbind 0 0); [apply emits_log|].
        intros _. apply IH.
Qed.

(** [fetch_cdr_data] sends one creation request and reads the lines of
    the report once, at most. *)
Lemma emits_fetch_cdr_data `{RT : PyRuntime} config fuel num_days (lines : nat) :
  (forall report_id, (Nat.b2n (p (EvGetReportLines report_id)) <= lines)%nat) ->
  emits p (Nat.b2n (p (creation_event config num_days)) + lines)
    (fetch_cdr_data env config fuel num_days).
Proof.
  intros Hlines. unfold fetch_cdr_data.
  eapply emits_mono.
  - eapply (emits_wbind 0); [apply emits_wgets|]. intros webex_ok.
    destruct (negb webex_ok).
    + eapply emits_mono; [apply emits_wret|]. apply Nat.le_0_l.
    + eapply (emits_wtry _ 0); [|apply emits_fetch_cdr_data_except].
      unfold fetch_cdr_data_try.
      eapply emits_wbind; [apply emits_create_report|]. intros created.
      destruct created as [report_id|].
      * eapply (emits_wbind 0); [apply emits_log|]. intros _.
        eapply (emits_wbind 0).
        { pose proof emits_time_time as H. rewrite silent_time in H. exact H. }
        intros start_time.
        eapply (emits_wbind 0); [apply emits_log|]. intros _.
        eapply (emits_wbind 0 lines); [apply emits_poll_loop|]. intros done.
        destruct (negb done).
        -- eapply emits_mono; [apply emits_wret|]. apply Nat.le_0_l.
        -- eapply emits_mono.
           ++ eapply (emits_wbind 0); [apply emits_log|]. intros _.
              eapply (emits_wbind _ 0); [apply emits_perform|].
              intros report_lines. destruct report_lines as [|line rest].
              ** apply (emits_wbind 0 0); [apply emits_log|].
                 intros _. apply emits_wret.
              ** destruct (DictReader (line :: rest));
                   [apply emits_wret|apply emits_wraise].
           ++ cbn. pose proof (Hlines report_id). lia.
      * eapply emits_mono; [apply emits_wret|]. apply Nat.le_0_l.
  - lia.
Qed.

Lemma emits_fetch_cdr_data_based_on_config `{RT : PyRuntime} config fuel
    (lines : nat) :
  (forall report_id, (Nat.b2n (p (EvGetReportLines report_id)) <= lines)%nat) ->
  emits p (Nat.b2n (p (creation_event config
                         (NUMBER_OF_DAYS_CDR_REPORT config))) + lines)
    (fetch_cdr_data_based_on_config env config fuel).
Proof.
  intros Hlines. unfold fetch_cdr_data_based_on_config.
  assert (Hnone : emits p (Nat.b2n (p (creation_event config None)) + lines)
                    (if truthy_opt (START_DATE config)
                        && truthy_opt (END_DATE config)
                     then fetch_cdr_data env config fuel None
                     else wbind (log env LogNoSchedule) (fun _ => wret None))).
  { destruct (truthy_opt (START_DATE config) && truthy_opt (END_DATE config)).
    - apply emits_fetch_cdr_data. exact Hlines.
    - eapply emits_mono; [|apply Nat.le_0_l].
      apply (emits_wbind 0 0); [apply emits_log|intros _; apply emits_wret]. }
  destruct (NUMBER_OF_DAYS_CDR_REPORT config) as [days|]; [|exact Hnone].
  destruct (days =? 0) eqn:Hz; cbn [negb].
  - unfold creation_event in *. rewrite Hz. exact Hnone.
  - apply emits_fetch_cdr_data. exact Hlines.
Qed.

(** A whole run: the calls of the quota check, then those of one fetch,
    then one write of the CSV file at most. *)
Lemma emits_run_report `{RT : PyRuntime} config fuel (lines writes : nat) :
  (forall report_id, p (EvDelete report_id) = false) ->
  (forall report_id, (Nat.b2n (p (EvGetReportLines report_id)) <= lines)%nat) ->
  (forall data, (Nat.b2n (p (EvWriteCsv data)) <= writes)%nat) ->
  emits p (2 * Nat.b2n (p EvListReports) + 2 * Nat.b2n (p EvInput)
           + Nat.b2n (p (creation_event config
                           (NUMBER_OF_DAYS_CDR_REPORT config)))
           + lines + writes)
    (run_report env config fuel).
Proof.
  intros Hdel Hlines Hwrites. unfold run_report.
  eapply emits_mono.
  - eapply (emits_wtry _ 0); [|intros e; apply emits_log].
    eapply emits_wbind; [apply (emits_handle_existing_reports Hdel)|].
    intros proceed.
    eapply (emits_mono
              (Nat.b2n (p (creation_event config
                             (NUMBER_OF_DAYS_CDR_REPORT config)))
               + lines + writes)); [|apply Nat.le_refl].
    destruct (negb proceed).
    + eapply emits_mono; [apply emits_wret|]. apply Nat.le_0_l.
    + eapply emits_wbind;
        [apply (emits_fetch_cdr_data_based_on_config config fuel lines Hlines)|].
      intros fetched. destruct fetched as [[cdr_data report_id]|].
      * destruct cdr_data as [|item rest].
        -- eapply emits_mono; [apply emits_log|]. apply Nat.le_0_l.
        -- eapply emits_mono.
           ++ eapply emits_wbind; [apply emits_write_to_csv|]. intros _.
              eapply (emits_wbind 0); [apply emits_process_all_cdr_records|].
              intros _.
              eapply (emits_wbind _ 0); [apply emits_delete_report|].
              intros _. apply emits_log.
           ++ rewrite Hdel. pose proof (Hwrites (item :: rest)). cbn. lia.
      * eapply emits_mono; [apply emits_wraise|]. apply Nat.le_0_l.
  - lia.
Qed.

End SilentPoll.
End Emits.

(** ** The status queries of a fetch *)

Lemma creation_event_cases config num_days :
  (exists days, creation_event config num_days = EvCdrReportDays days
                /\ num_days = Some days /\ days <> 0)
  \/ creation_event config num_days
     = EvCdrReportRange (START_DATE config) (END_DATE config).
Proof.
  unfold creation_event. destruct num_days as [days|]; [|right; reflexivity].
  destruct (days =? 0) eqn:Hz; [right; reflexivity|].
  left. exists days. apply Z.eqb_neq in Hz. auto.
Qed.

Section StatusQueries.
Context `{RT : PyRuntime}.
Variable env : Env.
Variable config : Config.

(** The clock bounds the status queries of the poll loop: each comes after
    a sleep of 30 seconds, and none is sent once the timeout has passed. *)
Lemma poll_loop_queries fuel report_id start_time :
  forall status s r s',
    poll_loop env fuel report_id start_time status s = Some (r, s') ->
    exists new,
      trace s' = new ++ trace s
      /\ 30 * second * Z.of_nat (count_events is_status_query new)
         <= Z.max 0 (timeout - (clock s - start_time) + 30 * second).
Proof.
  induction fuel as [|fuel IH]; intros status s r s' H; [discriminate|].
  cbn [poll_loop] in H.
  destruct (bool_decide (status = PStr (str "done"))).
  { injection H as <- <-. exists []. split; [reflexivity|]. cbn. lia. }
  unfold wbind at 1 in H. unfold time_time in H.
  destruct (perform_spec env EvTime 0 (fun _ => Ok (clock s)) s ltac:(lia))
    as (s1 & E1 & T1 & C1 & _).
  rewrite E1 in H.
  destruct (clock s - start_time >? timeout) eqn:Hto.
  { unfold wbind in H.
    destruct (log_spec env LogTimeout s1) as (s2 & E2 & T2 & _).
    rewrite E2 in H. injection H as <- <-.
    exists [(clock s1, EvLog LogTimeout); (clock s, EvTime)].
    rewrite T2, T1. split; [reflexivity|]. cbn. lia. }
  rewrite Z.gtb_ltb in Hto. apply Z.ltb_ge in Hto.
  unfold wbind at 1 in H. unfold time_sleep in H.
  destruct (perform_spec env (EvSleep 30) (30 * second) (fun _ => Ok tt) s1
              ltac:(unfold second; lia))
    as (s2 & E2 & T2 & C2 & _).
  rewrite E2 in H.
  unfold wbind at 1 in H.
  destruct (perform_spec env (EvReportStatus report_id) 0
              (report_status_reply env) s2 ltac:(lia))
    as (s3 & E3 & T3 & C3 & _).
  rewrite E3 in H.
  destruct (report_status_reply env _) as [status'|e].
  2:{ injection H as <- <-.
      exists [(clock s2, EvReportStatus report_id); (clock s1, EvSleep 30);
              (clock s, EvTime)].
      rewrite T3, T2, T1. split; [reflexivity|].
      cbn. unfold timeout, second in *. lia. }
  unfold wbind at 1 in H.
  destruct (log_spec env (SpinnerWaiting status') s3)
    as (s4 & E4 & T4 & _ & _ & Ev4).
  rewrite E4 in H.
  destruct (IH status' s4 r s' H) as (new & T & Hcount).
  exists (new ++ [(clock s3, EvLog (SpinnerWaiting status'));
                  (clock s2, EvReportStatus report_id);
                  (clock s1, EvSleep 30); (clock s, EvTime)]).
  rewrite T, T4, T3, T2, T1, <- app_assoc. split; [reflexivity|].
  rewrite count_events_app.
  change (count_events is_status_query
            [(clock s3, EvLog (SpinnerWaiting status'));
             (clock s2, EvReportStatus report_id);
             (clock s1, EvSleep 30); (clock s, EvTime)]) with 1%nat.
  destruct Ev4 as (_ & C4 & _).
  unfold timeout, second in *. lia.
Qed.

(** What follows the poll loop in [fetch_cdr_data]. *)
Lemma emits_after_poll (p : event -> bool) (lines : nat) report_id
    (done : bool) :
  (forall m, p (EvLog m) = false) ->
  (Nat.b2n (p (EvGetReportLines report_id)) <= lines)%nat ->
  emits p lines
    (if negb done then wret None
     else
       wbind (log env SpinnerFetched)
         (fun _ =>
            wbind (perform env (EvGetReportLines report_id) 0
                     (get_report_lines_reply env))
              (fun report_lines =>
                 match report_lines with
                 | [] => wbind (log env LogNoData) (fun _ => wret None)
                 | _ :: _ =>
                     match DictReader report_lines with
                     | Ok cdr_data => wret (Some (cdr_data, report_id))
                     | Raise e => wraise e
                     end
                 end))).
Proof.
  intros Hlog Hlines. destruct (negb done).
  - eapply emits_mono; [apply emits_wret|]. apply Nat.le_0_l.
  - eapply emits_mono.
    + eapply (emits_wbind p 0); [apply (emits_log env p Hlog)|]. intros _.
      eapply (emits_wbind p _ 0); [apply emits_perform|].
      intros report_lines. destruct report_lines as [|line rest].
      * apply (emits_wbind p 0 0); [apply (emits_log env p Hlog)|].
        intros _. apply emits_wret.
      * destruct (DictReader (line :: rest));
          [apply emits_wret|apply emits_wraise].
    + cbn. lia.
Qed.

Lemma emits_status_fetch_cdr_data_try fuel num_days :
  emits is_status_query 61 (fetch_cdr_data_try env config fuel num_days).
Proof.
  intros s r s' H. unfold fetch_cdr_data_try in H.
  assert (Hcreate : emits is_status_query 0 (create_report env config num_days)).
  { pose proof (emits_create_report env is_status_query (fun _ => eq_refl)
                  config num_days) as Hc.
    destruct (creation_event_cases config num_days) as [(d & Hev & _)|Hev];
      rewrite Hev in Hc; exact Hc. }
  apply wbind_inv in H as [(created & s0 & Hc & H)|(e & Hc & ->)].
  2:{ destruct (Hcreate _ _ _ Hc) as (new & T & C).
      exists new. split; [exact T|lia]. }
  destruct (Hcreate _ _ _ Hc) as (new0 & T0 & C0).
  destruct created as [report_id|].
  2:{ injection H as <- <-. exists new0. split; [exact T0|lia]. }
  unfold wbind at 1 in H.
  destruct (log_spec env (LogCreated report_id) s0) as (s1 & E1 & T1 & _).
  rewrite E1 in H.
  unfold wbind at 1 in H. unfold time_time in H.
  destruct (perform_spec env EvTime 0 (fun _ => Ok (clock s1)) s1 ltac:(lia))
    as (s2 & E2 & T2 & C2 & _).
  rewrite E2 in H.
  unfold wbind at 1 in H.
  destruct (log_spec env SpinnerFetching s2) as (s3 & E3 & T3 & _ & _ & Ev3).
  rewrite E3 in H.
  apply wbind_inv in H as [(done & s4 & Hp & H)|(e & Hp & ->)].
  - destruct (poll_loop_queries _ _ _ _ _ _ _ Hp) as (polled & Tp & Cp).
    destruct (emits_after_poll is_status_query 0 report_id done
                (fun _ => eq_refl) (Nat.le_refl _) _ _ _ H)
      as (post & Tq & Cq).
    exists (post ++ polled
              ++ [(clock s2, EvLog SpinnerFetching); (clock s1, EvTime);
                  (clock s0, EvLog (LogCreated report_id))] ++ new0).
    rewrite Tq, Tp, T3, T2, T1, T0, <- !app_assoc. split; [reflexivity|].
    rewrite !count_events_app.
    change (count_events is_status_query
              [(clock s2, EvLog SpinnerFetching); (clock s1, EvTime);
               (clock s0, EvLog (LogCreated report_id))]) with 0%nat.
    destruct Ev3 as (_ & C3 & _). unfold timeout, second in *. lia.
  - destruct (poll_loop_queries _ _ _ _ _ _ _ Hp) as (polled & Tp & Cp).
    exists (polled
              ++ [(clock s2, EvLog SpinnerFetching); (clock s1, EvTime);
                  (clock s0, EvLog (LogCreated report_id))] ++ new0).
    rewrite Tp, T3, T2, T1, T0, <- !app_assoc. split; [reflexivity|].
    rewrite !count_events_app.
    change (count_events is_status_query
              [(clock s2, EvLog SpinnerFetching); (clock s1, EvTime);
               (clock s0, EvLog (LogCreated report_id))]) with 0%nat.
    destruct Ev3 as (_ & C3 & _). unfold timeout, second in *. lia.
Qed.

Lemma emits_status_fetch_cdr_data fuel num_days :
  emits is_status_query 61 (fetch_cdr_data env config fuel num_days).
Proof.
  unfold fetch_cdr_data.
  apply (emits_wbind is_status_query 0 61); [apply emits_wgets|].
  intros webex_ok. destruct (negb webex_ok).
  - eapply emits_mono; [apply emits_wret|]. apply Nat.le_0_l.
  - apply (emits_wtry is_status_query 61 0);
      [apply emits_status_fetch_cdr_data_try|].
    intros e. apply emits_fetch_cdr_data_except. reflexivity.
Qed.

Lemma emits_status_fetch_cdr_data_based_on_config fuel :
  emits is_status_query 61 (fetch_cdr_data_based_on_config env config fuel).
Proof.
  unfold fetch_cdr_data_based_on_config.
  assert (Hnone : emits is_status_query 61
                    (if truthy_opt (START_DATE config)
                        && truthy_opt (END_DATE config)
                     then fetch_cdr_data env config fuel None
                     else wbind (log env LogNoSchedule) (fun _ => wret None))).
  { destruct (truthy_opt (START_DATE config) && truthy_opt (END_DATE config)).
    - apply emits_status_fetch_cdr_data.
    - eapply emits_mono; [|apply Nat.le_0_l].
      apply (emits_wbind is_status_query 0 0);
        [apply emits_log; reflexivity|intros _; apply emits_wret]. }
  destruct (NUMBER_OF_DAYS_CDR_REPORT config) as [days|]; [|exact Hnone].
  destruct (negb (days =? 0)); [apply emits_status_fetch_cdr_data|exact Hnone].
Qed.

Lemma emits_status_run_report fuel :
  emits is_status_query 61 (run_report env config fuel).
Proof.
  unfold run_report.
  apply (emits_wtry is_status_query 61 0);
    [|intros e; apply emits_log; reflexivity].
  apply (emits_wbind is_status_query 0 61).
  { apply (emits_handle_existing_reports env is_status_query
             (fun _ => eq_refl) (fun _ => eq_refl)). }
  intros proceed. destruct (negb proceed).
  { eapply emits_mono; [apply emits_wret|]. apply Nat.le_0_l. }
  apply (emits_wbind is_status_query 61 0);
    [apply emits_status_fetch_cdr_data_based_on_config|].
  intros fetched. destruct fetched as [[cdr_data report_id]|];
    [|apply emits_wraise].
  destruct cdr_data as [|item rest]; [apply emits_log; reflexivity|].
  apply (emits_wbind is_status_query 0 0).
  { apply (emits_write_to_csv env is_status_query (fun _ => eq_refl)). }
  intros _. apply (emits_wbind is_status_query 0 0).
  { apply emits_process_all_cdr_records. reflexivity. }
  intros _. apply (emits_wbind is_status_query 0 0).
  { apply (emits_delete_report env is_status_query (fun _ => eq_refl)). }
  intros _. apply emits_log. reflexivity.
Qed.

End StatusQueries.

(** ** Statements that leave the processor as it is *)

Section Keeps.
Variable env : Env.

Lemma keeps_wret {A} (a : A) : keeps_processor (wret a).
Proof. intros s r s' [= <- <-]. auto. Qed.

Lemma keeps_wraise {A} e : keeps_processor (@wraise A e).
Proof. intros s r s' [= <- <-]. auto. Qed.

Lemma keeps_wgets {A} (f : state -> A) : keeps_processor (wgets f).
Proof. intros s r s' [= <- <-]. auto. Qed.

Lemma keeps_out_of_fuel {A} : keeps_processor (@out_of_fuel A).
Proof. intros s r s' [=]. Qed.

Lemma keeps_wbind {A B} (c : W A) (k : A -> W B) :
  keeps_processor c -> (forall a, keeps_processor (k a)) ->
  keeps_processor (wbind c k).
Proof.
  intros Hc Hk s r s' H.
  destruct (wbind_inv c k s r s' H) as [(a & s1 & Hcs & Hks)|(e & Hcs & ->)].
  - destruct (Hc _ _ _ Hcs) as [M1 W1]. destruct (Hk a _ _ _ Hks) as [M2 W2].
    split; congruence.
  - exact (Hc _ _ _ Hcs).
Qed.

Lemma keeps_wtry {A} (c : W A) catches handler :
  keeps_processor c -> (forall e, keeps_processor (handler e)) ->
  keeps_processor (wtry c catches handler).
Proof.
  intros Hc Hh s r s' H. unfold wtry in H.
  destruct (c s) as [[[a|e] s1]|] eqn:Hcs; [| |discriminate].
  - injection H as <- <-. exact (Hc _ _ _ Hcs).
  - destruct (Hc _ _ _ Hcs) as [M1 W1]. destruct (catches e).
    + destruct (Hh e _ _ _ H) as [M2 W2]. split; congruence.
    + injection H as <- <-. auto.
Qed.

Lemma keeps_perform {A} ev duration (reply : history -> res A) :
  keeps_processor (perform env ev duration reply).
Proof. intros s r s' H. unfold perform in H. injection H as <- <-. auto. Qed.

Lemma keeps_log msg : keeps_processor (log env msg).
Proof. apply keeps_perform. Qed.

Lemma keeps_time_time : keeps_processor (time_time env).
Proof.
  intros s r s' H. unfold time_time in H.
  exact (keeps_perform EvTime 0 (fun _ => Ok (clock s)) s r s' H).
Qed.

Lemma keeps_delete_report report_id :
  keeps_processor (delete_report env report_id).
Proof.
  unfold delete_report. apply keeps_wbind; [apply keeps_perform|].
  intros status_code. apply keeps_wbind; [apply keeps_log|]. intros _.
  destruct (status_code =? 204);
    (apply keeps_wbind; [apply keeps_log|intros _; apply keeps_wret]).
Qed.

Lemma keeps_write_to_csv data : keeps_processor (write_to_csv env data).
Proof.
  unfold write_to_csv. apply keeps_wtry.
  - destruct data; [apply keeps_wraise|].
    apply keeps_wbind; [apply keeps_perform|intros _; apply keeps_log].
  - intros e. destruct (is_ValueError e); apply keeps_log.
Qed.

Lemma keeps_get_all_reports : keeps_processor (get_all_reports env).
Proof.
  unfold get_all_reports. apply keeps_wtry.
  - apply keeps_wbind; [apply keeps_wgets|]. intros webex_ok.
    destruct webex_ok; [apply keeps_perform|apply keeps_wraise].
  - intros e. apply keeps_wbind; [apply keeps_log|intros _; apply keeps_wret].
Qed.

Lemma keeps_len_reports existing_reports :
  keeps_processor (len_reports existing_reports).
Proof. destruct existing_reports; [apply keeps_wret|apply keeps_wraise]. Qed.

Lemma keeps_delete_each existing_reports :
  keeps_processor (delete_each env existing_reports).
Proof.
  induction existing_reports as [|report rest IH]; cbn [delete_each].
  - apply keeps_wret.
  - destruct (report !! str "Id"); [|apply keeps_wraise].
    apply keeps_wbind; [apply keeps_delete_report|intros _; exact IH].
Qed.

Lemma keeps_handle_existing_reports :
  keeps_processor (handle_existing_reports env).
Proof.
  unfold handle_existing_reports.
  apply keeps_wbind; [apply keeps_get_all_reports|]. intros existing_reports.
  apply keeps_wbind; [apply keeps_len_reports|]. intros num.
  apply keeps_wbind; [apply keeps_log|]. intros _.
  destruct (num =? 50); [|apply keeps_wret].
  apply keeps_wbind; [apply keeps_log|]. intros _.
  apply keeps_wbind; [apply keeps_log|]. intros _.
  apply keeps_wbind; [apply keeps_perform|]. intros answer.
  apply keeps_wbind.
  - destruct (bool_decide (strip answer = str "1")).
    + apply keeps_wbind; [apply keeps_perform|]. intros answer_id.
      apply keeps_wbind; [apply keeps_delete_report|].
      intros _. apply keeps_wret.
    + destruct (bool_decide (strip answer = str "2"));
        [apply keeps_delete_each|].
      destruct (bool_decide (strip answer = str "3"));
        [apply keeps_wraise|apply keeps_wret].
  - intros _. apply keeps_wbind; [apply keeps_get_all_reports|]. intros er'.
    apply keeps_wbind; [apply keeps_len_reports|]. intros num'.
    apply keeps_wret.
Qed.

Lemma keeps_poll_loop fuel report_id start_time :
  forall status,
    keeps_processor (poll_loop env fuel report_id start_time status).
Proof.
  induction fuel as [|fuel IH]; intros status; cbn [poll_loop].
  - apply keeps_out_of_fuel.
  - destruct (bool_decide (status = PStr (str "done"))); [apply keeps_wret|].
    apply keeps_wbind; [apply keeps_time_time|]. intros now.
    destruct (now - start_time >? timeout).
    + apply keeps_wbind; [apply keeps_log|intros _; apply keeps_wret].
    + apply keeps_wbind; [apply keeps_perform|]. intros _.
      apply keeps_wbind; [apply keeps_perform|]. intros status'.
      apply keeps_wbind; [apply keeps_log|]. intros _. apply IH.
Qed.

Lemma keeps_create_report config num_days :
  keeps_processor (create_report env config num_days).
Proof.
  assert (Hrange :
            keeps_processor
              (wbind (log env LogRunningReport)
                 (fun _ => wbind (perform env
                              (EvCdrReportRange (START_DATE config)
                                 (END_DATE config)) 0 (cdr_report_reply env))
                             (fun report_id => wret (Some report_id))))).
  { apply keeps_wbind; [apply keeps_log|]. intros _.
    apply keeps_wbind; [apply keeps_perform|]. intros report_id.
    apply keeps_wret. }
  unfold create_report. destruct num_days as [days|]; [|exact Hrange].
  destruct (days =? 0); [exact Hrange|].
  apply keeps_wbind; [apply keeps_perform|]. intros report_id.
  destruct (negb (truthy report_id)); apply keeps_wret.
Qed.

Lemma keeps_fetch_cdr_data `{RT : PyRuntime} config fuel num_days :
  keeps_processor (fetch_cdr_data env config fuel num_days).
Proof.
  unfold fetch_cdr_data. apply keeps_wbind; [apply keeps_wgets|].
  intros webex_ok. destruct (negb webex_ok); [apply keeps_wret|].
  apply keeps_wtry.
  - unfold fetch_cdr_data_try.
    apply keeps_wbind; [apply keeps_create_report|]. intros created.
    destruct created as [report_id|]; [|apply keeps_wret].
    apply keeps_wbind; [apply keeps_log|]. intros _.
    apply keeps_wbind; [apply keeps_time_time|]. intros start_time.
    apply keeps_wbind; [apply keeps_log|]. intros _.
    apply keeps_wbind; [apply keeps_poll_loop|]. intros done.
    destruct (negb done); [apply keeps_wret|].
    apply keeps_wbind; [apply keeps_log|]. intros _.
    apply keeps_wbind; [apply keeps_perform|]. intros report_lines.
    destruct report_lines as [|line rest].
    + apply keeps_wbind; [apply keeps_log|intros _; apply keeps_wret].
    + destruct (DictReader (line :: rest));
        [apply keeps_wret|apply keeps_wraise].
  - intros e. unfold fetch_cdr_data_except.
    apply keeps_wbind; [apply keeps_log|]. intros _.
    apply keeps_wbind; [|intros _; apply keeps_wret].
    destruct (response_of e);
      [apply keeps_wret|apply keeps_wraise|apply keeps_log].
Qed.

Lemma keeps_fetch_cdr_data_based_on_config `{RT : PyRuntime} config fuel :
  keeps_processor (fetch_cdr_data_based_on_config env config fuel).
Proof.
  unfold fetch_cdr_data_based_on_config.
  assert (Hnone : keeps_processor
                    (if truthy_opt (START_DATE config)
                        && truthy_opt (END_DATE config)
                     then fetch_cdr_data env config fuel None
                     else wbind (log env LogNoSchedule) (fun _ => wret None))).
  { destruct (truthy_opt (START_DATE config) && truthy_opt (END_DATE config)).
    - apply keeps_fetch_cdr_data.
    - apply keeps_wbind; [apply keeps_log|intros _; apply keeps_wret]. }
  destruct (NUMBER_OF_DAYS_CDR_REPORT config) as [days|]; [|exact Hnone].
  destruct (negb (days =? 0)); [apply keeps_fetch_cdr_data|exact Hnone].
Qed.

End Keeps.

(** ** The calls of a run *)

Lemma emits_at {A} (p : event -> bool) (n : nat) (c : W A) s r s' new :
  emits p n c ->
  c s = Some (r, s') ->
  trace s' = new ++ trace s ->
  (count_events p new <= n)%nat.
Proof.
  intros Hc H T. destruct (Hc s r s' H) as (new' & T' & C).
  rewrite T in T'. apply app_inv_tail in T'. subst new'. exact C.
Qed.

Lemma count_events_none p h :
  (count_events p h <= 0)%nat ->
  forall t e, In (t, e) h -> p e = false.
Proof.
  induction h as [|[t0 e0] h IH]; intros Hc t e Hin; [contradiction|].
  rewrite count_events_cons in Hc.
  destruct Hin as [[= -> ->]|Hin].
  - destruct (p e); [cbn in Hc; lia|reflexivity].
  - apply (IH ltac:(lia) t e Hin).
Qed.

Lemma deleted_ids_app h2 h1 :
  deleted_ids (h2 ++ h1) = deleted_ids h1 ++ deleted_ids h2.
Proof. unfold deleted_ids. rewrite omap_app, rev_app_distr. reflexivity. Qed.

Section RunProperties.
Context `{RT : PyRuntime}.
Variable env : Env.
Variable config : Config.

(** The listing of the stored reports, when the token was accepted and the
    gateway answers. *)
Lemma get_all_reports_listed s v :
  webex s = true ->
  list_reports_reply env ((clock s, EvListReports) :: trace s) = Ok v ->
  exists s1,
    get_all_reports env s = Some (Ok v, s1)
    /\ trace s1 = (clock s, EvListReports) :: trace s
    /\ webex s1 = webex s
    /\ self_metrics s1 = self_metrics s.
Proof.
  intros Hw Hreply. unfold get_all_reports, wtry, wbind, wgets.
  rewrite Hw.
  destruct (perform_spec env EvListReports 0 (list_reports_reply env) s
              ltac:(lia)) as (s1 & E1 & T1 & _ & W1 & M1 & _).
  rewrite E1, Hreply. exists s1.
  split; [reflexivity|]. split; [exact T1|]. split; [congruence|exact M1].
Qed.

(** The listing fails: [get_all_reports] logs the error and returns
    [None]. *)
Lemma get_all_reports_failed s e :
  webex s = true ->
  list_reports_reply env ((clock s, EvListReports) :: trace s) = Raise e ->
  is_Exception e = true ->
  exists s1,
    get_all_reports env s = Some (Ok None, s1)
    /\ (exists t, trace s1
                  = (t, EvLog (LogListError e)) :: (clock s, EvListReports)
                      :: trace s)
    /\ self_metrics s1 = self_metrics s.
Proof.
  intros Hw Hreply He. unfold get_all_reports, wtry, wbind at 1, wgets.
  rewrite Hw.
  destruct (perform_spec env EvListReports 0 (list_reports_reply env) s
              ltac:(lia)) as (s0 & E0 & T0 & _ & W0 & M0 & _).
  rewrite E0, Hreply, He. unfold wbind.
  destruct (log_spec env (LogListError e) s0) as (s1 & E1 & T1 & W1 & M1 & _).
  rewrite E1. exists s1. split; [reflexivity|].
  split; [exists (clock s0); congruence|congruence].
Qed.

Lemma get_all_reports_refused s :
  webex s = false ->
  exists s1,
    get_all_reports env s = Some (Ok None, s1)
    /\ trace s1 = (clock s, EvLog (LogListError AttributeError)) :: trace s
    /\ self_metrics s1 = self_metrics s.
Proof.
  intros Hw. unfold get_all_reports, wtry, wbind at 1, wgets.
  rewrite Hw. unfold wraise. cbn [is_Exception]. unfold wbind.
  destruct (log_spec env (LogListError AttributeError) s)
    as (s1 & E1 & T1 & W1 & M1 & _).
  rewrite E1. exists s1.
  split; [reflexivity|]. split; [exact T1|exact M1].
Qed.

(** Without a list of reports the run ends on the [TypeError] of
    [len(None)]. *)
Lemma run_report_unlisted fuel s s1 :
  get_all_reports env s = Some (Ok None, s1) ->
  handle_existing_reports env s = Some (Raise TypeError, s1)
  /\ exists s',
       run_report env config fuel s = Some (Ok tt, s')
       /\ trace s' = (clock s1, EvLog (LogRunError TypeError)) :: trace s1
       /\ self_metrics s' = self_metrics s1.
Proof.
  intros Hg.
  assert (Hh : handle_existing_reports env s = Some (Raise TypeError, s1)).
  { unfold handle_existing_reports. unfold wbind at 1. rewrite Hg.
    reflexivity. }
  split; [exact Hh|].
  unfold run_report, wtry. unfold wbind at 1. rewrite Hh.
  cbn [is_Exception].
  destruct (log_spec env (LogRunError TypeError) s1)
    as (s' & E & T & W & Me & _).
  exists s'. split; [exact E|]. split; [exact T|exact Me].
Qed.

(** X11: the quota check prompts the operator at exactly 50 stored
    reports.  With any other number it lists the reports once, shows the
    table and returns whether the number is below 50, without a prompt and
    without a deletion; with more than 50 the run then ends at once,
    silently and without a report. *)
Theorem quota_check_off_the_limit (fuel : nat) (s : state) (l : list row) :
  webex s = true ->
  list_reports_reply env ((clock s, EvListReports) :: trace s) = Ok (Some l) ->
  length l <> 50%nat ->
  exists s1 t,
    handle_existing_reports env s
    = Some (Ok (Z.of_nat (length l) <? 50), s1)
    /\ trace s1 = (t, EvLog LogReportTable) :: (clock s, EvListReports)
                    :: trace s
    /\ self_metrics s1 = self_metrics s
    /\ ((50 < length l)%nat ->
        run_report env config fuel s = Some (Ok tt, s1)).
Proof.
  intros Hw Hreply Hlen.
  destruct (get_all_reports_listed s (Some l) Hw Hreply)
    as (s0 & Hg & T0 & W0 & M0).
  destruct (log_spec env LogReportTable s0) as (s1 & Hl & T1 & W1 & M1 & _).
  assert (Hh : handle_existing_reports env s
               = Some (Ok (Z.of_nat (length l) <? 50), s1)).
  { unfold handle_existing_reports. unfold wbind at 1. rewrite Hg.
    unfold wbind at 1. cbn [len_reports]. unfold wret at 1.
    unfold wbind at 1. rewrite Hl.
    replace (Z.of_nat (length l) =? 50) with false
      by (symmetry; apply Z.eqb_neq; lia).
    reflexivity. }
  exists s1, (clock s0). split; [exact Hh|].
  split; [congruence|]. split; [congruence|].
  intros Hover. unfold run_report, wtry. unfold wbind at 1. rewrite Hh.
  replace (Z.of_nat (length l) <? 50) with false
    by (symmetry; apply Z.ltb_ge; lia).
  reflexivity.
Qed.

(** X12: when the gateway fails to list the stored reports with any
    [Exception], [get_all_reports] logs it and returns [None]; the quota
    check then raises the [TypeError] of [len(None)], which [run_report]
    logs before it returns.  The run has made the one listing call and
    nothing else: no report is requested and the metrics are untouched. *)
Theorem failed_listing_ends_the_run (fuel : nat) (s : state) (e : exn) :
  webex s = true ->
  list_reports_reply env ((clock s, EvListReports) :: trace s) = Raise e ->
  is_Exception e = true ->
  exists s' t1 t2,
    run_report env config fuel s = Some (Ok tt, s')
    /\ trace s' = (t2, EvLog (LogRunError TypeError))
                    :: (t1, EvLog (LogListError e))
                    :: (clock s, EvListReports) :: trace s
    /\ self_metrics s' = self_metrics s.
Proof.
  intros Hw Hreply He.
  destruct (get_all_reports_failed s e Hw Hreply He)
    as (s1 & Hg & (t1 & T1) & M1).
  destruct (run_report_unlisted fuel s s1 Hg) as (_ & s' & Hrun & T & Me).
  exists s', t1, (clock s1). split; [exact Hrun|].
  split; [congruence|congruence].
Qed.

(** X13: with a token that Webex refused ([self.webex] is [None]) a run
    makes no call that leaves the process: it logs the [AttributeError] of
    the listing and the [TypeError] of [len(None)], and returns. *)
Theorem refused_token_run_makes_no_call (fuel : nat) (s : state) :
  webex s = false ->
  exists s' t,
    run_report env config fuel s = Some (Ok tt, s')
    /\ trace s' = (t, EvLog (LogRunError TypeError))
                    :: (clock s, EvLog (LogListError AttributeError))
                    :: trace s
    /\ self_metrics s' = self_metrics s.
Proof.
  intros Hw.
  destruct (get_all_reports_refused s Hw) as (s1 & Hg & T1 & M1).
  destruct (run_report_unlisted fuel s s1 Hg) as (_ & s' & Hrun & T & Me).
  exists s', (clock s1). split; [exact Hrun|]. split; congruence.
Qed.

(** One request to delete a report. *)
Lemma delete_report_request report_id s :
  (forall h, exists code, delete_reply env h = Ok code) ->
  exists b s1 new,
    delete_report env report_id s = Some (Ok b, s1)
    /\ trace s1 = new ++ trace s
    /\ deleted_ids new = [report_id].
Proof.
  intros Hreply. unfold delete_report. unfold wbind at 1.
  destruct (perform_spec env (EvDelete report_id) 0 (delete_reply env) s
              ltac:(lia)) as (s1 & E1 & T1 & _).
  rewrite E1.
  destruct (Hreply ((clock s, EvDelete report_id) :: trace s)) as (code & ->).
  unfold wbind at 1.
  destruct (log_spec env (LogHttpStatus code) s1) as (s2 & E2 & T2 & _).
  rewrite E2.
  destruct (code =? 204); unfold wbind.
  - destruct (log_spec env (LogDeleted report_id) s2) as (s3 & E3 & T3 & _).
    rewrite E3. do 2 eexists.
    exists [(clock s2, EvLog (LogDeleted report_id));
            (clock s1, EvLog (LogHttpStatus code));
            (clock s, EvDelete report_id)].
    split; [reflexivity|]. split; [|reflexivity]. rewrite T3, T2, T1.
    reflexivity.
  - destruct (log_spec env (LogDeleteFailed report_id code) s2)
      as (s3 & E3 & T3 & _).
    rewrite E3. do 2 eexists.
    exists [(clock s2, EvLog (LogDeleteFailed report_id code));
            (clock s1, EvLog (LogHttpStatus code));
            (clock s, EvDelete report_id)].
    split; [reflexivity|]. split; [|reflexivity]. rewrite T3, T2, T1.
    reflexivity.
Qed.

(** X14: 'Delete all reports' sends one DELETE request per stored
    report, for its [Id] and in the order of the listing, whatever the
    status of each response; a report without an [Id] ends the loop with
    [KeyError] after the reports before it were deleted. *)
Theorem delete_all_requests_every_report (existing_reports : list row)
    (s : state) :
  (forall h, exists code, delete_reply env h = Ok code) ->
  exists r s' new,
    delete_each env existing_reports s = Some (r, s')
    /\ trace s' = new ++ trace s
    /\ deleted_ids new = leading_ids existing_reports
    /\ r = if bool_decide (length (leading_ids existing_reports)
                           = length existing_reports)
           then Ok tt
           else Raise KeyError.
Proof.
  intros Hreply. revert s.
  induction existing_reports as [|report rest IH]; intros s.
  - exists (Ok tt), s, []. repeat split; reflexivity.
  - cbn [delete_each leading_ids].
    destruct (report !! str "Id") as [report_id|].
    + destruct (delete_report_request report_id s Hreply)
        as (b & s1 & new1 & Hd & T1 & D1).
      destruct (IH s1) as (r & s' & new2 & Hrest & T2 & D2 & Hr).
      exists r, s', (new2 ++ new1). unfold wbind. rewrite Hd.
      split; [exact Hrest|]. split; [rewrite T2, T1, app_assoc; reflexivity|].
      split; [rewrite deleted_ids_app, D1, D2; reflexivity|].
      rewrite Hr. cbn [length].
      destruct (bool_decide (length (leading_ids rest) = length rest)) eqn:Hb.
      * apply bool_decide_eq_true in Hb. rewrite Hb.
        symmetry. rewrite bool_decide_eq_true_2; reflexivity.
      * apply bool_decide_eq_false in Hb.
        symmetry. rewrite bool_decide_eq_false_2; [reflexivity|].
        intros [= H]. contradiction.
    + exists (Raise KeyError), s, []. repeat split; reflexivity.
Qed.

(** X15: the quota check never asks for a report: it sends no creation
    request, no status query, reads no report and writes no file.  It
    lists the stored reports twice and prompts the operator twice at most,
    and leaves the metrics as they are. *)
Theorem quota_check_call_budget (s : state) :
  exists r s' new,
    handle_existing_reports env s = Some (r, s')
    /\ trace s' = new ++ trace s
    /\ (count_events is_creation new <= 0)%nat
    /\ (count_events is_status_query new <= 0)%nat
    /\ (count_events is_get_report_lines new <= 0)%nat
    /\ (count_events is_write_csv new <= 0)%nat
    /\ (count_events is_list_reports new <= 2)%nat
    /\ (count_events is_input new <= 2)%nat
    /\ self_metrics s' = self_metrics s.
Proof.
  destruct (terminates_handle_existing_reports env s) as (r & s' & H).
  destruct (emits_handle_existing_reports env is_creation
              (fun _ => eq_refl) (fun _ => eq_refl) s r s' H) as (new & T & C).
  exists r, s', new. split; [exact H|]. split; [exact T|].
  split; [exact C|].
  split; [apply (emits_at _ _ _ _ _ _ _
                   (emits_handle_existing_reports env is_status_query
                      (fun _ => eq_refl) (fun _ => eq_refl)) H T)|].
  split; [apply (emits_at _ _ _ _ _ _ _
                   (emits_handle_existing_reports env is_get_report_lines
                      (fun _ => eq_refl) (fun _ => eq_refl)) H T)|].
  split; [apply (emits_at _ _ _ _ _ _ _
                   (emits_handle_existing_reports env is_write_csv
                      (fun _ => eq_refl) (fun _ => eq_refl)) H T)|].
  split; [apply (emits_at _ _ _ _ _ _ _
                   (emits_handle_existing_reports env is_list_reports
                      (fun _ => eq_refl) (fun _ => eq_refl)) H T)|].
  split; [apply (emits_at _ _ _ _ _ _ _
                   (emits_handle_existing_reports env is_input
                      (fun _ => eq_refl) (fun _ => eq_refl)) H T)|].
  apply (keeps_handle_existing_reports env s r s' H).
Qed.

(** X16: one call of [fetch_cdr_data] sends one creation request, 61
    status queries and one request for the lines of the report at most.
    It never lists or deletes a report, so the report it requested stays
    on the gateway also when it gives up on the timeout; it never prompts
    or writes a file, and it leaves the metrics as they are. *)
Theorem fetch_call_budget (fuel : nat) (num_days : option Z) (s : state) :
  (62 <= fuel)%nat ->
  exists r s' new,
    fetch_cdr_data env config fuel num_days s = Some (r, s')
    /\ trace s' = new ++ trace s
    /\ (count_events is_creation new <= 1)%nat
    /\ (count_events is_status_query new <= 61)%nat
    /\ (count_events is_get_report_lines new <= 1)%nat
    /\ (count_events is_delete new <= 0)%nat
    /\ (count_events is_list_reports new <= 0)%nat
    /\ (count_events is_input new <= 0)%nat
    /\ (count_events is_write_csv new <= 0)%nat
    /\ self_metrics s' = self_metrics s.
Proof.
  intros Hfuel.
  destruct (terminates_fetch_cdr_data env config fuel num_days Hfuel s)
    as (r & s' & H).
  destruct (emits_status_fetch_cdr_data env config fuel num_days s r s' H)
    as (new & T & C).
  assert (Hzero : forall p,
             (forall m, p (EvLog m) = false) -> p EvTime = false ->
             (forall n, p (EvSleep n) = false) ->
             (forall id, p (EvReportStatus id) = false) ->
             (forall id, p (EvGetReportLines id) = false) ->
             p (creation_event config num_days) = false ->
             (count_events p new <= 0)%nat).
  { intros p H1 H2 H3 H4 H5 H6.
    pose proof (emits_fetch_cdr_data env p H1 H2 H3 H4 config fuel num_days 0)
      as He.
    rewrite H6 in He. apply (emits_at _ _ _ _ _ _ _ (He ltac:(intros id; rewrite H5; apply Nat.le_refl)) H T). }
  assert (Hcreation : forall p, p = is_delete \/ p = is_list_reports
                                \/ p = is_input \/ p = is_write_csv ->
                                p (creation_event config num_days) = false).
  { intros p Hp.
    destruct (creation_event_cases config num_days) as [(d & -> & _)| ->];
      destruct Hp as [->|[->|[->| ->]]]; reflexivity. }
  exists r, s', new. split; [exact H|]. split; [exact T|].
  split.
  { pose proof (emits_fetch_cdr_data env is_creation (fun _ => eq_refl)
                  eq_refl (fun _ => eq_refl) (fun _ => eq_refl)
                  config fuel num_days 0 (fun _ => Nat.le_refl _)) as He.
    pose proof (emits_at _ _ _ _ _ _ _ He H T) as Hc.
    destruct (is_creation (creation_event config num_days)); cbn in Hc; lia. }
  split; [exact C|].
  split.
  { pose proof (emits_fetch_cdr_data env is_get_report_lines
                  (fun _ => eq_refl) eq_refl (fun _ => eq_refl)
                  (fun _ => eq_refl) config fuel num_days 1
                  (fun _ => Nat.le_refl _)) as He.
    pose proof (emits_at _ _ _ _ _ _ _ He H T) as Hc.
    replace (is_get_report_lines (creation_event config num_days))
      with false in Hc; [exact Hc|].
    destruct (creation_event_cases config num_days) as [(d & -> & _)| ->];
      reflexivity. }
  split; [apply Hzero; auto; reflexivity|].
  split; [apply Hzero; auto; reflexivity|].
  split; [apply Hzero; auto; reflexivity|].
  split; [apply Hzero; auto; reflexivity|].
  apply (keeps_fetch_cdr_data env config fuel num_days s r s' H).
Qed.

(** X17: a whole run sends one creation request, 61 status queries, one
    request for the lines of the report and one write of the CSV file at
    most, after two listings and two prompts at most. *)
Theorem run_call_budget (fuel : nat) (s : state) :
  (62 <= fuel)%nat ->
  exists r s' new,
    run_report env config fuel s = Some (r, s')
    /\ trace s' = new ++ trace s
    /\ (count_events is_creation new <= 1)%nat
    /\ (count_events is_status_query new <= 61)%nat
    /\ (count_events is_get_report_lines new <= 1)%nat
    /\ (count_events is_write_csv new <= 1)%nat
    /\ (count_events is_list_reports new <= 2)%nat
    /\ (count_events is_input new <= 2)%nat.
Proof.
  intros Hfuel.
  destruct (terminates_run_report env config fuel Hfuel s) as (r & s' & H).
  destruct (emits_status_run_report env config fuel s r s' H) as (new & T & C).
  assert (Hno : forall p,
             p = is_creation \/ p = is_get_report_lines \/ p = is_write_csv
             \/ p = is_list_reports \/ p = is_input ->
             (forall m, p (EvLog m) = false) /\ p EvTime = false
             /\ (forall n, p (EvSleep n) = false)
             /\ (forall id, p (EvReportStatus id) = false)
             /\ (forall id, p (EvDelete id) = false)).
  { intros p [->|[->|[->|[->| ->]]]]; repeat split; reflexivity. }
  assert (Hbudget : forall p lines writes,
             p = is_creation \/ p = is_get_report_lines \/ p = is_write_csv
             \/ p = is_list_reports \/ p = is_input ->
             (forall id, (Nat.b2n (p (EvGetReportLines id)) <= lines)%nat) ->
             (forall data, (Nat.b2n (p (EvWriteCsv data)) <= writes)%nat) ->
             (count_events p new
              <= 2 * Nat.b2n (p EvListReports) + 2 * Nat.b2n (p EvInput)
                 + Nat.b2n (p (creation_event config
                                 (NUMBER_OF_DAYS_CDR_REPORT config)))
                 + lines + writes)%nat).
  { intros p lines writes Hp Hl Hwr.
    destruct (Hno p Hp) as (H1 & H2 & H3 & H4 & H5).
    apply (emits_at _ _ _ _ _ _ _
             (emits_run_report env p H1 H2 H3 H4 config fuel lines writes
                H5 Hl Hwr) H T). }
  exists r, s', new. split; [exact H|]. split; [exact T|].
  split.
  { pose proof (Hbudget is_creation 0%nat 0%nat (or_introl eq_refl)
                  (fun _ => Nat.le_refl _) (fun _ => Nat.le_refl _)) as Hc.
    destruct (is_creation (creation_event config
                             (NUMBER_OF_DAYS_CDR_REPORT config)));
      cbn in Hc; lia. }
  split; [exact C|].
  assert (Hev : forall p,
             p = is_get_report_lines \/ p = is_write_csv
             \/ p = is_list_reports \/ p = is_input ->
             p (creation_event config (NUMBER_OF_DAYS_CDR_REPORT config))
             = false).
  { intros p Hp.
    destruct (creation_event_cases config (NUMBER_OF_DAYS_CDR_REPORT config))
      as [(d & -> & _)| ->];
      destruct Hp as [->|[->|[->| ->]]]; reflexivity. }
  split.
  { pose proof (Hbudget is_get_report_lines 1%nat 0%nat
                  (or_intror (or_introl eq_refl))
                  (fun _ => Nat.le_refl _) (fun _ => Nat.le_refl _)) as Hc.
    rewrite Hev in Hc by auto. cbn in Hc. lia. }
  split.
  { pose proof (Hbudget is_write_csv 0%nat 1%nat
                  (or_intror (or_intror (or_introl eq_refl)))
                  (fun _ => Nat.le_refl _) (fun _ => Nat.le_refl _)) as Hc.
    rewrite Hev in Hc by auto. cbn in Hc. lia. }
  split.
  { pose proof (Hbudget is_list_reports 0%nat 0%nat
                  (or_intror (or_intror (or_intror (or_introl eq_refl))))
                  (fun _ => Nat.le_refl _) (fun _ => Nat.le_refl _)) as Hc.
    rewrite Hev in Hc by auto. cbn in Hc. lia. }
  pose proof (Hbudget is_input 0%nat 0%nat
                (or_intror (or_intror (or_intror (or_intror eq_refl))))
                (fun _ => Nat.le_refl _) (fun _ => Nat.le_refl _)) as Hc.
  rewrite Hev in Hc by auto. cbn in Hc. lia.
Qed.

(** X18: the only creation request a run can send is the one the
    configuration stands for: by day count when NUMBER_OF_DAYS_CDR_REPORT
    is a number other than 0, whatever the dates are, and else by
    START_DATE and END_DATE. *)
Theorem run_requests_what_the_configuration_says (fuel : nat) (s : state) :
  (62 <= fuel)%nat ->
  exists r s' new,
    run_report env config fuel s = Some (r, s')
    /\ trace s' = new ++ trace s
    /\ forall t e,
         In (t, e) new -> is_creation e = true ->
         e = creation_event config (NUMBER_OF_DAYS_CDR_REPORT config).
Proof.
  intros Hfuel.
  destruct (terminates_run_report env config fuel Hfuel s) as (r & s' & H).
  set (ev := creation_event config (NUMBER_OF_DAYS_CDR_REPORT config)).
  assert (He : emits (is_other_creation ev) 0 (run_report env config fuel)).
  { pose proof (emits_run_report env (is_other_creation ev)
                  (fun _ => eq_refl) eq_refl (fun _ => eq_refl)
                  (fun _ => eq_refl) config fuel 0 0 (fun _ => eq_refl)
                  (fun _ => Nat.le_refl _) (fun _ => Nat.le_refl _)) as Hr.
    fold ev in Hr.
    replace (is_other_creation ev ev) with false in Hr; [exact Hr|].
    unfold is_other_creation. rewrite bool_decide_eq_true_2 by reflexivity.
    rewrite andb_false_r. reflexivity. }
  destruct (He s r s' H) as (new & T & C).
  exists r, s', new. split; [exact H|]. split; [exact T|].
  intros t e Hin Hc.
  pose proof (count_events_none _ _ C t e Hin) as Hp.
  unfold is_other_creation in Hp. rewrite Hc in Hp. cbn [andb] in Hp.
  apply negb_false_iff in Hp. apply bool_decide_eq_true in Hp. exact Hp.
Qed.

(** X19: when the fetch gives no rows (no schedule configured, report
    refused, timeout, no data, or a gateway error that was logged),
    [run_report] fails to unpack [None]: it logs that [TypeError] and
    returns, having written no file, deleted no report and left the
    metrics as they were. *)
Theorem run_without_rows (fuel : nat) (s s1 s2 : state) :
  handle_existing_reports env s = Some (Ok true, s1) ->
  fetch_cdr_data_based_on_config env config fuel s1 = Some (Ok None, s2) ->
  exists s',
    run_report env config fuel s = Some (Ok tt, s')
    /\ trace s' = (clock s2, EvLog (LogRunError TypeError)) :: trace s2
    /\ self_metrics s' = self_metrics s.
Proof.
  intros Hh Hf. unfold run_report, wtry. unfold wbind at 1. rewrite Hh.
  cbn [negb]. unfold wbind. rewrite Hf. unfold wraise. cbn [is_Exception].
  destruct (log_spec env (LogRunError TypeError) s2)
    as (s' & E & T & W & Me & _).
  exists s'. split; [exact E|]. split; [exact T|].
  destruct (keeps_handle_existing_reports env s _ _ Hh) as [M1 _].
  destruct (keeps_fetch_cdr_data_based_on_config env config fuel s1 _ _ Hf)
    as [M2 _].
  congruence.
Qed.

(** X20: when the fetch gives rows, the metrics the run ends with are
    those the loop over the rows leaves, also when a row raised; nothing
    else in the run changes them. *)
Theorem run_metrics_are_those_of_the_batch (fuel : nat) (s s1 s2 : state)
    (item : row) (rest : list row) (report_id : pyval) :
  handle_existing_reports env s = Some (Ok true, s1) ->
  fetch_cdr_data_based_on_config env config fuel s1
  = Some (Ok (Some (item :: rest, report_id)), s2) ->
  (forall e,
      write_csv_reply env ((clock s2, EvWriteCsv (item :: rest)) :: trace s2)
      = Raise e -> is_Exception e = true) ->
  exists r s',
    run_report env config fuel s = Some (r, s')
    /\ self_metrics s' = snd (process_rows (item :: rest) (self_metrics s)).
Proof.
  intros Hh Hf Hw.
  rewrite (run_report_after_fetch env config fuel s s1 s2 _ _ Hh Hf).
  destruct (keeps_handle_existing_reports env s _ _ Hh) as [M1 _].
  destruct (keeps_fetch_cdr_data_based_on_config env config fuel s1 _ _ Hf)
    as [M2 _].
  destruct (write_to_csv_returns env (item :: rest) s2 ltac:(discriminate) Hw)
    as (s3 & Hwr).
  destruct (keeps_write_to_csv env (item :: rest) s2 _ _ Hwr) as [M3 _].
  destruct (process_all_cdr_records_spec env (item :: rest) s3)
    as (ra & s4 & Hp & M4 & _).
  assert (Hm4 : self_metrics s4
                = snd (process_rows (item :: rest) (self_metrics s)))
    by congruence.
  unfold wtry. unfold wbind at 1. rewrite Hwr. unfold wbind at 1. rewrite Hp.
  destruct ra as [[]|e].
  - unfold wbind at 1.
    destruct (terminates_delete_report env report_id s4) as (rd & s5 & Hd).
    destruct (keeps_delete_report env report_id s4 _ _ Hd) as [M5 _].
    rewrite Hd. destruct rd as [b|e].
    + destruct (log_spec env LogFinished s5) as (s6 & E6 & _ & _ & M6 & _).
      rewrite E6. do 2 eexists. split; [reflexivity|]. congruence.
    + destruct (is_Exception e).
      * destruct (log_spec env (LogRunError e) s5)
          as (s6 & E6 & _ & _ & M6 & _).
        rewrite E6. do 2 eexists. split; [reflexivity|]. congruence.
      * do 2 eexists. split; [reflexivity|]. congruence.
  - destruct (is_Exception e).
    + destruct (log_spec env (LogRunError e) s4) as (s6 & E6 & _ & _ & M6 & _).
      rewrite E6. do 2 eexists. split; [reflexivity|]. congruence.
    + do 2 eexists. split; [reflexivity|]. congruence.
Qed.

End RunProperties.

(** ** The properties above on sample runs *)

Lemma quota_check_off_the_limit_witness :
  exists s1 t,
    handle_existing_reports (crowded_env 51 "") fresh_state
    = Some (Ok false, s1)
    /\ trace s1 = [(t, EvLog LogReportTable); (0, EvListReports)]
    /\ run_report (RT := reference_runtime) (crowded_env 51 "")
         (config_days 7) 62 fresh_state = Some (Ok tt, s1).
Proof.
  destruct (quota_check_off_the_limit (RT := reference_runtime)
              (crowded_env 51 "") (config_days 7) 62 fresh_state
              (repeat ({[ str "Id" := PStr (str "R0") ]} : row) 51)
              eq_refl eq_refl ltac:(rewrite repeat_length; lia))
    as (s1 & t & Hh & T & _ & Hrun).
  exists s1, t. split; [exact Hh|]. split; [exact T|].
  apply Hrun. rewrite repeat_length. lia.
Defined.

Lemma failed_listing_ends_the_run_witness :
  exists s' t1 t2,
    run_report (RT := reference_runtime) unlisted_env (config_days 7) 62
      fresh_state = Some (Ok tt, s')
    /\ trace s' = [(t2, EvLog (LogRunError TypeError));
                   (t1, EvLog (LogListError (LibraryError NoResponseAttr)));
                   (0, EvListReports)]
    /\ self_metrics s' = initial_metrics.
Proof.
  apply (failed_listing_ends_the_run (RT := reference_runtime) unlisted_env
           (config_days 7) 62 fresh_state (LibraryError NoResponseAttr)
           eq_refl eq_refl eq_refl).
Defined.

Lemma refused_token_run_makes_no_call_witness :
  exists s' t,
    run_report (RT := reference_runtime) stalled_env (config_days 7) 62
      refused_state = Some (Ok tt, s')
    /\ trace s' = [(t, EvLog (LogRunError TypeError));
                   (0, EvLog (LogListError AttributeError))]
    /\ self_metrics s' = initial_metrics.
Proof.
  apply (refused_token_run_makes_no_call (RT := reference_runtime) stalled_env
           (config_days 7) 62 refused_state eq_refl).
Defined.

Lemma delete_all_requests_every_report_witness :
  exists r s' new,
    delete_each (crowded_env 3 "2")
      (repeat ({[ str "Id" := PStr (str "R0") ]} : row) 3) fresh_state
    = Some (r, s')
    /\ trace s' = new ++ trace fresh_state
    /\ deleted_ids new = [PStr (str "R0"); PStr (str "R0"); PStr (str "R0")]
    /\ r = Ok tt.
Proof.
  destruct (delete_all_requests_every_report (crowded_env 3 "2")
              (repeat ({[ str "Id" := PStr (str "R0") ]} : row) 3) fresh_state
              (fun h => ex_intro _ 204 eq_refl))
    as (r & s' & new & H & T & D & Hr).
  exists r, s', new. split; [exact H|]. split; [exact T|].
  split; [exact D|exact Hr].
Defined.

Lemma fetch_call_budget_witness :
  exists r s' new,
    fetch_cdr_data (RT := reference_runtime) stalled_env (config_days 7) 62
      (Some 7) fresh_state = Some (r, s')
    /\ trace s' = new ++ trace fresh_state
    /\ (count_events is_creation new <= 1)%nat
    /\ (count_events is_status_query new <= 61)%nat
    /\ (count_events is_get_report_lines new <= 1)%nat
    /\ (count_events is_delete new <= 0)%nat
    /\ (count_events is_list_reports new <= 0)%nat
    /\ (count_events is_input new <= 0)%nat
    /\ (count_events is_write_csv new <= 0)%nat
    /\ self_metrics s' = self_metrics fresh_state.
Proof.
  apply (fetch_call_budget (RT := reference_runtime) stalled_env
           (config_days 7) 62 (Some 7) fresh_state).
  lia.
Defined.

Lemma run_call_budget_witness :
  exists r s' new,
    run_report (RT := reference_runtime)
      (scripted_env 3 "" 2 report_of_one_call) (config_days 7) 62 fresh_state
    = Some (r, s')
    /\ trace s' = new ++ trace fresh_state
    /\ (count_events is_creation new <= 1)%nat
    /\ (count_events is_status_query new <= 61)%nat
    /\ (count_events is_get_report_lines new <= 1)%nat
    /\ (count_events is_write_csv new <= 1)%nat
    /\ (count_events is_list_reports new <= 2)%nat
    /\ (count_events is_input new <= 2)%nat.
Proof.
  apply (run_call_budget (RT := reference_runtime)
           (scripted_env 3 "" 2 report_of_one_call) (config_days 7) 62
           fresh_state).
  lia.
Defined.

Lemma run_requests_what_the_configuration_says_witness :
  exists r s' new,
    run_report (RT := reference_runtime)
      (scripted_env 3 "" 2 report_of_one_call) (config_days 7) 62 fresh_state
    = Some (r, s')
    /\ trace s' = new ++ trace fresh_state
    /\ forall t e,
         In (t, e) new -> is_creation e = true -> e = EvCdrReportDays 7.
Proof.
  apply (run_requests_what_the_configuration_says (RT := reference_runtime)
           (scripted_env 3 "" 2 report_of_one_call) (config_days 7) 62
           fresh_state).
  lia.
Defined.

Lemma run_without_rows_witness :
  let s1 := final_state (handle_existing_reports refusing_env fresh_state) in
  let s2 := final_state (fetch_cdr_data_based_on_config
                           (RT := reference_runtime) refusing_env
                           (config_days 7) 62 s1) in
  exists s',
    run_report (RT := reference_runtime) refusing_env (config_days 7) 62
      fresh_state = Some (Ok tt, s')
    /\ trace s' = (clock s2, EvLog (LogRunError TypeError)) :: trace s2
    /\ self_metrics s' = self_metrics fresh_state.
Proof.
  intros s1 s2.
  apply (run_without_rows (RT := reference_runtime) refusing_env
           (config_days 7) 62 fresh_state s1 s2); reflexivity.
Defined.

Lemma run_metrics_are_those_of_the_batch_witness :
  exists r s',
    run_report (RT := reference_runtime)
      (scripted_env 3 "" 2 report_of_one_call) (config_days 7) 62 fresh_state
    = Some (r, s')
    /\ self_metrics s'
       = snd (process_rows (RT := reference_runtime)
                (make_row [("Duration", "5"); ("Answered", "true")]%string
                   :: [])
                (self_metrics fresh_state)).
Proof.
  apply (run_metrics_are_those_of_the_batch (RT := reference_runtime)
           (scripted_env 3 "" 2 report_of_one_call) (config_days 7) 62
           fresh_state
           (final_state (handle_existing_reports
                           (scripted_env 3 "" 2 report_of_one_call)
                           fresh_state))
           (final_state (fetch_cdr_data_based_on_config
                           (RT := reference_runtime)
                           (scripted_env 3 "" 2 report_of_one_call)
                           (config_days 7) 62
                           (final_state
                              (handle_existing_reports
                                 (scripted_env 3 "" 2 report_of_one_call)
                                 fresh_state))))
           (make_row [("Duration", "5"); ("Answered", "true")]%string) []
           (PStr (str "R1"))).
  - reflexivity.
  - vm_compute. reflexivity.
  - intros e H. vm_compute in H. discriminate.
Defined.

(** ** The timeout of the poll loop *)

Section Timeout.
Context `{RT : PyRuntime}.
Variable env : Env.
Variable config : Config.

(** The poll loop reports the timeout only at a reading of the clock more
    than [timeout] after [start_time]. *)
Lemma poll_loop_timeout_after fuel report_id start_time :
  forall status s r s',
    poll_loop env fuel report_id start_time status s = Some (r, s') ->
    exists new,
      trace s' = new ++ trace s
      /\ forall t, In (t, EvLog LogTimeout) new -> timeout < t - start_time.
Proof.
  induction fuel as [|fuel IH]; intros status s r s' H; [discriminate|].
  cbn [poll_loop] in H.
  destruct (bool_decide (status = PStr (str "done"))).
  { injection H as <- <-. exists []. split; [reflexivity|].
    intros t []. }
  unfold wbind at 1 in H. unfold time_time in H.
  destruct (perform_spec env EvTime 0 (fun _ => Ok (clock s)) s ltac:(lia))
    as (s1 & E1 & T1 & C1 & _).
  rewrite E1 in H.
  destruct (clock s - start_time >? timeout) eqn:Hto.
  { unfold wbind in H.
    destruct (log_spec env LogTimeout s1) as (s2 & E2 & T2 & _).
    rewrite E2 in H. injection H as <- <-.
    exists [(clock s1, EvLog LogTimeout); (clock s, EvTime)].
    rewrite T2, T1. split; [reflexivity|].
    rewrite Z.gtb_ltb in Hto. apply Z.ltb_lt in Hto.
    intros t [[= <-]|[[=]|[]]]. lia. }
  unfold wbind at 1 in H. unfold time_sleep in H.
  destruct (perform_spec env (EvSleep 30) (30 * second) (fun _ => Ok tt) s1
              ltac:(unfold second; lia))
    as (s2 & E2 & T2 & C2 & _).
  rewrite E2 in H.
  unfold wbind at 1 in H.
  destruct (perform_spec env (EvReportStatus report_id) 0
              (report_status_reply env) s2 ltac:(lia))
    as (s3 & E3 & T3 & C3 & _).
  rewrite E3 in H.
  destruct (report_status_reply env _) as [status'|e].
  2:{ injection H as <- <-.
      exists [(clock s2, EvReportStatus report_id); (clock s1, EvSleep 30);
              (clock s, EvTime)].
      rewrite T3, T2, T1. split; [reflexivity|].
      intros t [[=]|[[=]|[[=]|[]]]]. }
  unfold wbind at 1 in H.
  destruct (log_spec env (SpinnerWaiting status') s3) as (s4 & E4 & T4 & _).
  rewrite E4 in H.
  destruct (IH status' s4 r s' H) as (new & T & Hnew).
  exists (new ++ [(clock s3, EvLog (SpinnerWaiting status'));
                  (clock s2, EvReportStatus report_id);
                  (clock s1, EvSleep 30); (clock s, EvTime)]).
  rewrite T, T4, T3, T2, T1, <- app_assoc. split; [reflexivity|].
  intros t Hin. apply in_app_or in Hin as [Hin|Hin]; [exact (Hnew t Hin)|].
  destruct Hin as [[=]|[[=]|[[=]|[[=]|[]]]]].
Qed.

Lemma emits_timeout_after_poll report_id (done : bool) :
  emits is_timeout_log 0
    (if negb done then wret None
     else
       wbind (log env SpinnerFetched)
         (fun _ =>
            wbind (perform env (EvGetReportLines report_id) 0
                     (get_report_lines_reply env))
              (fun report_lines =>
                 match report_lines with
                 | [] => wbind (log env LogNoData) (fun _ => wret None)
                 | _ :: _ =>
                     match DictReader report_lines with
                     | Ok cdr_data => wret (Some (cdr_data, report_id))
                     | Raise e => wraise e
                     end
                 end))).
Proof.
  destruct (negb done); [apply emits_wret|].
  apply (emits_wbind is_timeout_log 0 0).
  { exact (emits_perform env is_timeout_log (EvLog SpinnerFetched) 0
             (fun _ => Ok tt)). }
  intros _. apply (emits_wbind is_timeout_log 0 0).
  { exact (emits_perform env is_timeout_log (EvGetReportLines report_id) 0
             (get_report_lines_reply env)). }
  intros report_lines. destruct report_lines as [|line rest].
  - apply (emits_wbind is_timeout_log 0 0); [|intros _; apply emits_wret].
    exact (emits_perform env is_timeout_log (EvLog LogNoData) 0
             (fun _ => Ok tt)).
  - destruct (DictReader (line :: rest)); [apply emits_wret|apply emits_wraise].
Qed.

Lemma emits_timeout_fetch_cdr_data_except e :
  emits is_timeout_log 0 (fetch_cdr_data_except env e).
Proof.
  unfold fetch_cdr_data_except.
  apply (emits_wbind is_timeout_log 0 0).
  { exact (emits_perform env is_timeout_log (EvLog (LogFetchError e)) 0
             (fun _ => Ok tt)). }
  intros _. apply (emits_wbind is_timeout_log 0 0);
    [|intros _; apply emits_wret].
  destruct (response_of e) as [| |code];
    [apply emits_wret|apply emits_wraise|].
  exact (emits_perform env is_timeout_log (EvLog (LogFetchResponse code)) 0
           (fun _ => Ok tt)).
Qed.

Lemma fetch_cdr_data_try_timeout fuel num_days s r s' :
  fetch_cdr_data_try env config fuel num_days s = Some (r, s') ->
  exists new,
    trace s' = new ++ trace s
    /\ forall t,
         In (t, EvLog LogTimeout) new ->
         exists t_created report_id,
           In (t_created, EvLog (LogCreated report_id)) new
           /\ timeout < t - t_created.
Proof.
  intros H. unfold fetch_cdr_data_try in H.
  destruct (create_report_spec env config num_days s)
    as (rc & s0 & pre & Hc & E0 & _ & Hpre & _).
  assert (Hpre' : forall t, ~ In (t, EvLog LogTimeout) pre).
  { intros t Hin.
    destruct (creation_history_cases config num_days pre Hpre)
      as [(t0 & d & -> & _)|(t1 & t2 & -> & _)].
    - destruct Hin as [[=]|[]].
    - destruct Hin as [[=]|[[=]|[]]]. }
  destruct E0 as (T0 & C0 & _).
  unfold wbind at 1 in H. rewrite Hc in H.
  destruct rc as [[report_id|]|e].
  2:{ injection H as <- <-. exists pre. split; [exact T0|].
      intros t Hin. destruct (Hpre' t Hin). }
  2:{ injection H as <- <-. exists pre. split; [exact T0|].
      intros t Hin. destruct (Hpre' t Hin). }
  unfold wbind at 1 in H.
  destruct (log_spec env (LogCreated report_id) s0)
    as (s1 & E1 & T1 & _ & _ & Ev1).
  rewrite E1 in H.
  unfold wbind at 1 in H. unfold time_time in H.
  destruct (perform_spec env EvTime 0 (fun _ => Ok (clock s1)) s1 ltac:(lia))
    as (s2 & E2 & T2 & C2 & _).
  rewrite E2 in H.
  unfold wbind at 1 in H.
  destruct (log_spec env SpinnerFetching s2) as (s3 & E3 & T3 & _).
  rewrite E3 in H.
  destruct Ev1 as (_ & C1 & _).
  set (mid := [(clock s2, EvLog SpinnerFetching); (clock s1, EvTime);
               (clock s0, EvLog (LogCreated report_id))]).
  assert (Hpolled : forall polled t,
             (forall t, In (t, EvLog LogTimeout) polled ->
                        timeout < t - clock s1) ->
             forall post,
               (forall t, ~ In (t, EvLog LogTimeout) post) ->
               In (t, EvLog LogTimeout) (post ++ polled ++ mid ++ pre) ->
               exists t_created rid,
                 In (t_created, EvLog (LogCreated rid))
                    (post ++ polled ++ mid ++ pre)
                 /\ timeout < t - t_created).
  { intros polled t Hp post Hpost Hin.
    exists (clock s0), report_id. split.
    - apply in_or_app. right. apply in_or_app. right.
      apply in_or_app. left. unfold mid. cbn. auto.
    - apply in_app_or in Hin as [Hin|Hin]; [destruct (Hpost t Hin)|].
      apply in_app_or in Hin as [Hin|Hin]; [pose proof (Hp t Hin); lia|].
      apply in_app_or in Hin as [Hin|Hin]; [|destruct (Hpre' t Hin)].
      unfold mid in Hin. destruct Hin as [[=]|[[=]|[[=]|[]]]]. }
  apply wbind_inv in H as [(done & s4 & Hp & H)|(e & Hp & ->)].
  - destruct (poll_loop_timeout_after _ _ _ _ _ _ _ Hp) as (polled & Tp & Hto).
    destruct (emits_timeout_after_poll report_id done _ _ _ H)
      as (post & Tq & Cq).
    exists (post ++ polled ++ mid ++ pre).
    split.
    { rewrite Tq, Tp, T3, T2, T1, T0. unfold mid. rewrite <- !app_assoc.
      reflexivity. }
    intros t Hin. apply (Hpolled polled t Hto post); [|exact Hin].
    intros t' Hin'. pose proof (count_events_none _ _ Cq t' _ Hin') as Hf.
    discriminate.
  - destruct (poll_loop_timeout_after _ _ _ _ _ _ _ Hp) as (polled & Tp & Hto).
    exists ([] ++ polled ++ mid ++ pre).
    split.
    { rewrite Tp, T3, T2, T1, T0. unfold mid. rewrite <- !app_assoc.
      reflexivity. }
    intros t Hin. apply (Hpolled polled t Hto []); [|exact Hin].
    intros t' [].
Qed.

(** X22: [fetch_cdr_data] gives up on a report only when more than 30
    minutes have passed since it logged the creation of the report: every
    report of the timeout comes that long after the log entry of the
    creation in the same call. *)
Theorem timeout_only_after_thirty_minutes (fuel : nat) (num_days : option Z)
    (s : state) :
  (62 <= fuel)%nat ->
  exists r s' new,
    fetch_cdr_data env config fuel num_days s = Some (r, s')
    /\ trace s' = new ++ trace s
    /\ forall t,
         In (t, EvLog LogTimeout) new ->
         exists t_created report_id,
           In (t_created, EvLog (LogCreated report_id)) new
           /\ 30 * 60 * second < t - t_created.
Proof.
  intros Hfuel.
  destruct (terminates_fetch_cdr_data env config fuel num_days Hfuel s)
    as (r & s' & H).
  exists r, s'. pose proof H as Hrun.
  unfold fetch_cdr_data in H. unfold wbind, wgets in H.
  destruct (negb (webex s)).
  { injection H as <- <-. exists []. split; [exact Hrun|].
    split; [reflexivity|]. intros t []. }
  unfold wtry in H.
  destruct (fetch_cdr_data_try env config fuel num_days s)
    as [[[v|e] s1]|] eqn:Htry; [| |discriminate].
  - injection H as <- <-.
    destruct (fetch_cdr_data_try_timeout _ _ _ _ _ Htry) as (new & T & Hto).
    exists new. split; [exact Hrun|]. split; [exact T|].
    intros t Hin. destruct (Hto t Hin) as (tc & rid & Hc & Hlt).
    exists tc, rid. split; [exact Hc|]. unfold timeout in Hlt. lia.
  - destruct (fetch_cdr_data_try_timeout _ _ _ _ _ Htry) as (new & T & Hto).
    destruct (is_Exception e).
    + destruct (emits_timeout_fetch_cdr_data_except e _ _ _ H)
        as (logged & Tl & Cl).
      exists (logged ++ new). split; [exact Hrun|].
      split; [rewrite Tl, T, app_assoc; reflexivity|].
      intros t Hin. apply in_app_or in Hin as [Hin|Hin].
      * pose proof (count_events_none _ _ Cl t _ Hin) as Hf. discriminate.
      * destruct (Hto t Hin) as (tc & rid & Hc & Hlt).
        exists tc, rid. split; [apply in_or_app; right; exact Hc|].
        unfold timeout in Hlt. lia.
    + injection H as <- <-. exists new. split; [exact Hrun|].
      split; [exact T|].
      intros t Hin. destruct (Hto t Hin) as (tc & rid & Hc & Hlt).
      exists tc, rid. split; [exact Hc|]. unfold timeout in Hlt. lia.
Qed.

(** X23: at the limit of 50 stored reports, an answer other than 1, 2
    or 3 deletes nothing: the quota check lists the reports a second time
    and, when there are still 50, returns [False], on which the run ends
    at once, without a report and without another word. *)
Theorem unrecognised_choice_ends_the_run (fuel : nat) (s : state)
    (l : list row) (a : pystr) :
  webex s = true ->
  (forall h, list_reports_reply env h = Ok (Some l)) ->
  length l = 50%nat ->
  (forall h, input_reply env h = Ok a) ->
  strip a <> str "1" -> strip a <> str "2" -> strip a <> str "3" ->
  exists s' t1 t2 t3 t4 t5,
    handle_existing_reports env s = Some (Ok false, s')
    /\ run_report env config fuel s = Some (Ok tt, s')
    /\ trace s' = (t5, EvListReports) :: (t4, EvInput)
                    :: (t3, EvLog LogOptions) :: (t2, EvLog LogQuotaReached)
                    :: (t1, EvLog LogReportTable) :: (clock s, EvListReports)
                    :: trace s.
Proof.
  intros Hw Hl Hlen Hin H1 H2 H3.
  destruct (get_all_reports_listed env s (Some l) Hw (Hl _))
    as (s1 & Hg & T1 & W1 & M1).
  destruct (log_spec env LogReportTable s1) as (s2 & E2 & T2 & W2 & _).
  destruct (log_spec env LogQuotaReached s2) as (s3 & E3 & T3 & W3 & _).
  destruct (log_spec env LogOptions s3) as (s4 & E4 & T4 & W4 & _).
  destruct (perform_spec env EvInput 0 (input_reply env) s4 ltac:(lia))
    as (s5 & E5 & T5 & _ & W5 & _).
  rewrite Hin in E5.
  assert (Hw5 : webex s5 = true) by congruence.
  destruct (get_all_reports_listed env s5 (Some l) Hw5 (Hl _))
    as (s6 & Hg6 & T6 & _).
  assert (Hh : handle_existing_reports env s = Some (Ok false, s6)).
  { unfold handle_existing_reports. unfold wbind at 1. rewrite Hg.
    unfold wbind at 1. unfold len_reports at 1, wret at 1. rewrite Hlen.
    unfold wbind at 1. rewrite E2.
    change (Z.of_nat 50 =? 50) with true. cbv iota.
    unfold wbind at 1. rewrite E3.
    unfold wbind at 1. rewrite E4.
    unfold wbind at 1. rewrite E5.
    rewrite (bool_decide_eq_false_2 _ H1), (bool_decide_eq_false_2 _ H2),
      (bool_decide_eq_false_2 _ H3).
    unfold wbind at 1. unfold wret at 1.
    unfold wbind at 1. rewrite Hg6.
    unfold wbind, len_reports, wret. rewrite Hlen. reflexivity. }
  exists s6, (clock s1), (clock s2), (clock s3), (clock s4), (clock s5).
  split; [exact Hh|]. split.
  - unfold run_report, wtry. unfold wbind at 1. rewrite Hh. reflexivity.
  - rewrite T6, T5, T4, T3, T2, T1. reflexivity.
Qed.

End Timeout.

Lemma timeout_only_after_thirty_minutes_witness :
  exists r s' new,
    fetch_cdr_data (RT := reference_runtime) stalled_env (config_days 7) 62
      (Some 7) fresh_state = Some (r, s')
    /\ trace s' = new ++ trace fresh_state
    /\ forall t,
         In (t, EvLog LogTimeout) new ->
         exists t_created report_id,
           In (t_created, EvLog (LogCreated report_id)) new
           /\ 30 * 60 * second < t - t_created.
Proof.
  apply (timeout_only_after_thirty_minutes (RT := reference_runtime)
           stalled_env (config_days 7) 62 (Some 7) fresh_state).
  lia.
Defined.

Lemma unrecognised_choice_ends_the_run_witness :
  exists s' t1 t2 t3 t4 t5,
    handle_existing_reports (crowded_env 50 "9") fresh_state
    = Some (Ok false, s')
    /\ run_report (RT := reference_runtime) (crowded_env 50 "9")
         (config_days 7) 62 fresh_state = Some (Ok tt, s')
    /\ trace s' = (t5, EvListReports) :: (t4, EvInput)
                    :: (t3, EvLog LogOptions) :: (t2, EvLog LogQuotaReached)
                    :: (t1, EvLog LogReportTable)
                    :: (clock fresh_state, EvListReports)
                    :: trace fresh_state.
Proof.
  apply (unrecognised_choice_ends_the_run (RT := reference_runtime)
           (crowded_env 50 "9") (config_days 7) 62 fresh_state
           (repeat ({[ str "Id" := PStr (str "R0") ]} : row) 50) (str "9"));
    try reflexivity; try (intros h; reflexivity);
    try (vm_compute; discriminate).
Defined.

(** ** The validators of the configuration *)

Lemma py_int_raises limit s e : py_int limit s = Raise e -> e = ValueError.
Proof.
  unfold py_int.
  destruct (transform_decimal_and_space s) as [t|]; [|intros [= <-]; reflexivity].
  destruct (match skip_spaces t with
            | [] => (1, skip_spaces t)
            | c :: r =>
                if (c =? 43)%N then (1, r)
                else if (c =? 45)%N then (-1, r) else (1, skip_spaces t)
            end) as [sign t2].
  destruct (scan_digits AtStart 0 0 t2) as [[[v n] rest]|];
    [|intros [= <-]; reflexivity].
  destruct (skip_spaces rest); [|intros [= <-]; reflexivity].
  destruct ((0 <? limit)%N && (limit <? n)%N); [|discriminate].
  intros [= <-]. reflexivity.
Qed.

Section DayCount.
Context `{RT : PyRuntime}.

Lemma validate_string s :
  s <> [] ->
  validate_number_of_days_for_cdr_report (RawStr s)
  = match py_int int_max_str_digits s with
    | Ok n => if (1 <=? n) && (n <=? 31) then Ok (Some n) else Raise ValueError
    | Raise e => Raise e
    end.
Proof. destruct s; [contradiction|reflexivity]. Qed.

Lemma validate_int n :
  validate_number_of_days_for_cdr_report (RawInt n)
  = if (n =? 0) || ((1 <=? n) && (n <=? 31)) then Ok (Some n)
    else Raise ValueError.
Proof. destruct n as [|p|p]; [reflexivity| |reflexivity].
  cbn. destruct (Pos.leb p 31); reflexivity.
Qed.

(** X24: the validator of NUMBER_OF_DAYS_CDR_REPORT lets a value
    through as no day count exactly when it is [None] or the empty
    string; it lets 0 through only as a number (the string '0' is read
    as 0 and refused); every refusal is a [ValueError]; and what it
    returns passes the validator again unchanged. *)
Theorem validator_of_the_day_count :
  (forall v,
      validate_number_of_days_for_cdr_report v = Ok None
      <-> v = RawNone \/ v = RawStr [])
  /\ (forall s n,
        validate_number_of_days_for_cdr_report (RawStr s) = Ok (Some n) ->
        1 <= n <= 31)
  /\ (forall v e,
        validate_number_of_days_for_cdr_report v = Raise e -> e = ValueError)
  /\ (forall v n,
        validate_number_of_days_for_cdr_report v = Ok (Some n) ->
        validate_number_of_days_for_cdr_report (RawInt n) = Ok (Some n)).
Proof.
  assert (Hstr : forall s n,
             validate_number_of_days_for_cdr_report (RawStr s) = Ok (Some n) ->
             1 <= n <= 31).
  { intros s n H. destruct s as [|c s]; [discriminate|].
    rewrite validate_string in H by discriminate.
    destruct (py_int int_max_str_digits (c :: s)) as [k|e]; [|discriminate].
    destruct ((1 <=? k) && (k <=? 31)) eqn:Hr; [|discriminate].
    injection H as <-. apply andb_prop in Hr as [H1 H2].
    apply Z.leb_le in H1. apply Z.leb_le in H2. lia. }
  split; [|split; [exact Hstr|split]].
  - intros v. split.
    + destruct v as [s|n|]; [| |auto].
      * destruct s as [|c s]; [auto|].
        rewrite validate_string by discriminate.
        destruct (py_int int_max_str_digits (c :: s)) as [k|e]; [|discriminate].
        destruct ((1 <=? k) && (k <=? 31)); discriminate.
      * rewrite validate_int.
        destruct ((n =? 0) || ((1 <=? n) && (n <=? 31))); discriminate.
    + intros [-> | ->]; reflexivity.
  - intros v e H. destruct v as [s|n|]; [| |discriminate].
    + destruct s as [|c s]; [discriminate|].
      rewrite validate_string in H by discriminate.
      destruct (py_int int_max_str_digits (c :: s)) as [k|e'] eqn:Hi.
      * destruct ((1 <=? k) && (k <=? 31)); [discriminate|].
        injection H as <-. reflexivity.
      * injection H as <-. apply (py_int_raises _ _ _ Hi).
    + rewrite validate_int in H.
      destruct ((n =? 0) || ((1 <=? n) && (n <=? 31))); [discriminate|].
      injection H as <-. reflexivity.
  - intros v n H. destruct v as [s|k|]; [| |discriminate].
    + pose proof (Hstr s n H) as Hr. rewrite validate_int.
      replace ((1 <=? n) && (n <=? 31)) with true;
        [rewrite orb_true_r; reflexivity|].
      symmetry. apply andb_true_intro. split; apply Z.leb_le; lia.
    + pose proof H as H'. rewrite validate_int in H.
      destruct ((k =? 0) || ((1 <=? k) && (k <=? 31))); [|discriminate].
      injection H as <-. exact H'.
Qed.

(** X25: a day count given as a string of decimal digits, of any script
    and with leading zeros, is read as the number it denotes, and accepted
    exactly when that number is between 1 and 31. *)
Theorem day_count_from_decimal_string (s : pystr) :
  isdecimal s = true ->
  int_max_str_digits = 0%N \/ (N.of_nat (length s) <= int_max_str_digits)%N ->
  validate_number_of_days_for_cdr_report (RawStr s)
  = if (1 <=? decimal_value s) && (decimal_value s <=? 31)
    then Ok (Some (decimal_value s))
    else Raise ValueError.
Proof.
  intros Hdec Hlim.
  rewrite validate_string by (destruct s; [discriminate|discriminate]).
  rewrite (py_int_decimal _ _ Hdec Hlim). reflexivity.
Qed.

(** X26: with a day count that went through the validator, every
    creation request by day count that a run sends asks for 1 to 31 days,
    whatever the gateway and the operator do. *)
Theorem validated_days_are_requested_in_range (env : Env) (raw : raw_setting)
    (start end_ : option pystr) (config : Config) (fuel : nat) (s : state) :
  (62 <= fuel)%nat ->
  validated_config raw start end_ = Ok config ->
  exists r s' new,
    run_report env config fuel s = Some (r, s')
    /\ trace s' = new ++ trace s
    /\ forall t days, In (t, EvCdrReportDays days) new -> 1 <= days <= 31.
Proof.
  intros Hfuel Hcfg.
  destruct (terminates_run_report env config fuel Hfuel s) as (r & s' & H).
  assert (Hev : is_creation_out_of_range
                  (creation_event config (NUMBER_OF_DAYS_CDR_REPORT config))
                = false).
  { unfold validated_config in Hcfg.
    destruct (validate_number_of_days_for_cdr_report raw) as [days|e] eqn:Hv;
      [|discriminate].
    injection Hcfg as Hcfg. rewrite <- Hcfg.
    cbn [NUMBER_OF_DAYS_CDR_REPORT]. unfold creation_event.
    destruct days as [d|]; [|reflexivity].
    destruct (d =? 0) eqn:Hz; [reflexivity|].
    apply Z.eqb_neq in Hz.
    destruct (validate_number_of_days_range raw d Hv) as [Hd|Hd];
      [contradiction|].
    cbn [is_creation_out_of_range]. apply negb_false_iff.
    apply andb_true_intro. split; apply Z.leb_le; lia. }
  assert (He : emits is_creation_out_of_range 0 (run_report env config fuel)).
  { pose proof (emits_run_report env is_creation_out_of_range
                  (fun _ => eq_refl) eq_refl (fun _ => eq_refl)
                  (fun _ => eq_refl) config fuel 0 0 (fun _ => eq_refl)
                  (fun _ => Nat.le_refl _) (fun _ => Nat.le_refl _)) as Hr.
    rewrite Hev in Hr. exact Hr. }
  destruct (He s r s' H) as (new & T & C).
  exists r, s', new. split; [exact H|]. split; [exact T|].
  intros t days Hin.
  pose proof (count_events_none _ _ C t _ Hin) as Hp.
  cbn [is_creation_out_of_range] in Hp. apply negb_false_iff in Hp.
  apply andb_prop in Hp as [H1 H2].
  apply Z.leb_le in H1. apply Z.leb_le in H2. lia.
Qed.

End DayCount.

(** ** The validators of the URLs *)

Lemma re_match_literal lit s :
  re_match (List.map ReChar lit) s = true <-> exists rest, s = lit ++ rest.
Proof.
  revert s. induction lit as [|c lit IH]; intros s.
  - split; [intros _; exists s; reflexivity|reflexivity].
  - destruct s as [|c' s]; cbn [List.map re_match].
    + split; [discriminate|intros (rest & [=])].
    + rewrite andb_true_iff, N.eqb_eq, IH. split.
      * intros (-> & rest & ->). exists rest. reflexivity.
      * intros (rest & [= -> ->]). split; [reflexivity|eauto].
Qed.

Lemma validate_url_literal pattern url v :
  re_compile (str pattern) = List.map ReChar (str url) ->
  accepts_by_prefix (validate_url pattern) url v.
Proof.
  intros Hc. unfold accepts_by_prefix, validate_url. rewrite Hc.
  destruct v as [s|].
  - pose proof (re_match_literal (str url) s) as Hm.
    destruct (re_match (List.map ReChar (str url)) s); cbn [negb].
    + split; [|split; [intros v' [= <-]; reflexivity|discriminate]].
      split; [intros _|reflexivity].
      destruct (proj1 Hm eq_refl) as (rest & ->). eauto.
    + split; [|split; [discriminate|intros e [= <-]; reflexivity]].
      split; [discriminate|].
      intros (rest & [= ->]).
      assert (false = true) by (apply Hm; eauto). discriminate.
  - split; [|split; [discriminate|intros e [= <-]; reflexivity]].
    split; [discriminate|intros (rest & [=])].
Qed.

Lemma authorization_base_url_pattern :
  re_compile (str "https://api\.ciscospark\.com/v1/authorize")
  = List.map ReChar (str "https://api.ciscospark.com/v1/authorize").
Proof. vm_compute. reflexivity. Qed.

Lemma access_token_url_pattern :
  re_compile (str "https://api\.ciscospark\.com/v1/access_token")
  = List.map ReChar (str "https://api.ciscospark.com/v1/access_token").
Proof. vm_compute. reflexivity. Qed.

Lemma webex_base_url_pattern :
  re_compile (str "https://webexapis\.com/v1/")
  = List.map ReChar (str "https://webexapis.com/v1/").
Proof. vm_compute. reflexivity. Qed.

(** X27: each of the three URL validators accepts exactly the strings
    that begin with the expected URL, whatever follows it, and returns
    the value as it is; any other string is refused with [ValueError], and
    a value that is not a string makes [re.match] raise [TypeError]. *)
Theorem url_validators_check_the_prefix (v : pyval) :
  accepts_by_prefix validate_authorization_base_url
    "https://api.ciscospark.com/v1/authorize" v
  /\ accepts_by_prefix validate_access_token_url
       "https://api.ciscospark.com/v1/access_token" v
  /\ accepts_by_prefix validate_webex_base_url
       "https://webexapis.com/v1/" v.
Proof.
  split; [|split].
  - apply (validate_url_literal _ _ v authorization_base_url_pattern).
  - apply (validate_url_literal _ _ v access_token_url_pattern).
  - apply (validate_url_literal _ _ v webex_base_url_pattern).
Qed.

Lemma PStr_inj (a b : pystr) : PStr a = PStr b -> a = b.
Proof. intros H. injection H as H. exact H. Qed.

Lemma reports_endpoint_path : str "/" ++ str "reports/" = str "/reports/".
Proof. vm_compute. reflexivity. Qed.

Lemma double_slash_path :
  str "https://webexapis.com/v1/" ++ str "/reports/"
  = str "https://webexapis.com/v1//reports/".
Proof. vm_compute. reflexivity. Qed.

Lemma webex_api_url_delete base_url report_id :
  webex_api_url base_url (delete_report_endpoint report_id)
  = base_url ++ str "/reports/" ++ report_id.
Proof.
  unfold webex_api_url, delete_report_endpoint.
  rewrite <- reports_endpoint_path, <- !app_assoc. reflexivity.
Qed.

Lemma validate_webex_base_url_prefix (v : pyval) :
  validate_webex_base_url v = Ok v ->
  exists rest, v = PStr (str "https://webexapis.com/v1/" ++ rest).
Proof.
  intros Hv.
  apply (proj1 (validate_url_literal "https://webexapis\.com/v1/"
                  "https://webexapis.com/v1/" v webex_base_url_pattern)).
  exact Hv.
Qed.

(** X28: for every base URL the validator accepts, the request of
    [delete_report] goes to the accepted URL followed by /reports/ and the
    identifier: it begins with https://webexapis.com/v1/, and since
    [webex_api_call] joins base URL and endpoint with a slash of its own,
    the base URL the validator's message asks for, which ends with a
    slash, gives a path with two slashes in a row. *)
Theorem delete_request_url (base_url report_id : pystr) :
  validate_webex_base_url (PStr base_url) = Ok (PStr base_url) ->
  exists rest,
    base_url = str "https://webexapis.com/v1/" ++ rest
    /\ webex_api_url base_url (delete_report_endpoint report_id)
       = str "https://webexapis.com/v1/" ++ rest ++ str "/reports/"
           ++ report_id.
Proof.
  intros Hv.
  destruct (validate_webex_base_url_prefix (PStr base_url) Hv) as (rest & Hb).
  apply PStr_inj in Hb.
  exists rest. split; [exact Hb|].
  rewrite webex_api_url_delete, Hb, <- app_assoc. reflexivity.
Qed.

(** ** The properties above on sample settings *)

Lemma day_count_from_decimal_string_witness :
  validate_number_of_days_for_cdr_report (RT := reference_runtime)
    (RawStr (str "031"))
  = if (1 <=? decimal_value (str "031")) && (decimal_value (str "031") <=? 31)
    then Ok (Some (decimal_value (str "031")))
    else Raise ValueError.
Proof.
  apply (day_count_from_decimal_string (RT := reference_runtime) (str "031")
           eq_refl).
  right. vm_compute. discriminate.
Defined.

Lemma validated_days_are_requested_in_range_witness :
  exists r s' new,
    run_report (RT := reference_runtime)
      (scripted_env 3 "" 2 report_of_one_call) (config_days 7) 62 fresh_state
    = Some (r, s')
    /\ trace s' = new ++ trace fresh_state
    /\ forall t days, In (t, EvCdrReportDays days) new -> 1 <= days <= 31.
Proof.
  apply (validated_days_are_requested_in_range (RT := reference_runtime)
           (scripted_env 3 "" 2 report_of_one_call) (RawStr (str "7")) None
           None (config_days 7) 62 fresh_state).
  - lia.
  - reflexivity.
Defined.

Lemma delete_request_url_witness :
  exists rest,
    str "https://webexapis.com/v1/" = str "https://webexapis.com/v1/" ++ rest
    /\ webex_api_url (str "https://webexapis.com/v1/")
         (delete_report_endpoint (str "R1"))
       = str "https://webexapis.com/v1/" ++ rest ++ str "/reports/"
           ++ str "R1".
Proof.
  apply (delete_request_url (str "https://webexapis.com/v1/") (str "R1")).
  vm_compute. reflexivity.
Defined.
